(** * TaskFlow server: token service and membership-scoped routes

    A shallow embedding of [server/auth.ts] (token issue and verification)
    and of the route handlers of [server/routes.ts], followed by the
    properties of the access-control rules.

    Conventions of the embedding.
    - Request bodies are JSON objects whose fields are JavaScript values
      ([jsval]); a field that is missing from the body reads as
      [JUndefined], exactly as destructuring does.
    - The Prisma client is modelled by functions over a record of tables
      ([DB]); each table is the list of its rows.  A Prisma call that
      throws is a function returning [None]; every handler wraps its body
      in [try { ... } catch { res.status(500) }].
    - A handler is a function from the store, the authenticated identity
      ([req.user], set by [authMiddleware]) and the request to the
      response and the new store.
    - The store is the database.  The directory [uploads/], which the
      [multer] middleware of the attachment route writes the uploaded
      file to before the handler runs, is not part of it: the handler
      receives [req.file] as its input. *)

From Stdlib Require Import String Ascii List ZArith Bool Lia.
From Stdlib Require DecimalString DecimalN.
Import ListNotations.
Open Scope string_scope.

(* ================================================================== *)
(** ** JavaScript values *)
(* ================================================================== *)

(** The values a JSON body or a parsed query string can hold, plus [Date]
    objects (built by the handlers with [new Date(...)]; [None] is an
    Invalid Date).  An object is the list of its fields as the parser
    leaves them, each key once.  Numbers are only tested for truthiness
    or handed to [new Date], and are kept as integers. *)
#[warnings="-register-all"]
Inductive jsval : Type :=
| JUndefined
| JNull
| JBool (b : bool)
| JNum (n : Z)
| JStr (s : string)
| JDate (ms : option Z)
| JObj (fields : list (string * jsval))
| JArr (items : list jsval).

(** JavaScript truthiness, as used by [!x], [x || d] and [x ? a : b]. *)
Definition truthy (v : jsval) : bool :=
  match v with
  | JUndefined | JNull => false
  | JBool b => b
  | JNum n => negb (n =? 0)%Z
  | JStr s => negb (s =? "")
  | JDate _ | JObj _ | JArr _ => true
  end.

(** [a || b] *)
Definition js_or (a b : jsval) : jsval := if truthy a then a else b.

(** [v !== undefined] *)
Definition defined (v : jsval) : bool :=
  match v with JUndefined => false | _ => true end.

(** [...(c && { k: v })]: the key is present only when [c] holds, and an
    absent key reads as [undefined]. *)
Definition spread_if (c : bool) (v : jsval) : jsval :=
  if c then v else JUndefined.

(* ================================================================== *)
(** ** Token service ([server/auth.ts]) *)
(* ================================================================== *)

(** [req.user]: the identity carried by a token. *)
Record Identity : Type := mkIdentity {
  ident_id : string;
  ident_email : string;
  ident_username : string
}.

(** The payload of a token: the identity plus the registered claims that
    [jwt.sign] adds. *)
Record Claims : Type := mkClaims {
  cl_id : string;
  cl_email : string;
  cl_username : string;
  cl_iat : Z;
  cl_nbf : option Z;
  cl_exp : option Z
}.

(** What the handlers read of [req.user]. *)
Definition identity_of (c : Claims) : Identity :=
  mkIdentity (cl_id c) (cl_email c) (cl_username c).

(** [s.split(c)] *)
Fixpoint split_on (c : ascii) (s : string) : list string :=
  match s with
  | EmptyString => [EmptyString]
  | String a r =>
      if Ascii.eqb a c then EmptyString :: split_on c r
      else match split_on c r with
           | [] => [String a EmptyString]
           | p :: ps => String a p :: ps
           end
  end.

Definition dot : ascii := "."%char.

Fixpoint no_dot (s : string) : bool :=
  match s with
  | EmptyString => true
  | String a r => negb (Ascii.eqb a dot) && no_dot r
  end.

(** [s.trim() === ""], over the ASCII white space characters. *)
Definition is_space (a : ascii) : bool :=
  let n := nat_of_ascii a in
  ((9 <=? n)%nat && (n <=? 13)%nat) || (n =? 32)%nat.

Fixpoint is_blank (s : string) : bool :=
  match s with
  | EmptyString => true
  | String a r => is_space a && is_blank r
  end.

(** The reasons for which [jwt.verify] throws. *)
Inductive JwtError : Type :=
| JwtMalformed
| InvalidToken
| SignatureRequired
| InvalidAlgorithm
| InvalidSignature
| NotBefore
| TokenExpired.

(** Seven days in seconds: [expiresIn: "7d"]. *)
Definition seven_days : Z := 7 * 24 * 60 * 60.

(** The payload [generateToken] signs at time [now]. *)
Definition issued_claims (now : Z) (user : Identity) : Claims :=
  mkClaims (ident_id user) (ident_email user) (ident_username user)
           now None (Some (now + seven_days)%Z).

Section TokenService.

(** [process.env.SESSION_SECRET] *)
Variable SESSION_SECRET : option string.

(** The primitives of the [jsonwebtoken] library, which is not part of
    the repository: the base64url JSON codec of the two token segments
    and the keyed MAC, indexed by the algorithm named in the header. *)
Variable jws_header : string.
Variable decode_header : string -> option string.
Variable encode_payload : Claims -> string.
Variable decode_payload : string -> option Claims.
Variable hmac : string -> string -> string -> string.

Definition JWT_SECRET : string :=
  match SESSION_SECRET with
  | Some s => if s =? "" then "taskflow-secret-key" else s
  | None => "taskflow-secret-key"
  end.

(** [jwt.sign(payload, secret, { expiresIn })] at clock time [now]
    (seconds): the library stamps [iat] and [exp = iat + expiresIn]. *)
Definition jwt_sign (now : Z) (payload : Identity) (secret : string)
    (expiresIn : Z) : string :=
  let claims := mkClaims (ident_id payload) (ident_email payload)
                  (ident_username payload) now None
                  (Some (now + expiresIn)%Z) in
  let input := jws_header ++ "." ++ encode_payload claims in
  input ++ "." ++ hmac "HS256" secret input.

(** The algorithms [jwt.verify] accepts for a string secret. *)
Definition hs_algorithms : list string := ["HS256"; "HS384"; "HS512"].

(** [jwt.verify(token, secret)] at clock time [now] (seconds), in the
    order of the library's checks. *)
Definition jwt_verify (now : Z) (token : string) (secret : string)
    : JwtError + Claims :=
  match split_on dot token with
  | [h; b; s] =>
      match decode_header h, decode_payload b with
      | Some alg, Some claims =>
          if is_blank s then inl SignatureRequired
          else if negb (existsb (String.eqb alg) hs_algorithms)
          then inl InvalidAlgorithm
          else if negb (s =? hmac alg secret (h ++ "." ++ b))
          then inl InvalidSignature
          else if match cl_nbf claims with
                  | Some n => (now <? n)%Z
                  | None => false
                  end
          then inl NotBefore
          else if match cl_exp claims with
                  | Some e => (e <=? now)%Z
                  | None => false
                  end
          then inl TokenExpired
          else inr claims
      | _, _ => inl InvalidToken
      end
  | _ => inl JwtMalformed
  end.

Definition generateToken (now : Z) (user : Identity) : string :=
  jwt_sign now
    (mkIdentity (ident_id user) (ident_email user) (ident_username user))
    JWT_SECRET seven_days.

(** [try { return jwt.verify(token, JWT_SECRET) } catch { return null }] *)
Definition verifyToken (now : Z) (token : string) : option Claims :=
  match jwt_verify now token JWT_SECRET with
  | inr payload => Some payload
  | inl _ => None
  end.

(** What [authMiddleware] does with the request: answer 401 itself, or
    set [req.user] and call [next()]. *)
Inductive AuthOutcome : Type :=
| Unauthorized (status : nat) (error : string)
| Next (user : Claims).

Definition startsWith (p s : string) : bool := String.prefix p s.

Definition authMiddleware (now : Z) (authorization : option string)
    : AuthOutcome :=
  match authorization with
  | None => Unauthorized 401 "Unauthorized"
  | Some authHeader =>
      if negb (negb (authHeader =? "") && startsWith "Bearer " authHeader)
      then Unauthorized 401 "Unauthorized"
      else
        let token := substring 7 (String.length authHeader - 7) authHeader in
        match verifyToken now token with
        | None => Unauthorized 401 "Invalid token"
        | Some payload => Next payload
        end
  end.

End TokenService.

(* ================================================================== *)
(** ** The store: tables and the Prisma calls the routes make *)
(* ================================================================== *)

(** Rows carry the columns the routes read or write; the [createdAt] and
    [updatedAt] stamps, which only order listings, are left out. *)

Record User : Type := mkUser {
  u_id : string;
  u_email : string;
  u_username : string;
  u_password : string;
  u_displayName : option string;
  u_avatarUrl : option string
}.

Record Project : Type := mkProject {
  p_id : string;
  p_name : string;
  p_description : option string;
  p_color : string
}.

Record ProjectMember : Type := mkProjectMember {
  m_id : string;
  m_projectId : string;
  m_userId : string;
  m_role : string
}.

Record Task : Type := mkTask {
  t_id : string;
  t_title : string;
  t_description : option string;
  t_status : string;
  t_priority : string;
  t_dueDate : option Z;
  t_projectId : string;
  t_creatorId : string;
  t_assigneeId : option string
}.

Record Comment : Type := mkComment {
  c_id : string;
  c_content : string;
  c_taskId : string;
  c_userId : string
}.

Record Attachment : Type := mkAttachment {
  a_id : string;
  a_filename : string;
  a_url : string;
  a_mimeType : string;
  a_size : Z;
  a_taskId : string;
  a_uploaderId : string
}.

Record DB : Type := mkDB {
  users : list User;
  projects : list Project;
  members : list ProjectMember;
  tasks : list Task;
  comments : list Comment;
  attachments : list Attachment
}.

Definition with_projects (db : DB) (ps : list Project) : DB :=
  mkDB (users db) ps (members db) (tasks db) (comments db) (attachments db).
Definition with_members (db : DB) (ms : list ProjectMember) : DB :=
  mkDB (users db) (projects db) ms (tasks db) (comments db) (attachments db).
Definition with_tasks (db : DB) (ts : list Task) : DB :=
  mkDB (users db) (projects db) (members db) ts (comments db) (attachments db).
Definition with_comments (db : DB) (cs : list Comment) : DB :=
  mkDB (users db) (projects db) (members db) (tasks db) cs (attachments db).
Definition with_attachments (db : DB) (xs : list Attachment) : DB :=
  mkDB (users db) (projects db) (members db) (tasks db) (comments db) xs.

(** *** Relation filters *)

(** [members: { some: { userId } }] on a project. *)
Definition members_some (db : DB) (projectId userId : string) : bool :=
  existsb (fun m => (m_projectId m =? projectId) && (m_userId m =? userId))
          (members db).

(** [project: { members: { some: { userId } } }] on a task. *)
Definition task_visible (db : DB) (userId : string) (t : Task) : bool :=
  existsb (fun p => (p_id p =? t_projectId t) && members_some db (p_id p) userId)
          (projects db).

Definition user_exists (db : DB) (id : string) : bool :=
  existsb (fun u => u_id u =? id) (users db).
Definition project_exists (db : DB) (id : string) : bool :=
  existsb (fun p => p_id p =? id) (projects db).
Definition task_exists (db : DB) (id : string) : bool :=
  existsb (fun t => t_id t =? id) (tasks db).

(** *** Argument validation

    The Prisma client checks the arguments of a call against the column
    types before any row is touched, and throws when one has the wrong
    type.  The checks below are per column type; which column has which
    type is stated with each write further down. *)

(** A required [String] argument. *)
Definition as_String (v : jsval) : option string :=
  match v with JStr s => Some s | _ => None end.

(** A [String?] argument on create: omitted and [null] both store null. *)
Definition as_String_opt (v : jsval) : option (option string) :=
  match v with
  | JUndefined | JNull => Some None
  | JStr s => Some (Some s)
  | _ => None
  end.

(** A [DateTime?] argument on create; an Invalid Date is rejected. *)
Definition as_DateTime_opt (v : jsval) : option (option Z) :=
  match v with
  | JUndefined | JNull => Some None
  | JDate (Some ms) => Some (Some ms)
  | _ => None
  end.

(** On update an omitted argument leaves the column as it is, and the
    new value is given either directly or as the operation object
    [{ set: v }] with that one field; [null] is accepted by nullable
    columns only. *)

(** The [v] of an operation object [{ set: v }]. *)
Definition set_operand (v : jsval) : option jsval :=
  match v with
  | JObj [(key, x)] => if key =? "set" then Some x else None
  | _ => None
  end.

(** The string an update argument assigns to a string column, if it
    assigns one. *)
Definition assigned_String (v : jsval) : option string :=
  match v with
  | JStr s => Some s
  | _ => match set_operand v with
         | Some (JStr s) => Some s
         | _ => None
         end
  end.

(** The same for a nullable string column, where [null] is assigned as
    well. *)
Definition assigned_String_opt (v : jsval) : option (option string) :=
  match v with
  | JNull => Some None
  | JStr s => Some (Some s)
  | _ => match set_operand v with
         | Some JNull => Some None
         | Some (JStr s) => Some (Some s)
         | _ => None
         end
  end.

Definition ok_set_String (v : jsval) : bool :=
  match v with
  | JUndefined => true
  | _ => match assigned_String v with Some _ => true | None => false end
  end.

Definition ok_set_String_opt (v : jsval) : bool :=
  match v with
  | JUndefined => true
  | _ => match assigned_String_opt v with Some _ => true | None => false end
  end.

(** The routes hand a [DateTime?] column a [Date] or [null] only. *)
Definition ok_set_DateTime_opt (v : jsval) : bool :=
  match v with JUndefined | JNull | JDate (Some _) => true | _ => false end.

Definition set_String (v : jsval) (old : string) : string :=
  match assigned_String v with
  | Some s => s
  | None => old
  end.

Definition set_String_opt (v : jsval) (old : option string) : option string :=
  match assigned_String_opt v with
  | Some x => x
  | None => old
  end.

Definition set_DateTime_opt (v : jsval) (old : option Z) : option Z :=
  match v with
  | JNull => None
  | JDate (Some ms) => Some ms
  | _ => old
  end.

(** Sequencing of calls that may throw. *)
Definition bind {A B : Type} (x : option A) (f : A -> option B) : option B :=
  match x with
  | Some a => f a
  | None => None
  end.

Notation "x <- e ;; k" := (bind e (fun x => k))
  (at level 61, e at next level, right associativity, only parsing).

Definition guard (b : bool) : option unit := if b then Some tt else None.

(** *** Queries *)

Definition user_findUnique_email (db : DB) (email : jsval) : option (option User) :=
  e <- as_String email ;;
  Some (find (fun u => u_email u =? e) (users db)).

Definition project_findFirst (db : DB) (id userId : string) : option Project :=
  find (fun p => (p_id p =? id) && members_some db (p_id p) userId)
       (projects db).

Definition project_findUnique (db : DB) (id : string) : option Project :=
  find (fun p => p_id p =? id) (projects db).

Definition projectMember_findFirst (db : DB) (f : ProjectMember -> bool)
    : option ProjectMember :=
  find f (members db).

Definition task_findFirst (db : DB) (id userId : string) : option Task :=
  find (fun t => (t_id t =? id) && task_visible db userId t) (tasks db).

Definition task_findUnique (db : DB) (id : string) : option Task :=
  find (fun t => t_id t =? id) (tasks db).

(** *** Writes

    [prisma/schema.prisma], which declares the column types, the keys and
    the referential actions, is not among the sources.  Each write below
    is modelled from the spec's data model: rows are identified by [id]
    (a create whose generated id is taken throws), a row's references
    must exist, and a delete cascades along the belongs-to relationships.
    Status and priority are string columns, as the task listing treats
    them ([status as string], [priority as string]). *)

Record ProjectInput : Type := mkProjectInput {
  pi_name : jsval;
  pi_description : jsval;
  pi_color : jsval
}.

Record TaskInput : Type := mkTaskInput {
  ti_title : jsval;
  ti_description : jsval;
  ti_projectId : jsval;
  ti_status : jsval;
  ti_priority : jsval;
  ti_dueDate : jsval;
  ti_assigneeId : jsval;
  ti_creatorId : jsval
}.

(** Modelled from the spec: the schema of [Project] and [ProjectMember]
    ([name] and [color] strings, [description] nullable; the membership
    references a stored user).
    [prisma.project.create] with the nested [members: { create }]: the
    project row and its first membership are written together or not at
    all. *)
Definition project_create (db : DB) (newId newMemberId : string)
    (data : ProjectInput) (userId role : string) : option (Project * DB) :=
  name <- as_String (pi_name data) ;;
  description <- as_String_opt (pi_description data) ;;
  color <- as_String (pi_color data) ;;
  _ <- guard (negb (project_exists db newId)) ;;
  _ <- guard (negb (existsb (fun m => m_id m =? newMemberId) (members db))) ;;
  _ <- guard (user_exists db userId) ;;
  let p := mkProject newId name description color in
  let m := mkProjectMember newMemberId newId userId role in
  Some (p, with_members (with_projects db (projects db ++ [p]))
                        (members db ++ [m])).

(** Modelled from the spec: the schema of [Project], as for
    [project_create].
    [prisma.project.updateMany({ where: { id, members: { some } }, data })] *)
Definition project_updateMany (db : DB) (id userId : string)
    (data : ProjectInput) : option (nat * DB) :=
  _ <- guard (ok_set_String (pi_name data)) ;;
  _ <- guard (ok_set_String_opt (pi_description data)) ;;
  _ <- guard (ok_set_String (pi_color data)) ;;
  let hit p := (p_id p =? id) && members_some db (p_id p) userId in
  let upd p := mkProject (p_id p)
                 (set_String (pi_name data) (p_name p))
                 (set_String_opt (pi_description data) (p_description p))
                 (set_String (pi_color data) (p_color p)) in
  Some (length (filter hit (projects db)),
        with_projects db (map (fun p => if hit p then upd p else p) (projects db))).

(** Modelled from the spec: the referential actions of the schema
    ("deletion cascades to members and tasks"; a comment and an attachment
    belong to one task and go with it).
    [prisma.project.delete({ where: { id } })]; throws when no row has the
    id. *)
Definition project_delete (db : DB) (id : string) : option DB :=
  _ <- guard (project_exists db id) ;;
  let gone t := t_projectId t =? id in
  let dead := map t_id (filter gone (tasks db)) in
  let under taskId := existsb (String.eqb taskId) dead in
  Some (mkDB (users db)
          (filter (fun p => negb (p_id p =? id)) (projects db))
          (filter (fun m => negb (m_projectId m =? id)) (members db))
          (filter (fun t => negb (gone t)) (tasks db))
          (filter (fun c => negb (under (c_taskId c))) (comments db))
          (filter (fun a => negb (under (a_taskId a))) (attachments db))).

(** Modelled from the spec: the schema of [ProjectMember] ([role] a
    string; the row references a stored project and a stored user).
    [prisma.projectMember.create] *)
Definition projectMember_create (db : DB) (newId projectId userId : string)
    (role : jsval) : option (ProjectMember * DB) :=
  r <- as_String role ;;
  _ <- guard (negb (existsb (fun m => m_id m =? newId) (members db))) ;;
  _ <- guard (project_exists db projectId) ;;
  _ <- guard (user_exists db userId) ;;
  let m := mkProjectMember newId projectId userId r in
  Some (m, with_members db (members db ++ [m])).

(** Modelled from the spec: the schema of [Task] ([title], [status] and
    [priority] strings; [description], [dueDate] and [assigneeId]
    nullable; the row references a stored project, a stored creator and,
    when set, a stored assignee).
    [prisma.task.create] *)
Definition task_create (db : DB) (newId : string) (data : TaskInput)
    : option (Task * DB) :=
  title <- as_String (ti_title data) ;;
  description <- as_String_opt (ti_description data) ;;
  projectId <- as_String (ti_projectId data) ;;
  status <- as_String (ti_status data) ;;
  priority <- as_String (ti_priority data) ;;
  dueDate <- as_DateTime_opt (ti_dueDate data) ;;
  assigneeId <- as_String_opt (ti_assigneeId data) ;;
  creatorId <- as_String (ti_creatorId data) ;;
  _ <- guard (negb (task_exists db newId)) ;;
  _ <- guard (project_exists db projectId) ;;
  _ <- guard (user_exists db creatorId) ;;
  _ <- guard (match assigneeId with Some a => user_exists db a | None => true end) ;;
  let t := mkTask newId title description status priority dueDate
                  projectId creatorId assigneeId in
  Some (t, with_tasks db (tasks db ++ [t])).

(** The row written by [updateMany] over a stored task. *)
Definition task_set (data : TaskInput) (t : Task) : Task :=
  mkTask (t_id t)
    (set_String (ti_title data) (t_title t))
    (set_String_opt (ti_description data) (t_description t))
    (set_String (ti_status data) (t_status t))
    (set_String (ti_priority data) (t_priority t))
    (set_DateTime_opt (ti_dueDate data) (t_dueDate t))
    (t_projectId t)
    (t_creatorId t)
    (set_String_opt (ti_assigneeId data) (t_assigneeId t)).

(** Modelled from the spec: the schema of [Task], as for [task_create].
    The type check of the [data] of an update. *)
Definition task_set_ok (data : TaskInput) : bool :=
  ok_set_String (ti_title data) && ok_set_String_opt (ti_description data)
  && ok_set_String (ti_status data) && ok_set_String (ti_priority data)
  && ok_set_DateTime_opt (ti_dueDate data)
  && ok_set_String_opt (ti_assigneeId data).

(** Modelled from the spec: the schema of [Task], as for [task_create];
    the assignee reference is checked when a row is written.
    [prisma.task.updateMany({ where: { id, project: { members: { some } } }, data })] *)
Definition task_updateMany (db : DB) (id userId : string) (data : TaskInput)
    : option (nat * DB) :=
  _ <- guard (task_set_ok data) ;;
  let hit t := (t_id t =? id) && task_visible db userId t in
  let count := length (filter hit (tasks db)) in
  _ <- guard ((count =? 0)%nat
              || match assigned_String (ti_assigneeId data) with
                 | Some a => user_exists db a
                 | None => true
                 end) ;;
  Some (count,
        with_tasks db (map (fun t => if hit t then task_set data t else t) (tasks db))).

(** Modelled from the spec: the referential actions of the schema (a
    comment and an attachment belong to one task and go with it).
    [prisma.task.delete({ where: { id } })]; throws when no row has the
    id. *)
Definition task_delete (db : DB) (id : string) : option DB :=
  _ <- guard (task_exists db id) ;;
  Some (mkDB (users db) (projects db) (members db)
          (filter (fun t => negb (t_id t =? id)) (tasks db))
          (filter (fun c => negb (c_taskId c =? id)) (comments db))
          (filter (fun a => negb (a_taskId a =? id)) (attachments db))).

(** Modelled from the spec: the schema of [Comment] ([content] a string;
    the row references a stored task and a stored user).
    [prisma.comment.create] *)
Definition comment_create (db : DB) (newId : string) (content : jsval)
    (taskId userId : string) : option (Comment * DB) :=
  text <- as_String content ;;
  _ <- guard (negb (existsb (fun c => c_id c =? newId) (comments db))) ;;
  _ <- guard (task_exists db taskId) ;;
  _ <- guard (user_exists db userId) ;;
  let c := mkComment newId text taskId userId in
  Some (c, with_comments db (comments db ++ [c])).

(** Modelled from the spec: the schema of [Attachment] (the row
    references a stored task and a stored uploader).
    [prisma.attachment.create] *)
Definition attachment_create (db : DB) (a : Attachment) : option (Attachment * DB) :=
  _ <- guard (negb (existsb (fun x => a_id x =? a_id a) (attachments db))) ;;
  _ <- guard (task_exists db (a_taskId a)) ;;
  _ <- guard (user_exists db (a_uploaderId a)) ;;
  Some (a, with_attachments db (attachments db ++ [a])).

(* ================================================================== *)
(** ** Routes ([server/routes.ts]) *)
(* ================================================================== *)

(** The [select] used for team members: no password column. *)
Record TeamMember : Type := mkTeamMember {
  tm_id : string;
  tm_username : string;
  tm_displayName : option string;
  tm_avatarUrl : option string;
  tm_email : string;
  tm_assignedTasks : nat
}.

(** What [res.json] is given.  Joined summaries ([include] of user
    profiles and counts) are projections of other rows and are kept only
    where a route returns whole child rows. *)
Inductive Json : Type :=
| JsonError (error : string)
| JsonSuccess
| JsonNull
| JsonProject (p : Project)
| JsonProjectDetail (p : Project) (ms : list ProjectMember) (ts : list Task)
| JsonProjects (ps : list Project)
| JsonMember (m : ProjectMember)
| JsonTask (t : Task)
| JsonTaskDetail (t : Task) (cs : list Comment) (xs : list Attachment)
| JsonTasks (ts : list Task)
| JsonComment (c : Comment)
| JsonAttachment (a : Attachment)
| JsonTeam (us : list TeamMember).

(** Status code and body. *)
Definition Response : Type := (nat * Json)%type.

(** [res.status(code).json({ error })] *)
Definition res_error (code : nat) (error : string) : Response :=
  (code, JsonError error).

(** [res.json(body)] *)
Definition res_json (body : Json) : Response := (200%nat, body).

Record ProjectBody : Type := mkProjectBody {
  pb_name : jsval;
  pb_description : jsval;
  pb_color : jsval
}.

Record MemberBody : Type := mkMemberBody {
  mb_email : jsval;
  mb_role : jsval
}.

(** The body of a task request.  [b_creatorId] stands for an author field
    a client may send along; no handler destructures it. *)
Record TaskBody : Type := mkTaskBody {
  b_title : jsval;
  b_description : jsval;
  b_projectId : jsval;
  b_status : jsval;
  b_priority : jsval;
  b_dueDate : jsval;
  b_assigneeId : jsval;
  b_creatorId : jsval
}.

(** [req.query] of the task listing as the query-string parser leaves it:
    a parameter is absent ([JUndefined]), a string, an array (a repeated
    key) or an object (a key with brackets, as in [status[not]=x]). *)
Record TaskQuery : Type := mkTaskQuery {
  q_projectId : jsval;
  q_status : jsval;
  q_priority : jsval;
  q_assigneeId : jsval
}.

(** A query parameter that is absent or given once, as a string. *)
Definition plain_param (v : jsval) : bool :=
  match v with
  | JUndefined | JStr _ => true
  | _ => false
  end.

(** The reading of a filter object in a [where]: the condition it puts on
    a column of type [A], or [None] when the client rejects it. *)
Definition FilterOf (A : Type) : Type :=
  list (string * jsval) -> option (A -> bool).

(** [req.file] as multer leaves it. *)
Record UploadedFile : Type := mkUploadedFile {
  f_originalname : string;
  f_filename : string;
  f_mimetype : string;
  f_size : Z
}.

Section Routes.

(** [new Date(v)] of the JavaScript engine; [None] is an Invalid Date. *)
Variable newDate : jsval -> option Z.

(** How the Prisma client, which is not part of the repository, reads a
    filter object (such as [{ not: "x" }] or [{ in: [...] }]) given in a
    [where] for a string column and for a nullable string column. *)
Variable StringFilter : FilterOf string.
Variable StringNullableFilter : FilterOf (option string).

(** A [where] condition on a string column: a string stands for
    equality, an object is a filter, anything else is rejected. *)
Definition where_String (v : jsval) : option (string -> bool) :=
  match v with
  | JStr s => Some (fun column => column =? s)
  | JObj fields => StringFilter fields
  | _ => None
  end.

Definition where_String_opt (v : jsval) : option (option string -> bool) :=
  match v with
  | JStr s => Some (fun column => match column with
                                  | Some c => c =? s
                                  | None => false
                                  end)
  | JNull => Some (fun column => match column with
                                 | Some _ => false
                                 | None => true
                                 end)
  | JObj fields => StringNullableFilter fields
  | _ => None
  end.

(** [...(q && { column: q })] in a [where]: no condition for a falsy
    parameter. *)
Definition spread_where {A : Type} (read : jsval -> option (A -> bool))
    (q : jsval) : option (A -> bool) :=
  if truthy q then read q else Some (fun _ => true).

(** [prisma.project.findFirst({ where: { id, members: { some } } })] with
    the condition [idIs] on the id. *)
Definition project_findFirst_where (db : DB) (idIs : string -> bool)
    (userId : string) : option Project :=
  find (fun p => idIs (p_id p) && members_some db (p_id p) userId)
       (projects db).

(** [v ? new Date(v) : null] *)
Definition date_or_null (v : jsval) : jsval :=
  if truthy v then JDate (newDate v) else JNull.

(** GET /api/projects *)
Definition get_projects (db : DB) (user : Identity) : Response * DB :=
  (res_json (JsonProjects
     (filter (fun p => members_some db (p_id p) (ident_id user)) (projects db))),
   db).

(** POST /api/projects; [newId] and [newMemberId] are the ids the store
    generates for the two rows. *)
Definition post_projects (newId newMemberId : string) (db : DB)
    (user : Identity) (body : ProjectBody) : Response * DB :=
  if negb (truthy (pb_name body))
  then (res_error 400 "Project name is required", db)
  else
    match project_create db newId newMemberId
            (mkProjectInput (pb_name body) (pb_description body)
               (js_or (pb_color body) (JStr "#2563EB")))
            (ident_id user) "owner" with
    | Some (project, db') => (res_json (JsonProject project), db')
    | None => (res_error 500 "Failed to create project", db)
    end.

(** GET /api/projects/:id *)
Definition get_projects_id (db : DB) (user : Identity) (id : string)
    : Response * DB :=
  match project_findFirst db id (ident_id user) with
  | None => (res_error 404 "Project not found", db)
  | Some project =>
      (res_json (JsonProjectDetail project
         (filter (fun m => m_projectId m =? p_id project) (members db))
         (filter (fun t => t_projectId t =? p_id project) (tasks db))),
       db)
  end.

(** PUT /api/projects/:id *)
Definition put_projects_id (db : DB) (user : Identity) (id : string)
    (body : ProjectBody) : Response * DB :=
  match project_updateMany db id (ident_id user)
          (mkProjectInput (pb_name body) (pb_description body) (pb_color body)) with
  | None => (res_error 500 "Failed to update project", db)
  | Some (count, db') =>
      if (count =? 0)%nat
      then (res_error 404 "Project not found", db')
      else
        match project_findUnique db' id with
        | Some updated => (res_json (JsonProject updated), db')
        | None => (res_json JsonNull, db')
        end
  end.

(** DELETE /api/projects/:id *)
Definition delete_projects_id (db : DB) (user : Identity) (id : string)
    : Response * DB :=
  match projectMember_findFirst db
          (fun m => (m_projectId m =? id) && (m_userId m =? ident_id user)
                    && (m_role m =? "owner")) with
  | None => (res_error 403 "Only owner can delete project", db)
  | Some membership =>
      match project_delete db id with
      | Some db' => (res_json JsonSuccess, db')
      | None => (res_error 500 "Failed to delete project", db)
      end
  end.

(** POST /api/projects/:id/members *)
Definition post_projects_id_members (newId : string) (db : DB)
    (user : Identity) (id : string) (body : MemberBody) : Response * DB :=
  match user_findUnique_email db (mb_email body) with
  | None => (res_error 500 "Failed to add member", db)
  | Some None => (res_error 404 "User not found", db)
  | Some (Some target) =>
      match projectMember_findFirst db
              (fun m => (m_projectId m =? id) && (m_userId m =? u_id target)) with
      | Some existingMember => (res_error 400 "User is already a member", db)
      | None =>
          match projectMember_create db newId id (u_id target)
                  (js_or (mb_role body) (JStr "member")) with
          | Some (member, db') => (res_json (JsonMember member), db')
          | None => (res_error 500 "Failed to add member", db)
          end
      end
  end.

(** GET /api/tasks *)
Definition get_tasks (db : DB) (user : Identity) (query : TaskQuery)
    : Response * DB :=
  match spread_where where_String (q_projectId query),
        spread_where where_String (q_status query),
        spread_where where_String (q_priority query),
        spread_where where_String_opt (q_assigneeId query) with
  | Some projectIs, Some statusIs, Some priorityIs, Some assigneeIs =>
      (res_json (JsonTasks
         (filter (fun t => task_visible db (ident_id user) t
                           && projectIs (t_projectId t)
                           && statusIs (t_status t)
                           && priorityIs (t_priority t)
                           && assigneeIs (t_assigneeId t))
                 (tasks db))),
       db)
  | _, _, _, _ => (res_error 500 "Failed to fetch tasks", db)
  end.

(** POST /api/tasks; [newId] is the id the store generates. *)
Definition post_tasks (newId : string) (db : DB) (user : Identity)
    (body : TaskBody) : Response * DB :=
  if negb (truthy (b_title body)) || negb (truthy (b_projectId body))
  then (res_error 400 "Title and project are required", db)
  else
    match where_String (b_projectId body) with
    | None => (res_error 500 "Failed to create task", db)
    | Some idIs =>
        match project_findFirst_where db idIs (ident_id user) with
        | None => (res_error 404 "Project not found", db)
        | Some project =>
            match task_create db newId
                    (mkTaskInput (b_title body) (b_description body)
                       (b_projectId body)
                       (js_or (b_status body) (JStr "todo"))
                       (js_or (b_priority body) (JStr "medium"))
                       (date_or_null (b_dueDate body))
                       (b_assigneeId body)
                       (JStr (ident_id user))) with
            | Some (task, db') => (res_json (JsonTask task), db')
            | None => (res_error 500 "Failed to create task", db)
            end
        end
    end.

(** GET /api/tasks/:id *)
Definition get_tasks_id (db : DB) (user : Identity) (id : string)
    : Response * DB :=
  match task_findFirst db id (ident_id user) with
  | None => (res_error 404 "Task not found", db)
  | Some task =>
      (res_json (JsonTaskDetail task
         (filter (fun c => c_taskId c =? t_id task) (comments db))
         (filter (fun a => a_taskId a =? t_id task) (attachments db))),
       db)
  end.

(** The [data] object of PUT /api/tasks/:id. *)
Definition put_tasks_data (body : TaskBody) : TaskInput :=
  mkTaskInput
    (spread_if (defined (b_title body)) (b_title body))
    (spread_if (defined (b_description body)) (b_description body))
    JUndefined
    (spread_if (defined (b_status body)) (b_status body))
    (spread_if (defined (b_priority body)) (b_priority body))
    (spread_if (defined (b_dueDate body)) (date_or_null (b_dueDate body)))
    (spread_if (defined (b_assigneeId body)) (b_assigneeId body))
    JUndefined.

(** PUT /api/tasks/:id *)
Definition put_tasks_id (db : DB) (user : Identity) (id : string)
    (body : TaskBody) : Response * DB :=
  match task_updateMany db id (ident_id user) (put_tasks_data body) with
  | None => (res_error 500 "Failed to update task", db)
  | Some (count, db') =>
      if (count =? 0)%nat
      then (res_error 404 "Task not found", db')
      else
        match task_findUnique db' id with
        | Some updated => (res_json (JsonTask updated), db')
        | None => (res_json JsonNull, db')
        end
  end.

(** DELETE /api/tasks/:id *)
Definition delete_tasks_id (db : DB) (user : Identity) (id : string)
    : Response * DB :=
  match task_findFirst db id (ident_id user) with
  | None => (res_error 404 "Task not found", db)
  | Some task =>
      match task_delete db id with
      | Some db' => (res_json JsonSuccess, db')
      | None => (res_error 500 "Failed to delete task", db)
      end
  end.

(** POST /api/tasks/:id/comments *)
Definition post_tasks_id_comments (newId : string) (db : DB)
    (user : Identity) (id : string) (content : jsval) : Response * DB :=
  if negb (truthy content)
  then (res_error 400 "Content is required", db)
  else
    match task_findFirst db id (ident_id user) with
    | None => (res_error 404 "Task not found", db)
    | Some task =>
        match comment_create db newId content id (ident_id user) with
        | Some (comment, db') => (res_json (JsonComment comment), db')
        | None => (res_error 500 "Failed to create comment", db)
        end
    end.

(** POST /api/tasks/:id/attachments, after [upload.single("file")] *)
Definition post_tasks_id_attachments (newId : string) (db : DB)
    (user : Identity) (id : string) (file : option UploadedFile)
    : Response * DB :=
  match file with
  | None => (res_error 400 "File is required", db)
  | Some f =>
      match task_findFirst db id (ident_id user) with
      | None => (res_error 404 "Task not found", db)
      | Some task =>
          match attachment_create db
                  (mkAttachment newId (f_originalname f)
                     ("/uploads/" ++ f_filename f) (f_mimetype f) (f_size f)
                     id (ident_id user)) with
          | Some (attachment, db') => (res_json (JsonAttachment attachment), db')
          | None => (res_error 500 "Failed to upload attachment", db)
          end
      end
  end.

(** GET /api/team *)
Definition get_team (db : DB) (user : Identity) : Response * DB :=
  let projectIds :=
    map m_projectId
        (filter (fun m => m_userId m =? ident_id user) (members db)) in
  let teamMembers :=
    filter (fun u =>
              existsb (fun m => (m_userId m =? u_id u)
                                && existsb (String.eqb (m_projectId m)) projectIds)
                      (members db))
           (users db) in
  (res_json (JsonTeam
     (map (fun u =>
             mkTeamMember (u_id u) (u_username u) (u_displayName u)
               (u_avatarUrl u) (u_email u)
               (length (filter (fun t => match t_assigneeId t with
                                         | Some a => a =? u_id u
                                         | None => false
                                         end) (tasks db))))
          teamMembers)),
   db).

End Routes.

(* ================================================================== *)
(** ** Operations on the store, and the vocabulary of the properties *)
(* ================================================================== *)

(** The requests that write to the store, each with the identity making
    it, the ids the store generates for new rows, and its arguments. *)
Inductive Op : Type :=
| PostProjects (newId newMemberId : string) (user : Identity) (body : ProjectBody)
| PutProjectsId (user : Identity) (id : string) (body : ProjectBody)
| DeleteProjectsId (user : Identity) (id : string)
| PostProjectsIdMembers (newId : string) (user : Identity) (id : string)
    (body : MemberBody)
| PostTasks (newId : string) (user : Identity) (body : TaskBody)
| PutTasksId (user : Identity) (id : string) (body : TaskBody)
| DeleteTasksId (user : Identity) (id : string)
| PostTasksIdComments (newId : string) (user : Identity) (id : string)
    (content : jsval)
| PostTasksIdAttachments (newId : string) (user : Identity) (id : string)
    (file : option UploadedFile).

Definition run_op (newDate : jsval -> option Z) (StringFilter : FilterOf string)
    (db : DB) (op : Op) : Response * DB :=
  match op with
  | PostProjects newId newMemberId user body =>
      post_projects newId newMemberId db user body
  | PutProjectsId user id body => put_projects_id db user id body
  | DeleteProjectsId user id => delete_projects_id db user id
  | PostProjectsIdMembers newId user id body =>
      post_projects_id_members newId db user id body
  | PostTasks newId user body =>
      post_tasks newDate StringFilter newId db user body
  | PutTasksId user id body => put_tasks_id newDate db user id body
  | DeleteTasksId user id => delete_tasks_id db user id
  | PostTasksIdComments newId user id content =>
      post_tasks_id_comments newId db user id content
  | PostTasksIdAttachments newId user id file =>
      post_tasks_id_attachments newId db user id file
  end.

(** The store after a sequence of requests. *)
Definition run_ops (newDate : jsval -> option Z) (StringFilter : FilterOf string)
    (db : DB) (ops : list Op) : DB :=
  fold_left (fun d op => snd (run_op newDate StringFilter d op)) ops db.

(** The status and priority values of the data model. *)
Definition statuses : list string :=
  ["todo"; "in_progress"; "in_review"; "completed"].
Definition priorities : list string := ["low"; "medium"; "high"].

Definition status_ok (s : string) : bool := existsb (String.eqb s) statuses.
Definition priority_ok (s : string) : bool := existsb (String.eqb s) priorities.

Definition task_enums_ok (t : Task) : bool :=
  status_ok (t_status t) && priority_ok (t_priority t).

(** Every stored task has a listed status and a listed priority. *)
Definition tasks_enums_ok (db : DB) : Prop :=
  forall t, In t (tasks db) -> task_enums_ok t = true.

(** A value supplied for an enumerated column of a new task is one of the
    listed ones; a falsy value is replaced by the default. *)
Definition create_value_ok (valid : string -> bool) (v : jsval) : bool :=
  match v with
  | JStr s => (s =? "") || valid s
  | _ => true
  end.

(** A value supplied for an enumerated column of a stored task, directly
    or as [{ set: v }], is one of the listed ones. *)
Definition update_value_ok (valid : string -> bool) (v : jsval) : bool :=
  match assigned_String v with
  | Some s => valid s
  | None => true
  end.

Definition op_enums_ok (op : Op) : bool :=
  match op with
  | PostTasks _ _ body =>
      create_value_ok status_ok (b_status body)
      && create_value_ok priority_ok (b_priority body)
  | PutTasksId _ _ body =>
      update_value_ok status_ok (b_status body)
      && update_value_ok priority_ok (b_priority body)
  | _ => true
  end.

(** Two users hold memberships in a common project. *)
Definition shares_project (db : DB) (a b : string) : Prop :=
  exists m1 m2, In m1 (members db) /\ In m2 (members db) /\
                m_userId m1 = a /\ m_userId m2 = b /\
                m_projectId m1 = m_projectId m2.

(** The number of tasks assigned to a user, over all projects. *)
Definition assigned_count (db : DB) (userId : string) : nat :=
  length (filter (fun t => match t_assigneeId t with
                           | Some a => a =? userId
                           | None => false
                           end) (tasks db)).

(** What a successful partial update does to one task, field by field. *)
Definition updated_as_requested (newDate : jsval -> option Z)
    (body : TaskBody) (old new : Task) : Prop :=
  t_id new = t_id old /\
  t_projectId new = t_projectId old /\
  t_creatorId new = t_creatorId old /\
  (b_title body = JUndefined -> t_title new = t_title old) /\
  (forall s, b_title body = JStr s -> t_title new = s) /\
  (b_description body = JUndefined -> t_description new = t_description old) /\
  (b_description body = JNull -> t_description new = None) /\
  (forall s, b_description body = JStr s -> t_description new = Some s) /\
  (b_status body = JUndefined -> t_status new = t_status old) /\
  (forall s, b_status body = JStr s -> t_status new = s) /\
  (b_priority body = JUndefined -> t_priority new = t_priority old) /\
  (forall s, b_priority body = JStr s -> t_priority new = s) /\
  (b_dueDate body = JUndefined -> t_dueDate new = t_dueDate old) /\
  (b_dueDate body = JNull -> t_dueDate new = None) /\
  (truthy (b_dueDate body) = true -> t_dueDate new = newDate (b_dueDate body)) /\
  (b_assigneeId body = JUndefined -> t_assigneeId new = t_assigneeId old) /\
  (b_assigneeId body = JNull -> t_assigneeId new = None) /\
  (forall s, b_assigneeId body = JStr s -> t_assigneeId new = Some s) /\
  (forall s, assigned_String (b_title body) = Some s -> t_title new = s) /\
  (forall s, assigned_String (b_status body) = Some s -> t_status new = s) /\
  (forall s, assigned_String (b_priority body) = Some s -> t_priority new = s) /\
  (forall x, assigned_String_opt (b_description body) = Some x ->
             t_description new = x) /\
  (forall x, assigned_String_opt (b_assigneeId body) = Some x ->
             t_assigneeId new = x).

(** *** A small store

    Four registered users; alice owns project "p1", bob is a member of it,
    carol and dave are in no project; "p1" holds one task. *)
Definition alice : Identity := mkIdentity "u1" "alice@example.com" "alice".
Definition bob : Identity := mkIdentity "u2" "bob@example.com" "bob".
Definition carol : Identity := mkIdentity "u3" "carol@example.com" "carol".

Definition db0 : DB :=
  mkDB
    [ mkUser "u1" "alice@example.com" "alice" "hash1" (Some "alice") None;
      mkUser "u2" "bob@example.com" "bob" "hash2" (Some "bob") None;
      mkUser "u3" "carol@example.com" "carol" "hash3" (Some "carol") None;
      mkUser "u4" "dave@example.com" "dave" "hash4" (Some "dave") None ]
    [ mkProject "p1" "Launch" None "#2563EB" ]
    [ mkProjectMember "m1" "p1" "u1" "owner";
      mkProjectMember "m2" "p1" "u2" "member" ]
    [ mkTask "t1" "Write docs" None "todo" "medium" None "p1" "u1" (Some "u2") ]
    [] [].

(** A [Date] constructor that reads numbers as milliseconds and nothing
    else; enough to run the examples. *)
Definition newDate0 (v : jsval) : option Z :=
  match v with JNum n => Some n | _ => None end.

(** Filter readers that know [{ equals: s }] and [{ not: s }] and reject
    every other object; enough to run the examples. *)
Definition filter0 : FilterOf string :=
  fun fields =>
    match fields with
    | [("equals", JStr s)] => Some (fun column => column =? s)
    | [("not", JStr s)] => Some (fun column => negb (column =? s))
    | _ => None
    end.

Definition filter0_opt : FilterOf (option string) :=
  fun fields =>
    match fields with
    | [("equals", JStr s)] =>
        Some (fun column => match column with Some c => c =? s | None => false end)
    | [("not", JStr s)] =>
        Some (fun column => match column with Some c => negb (c =? s) | None => false end)
    | _ => None
    end.

(* ================================================================== *)
(** ** Accounts ([server/auth.ts]) and the account routes *)
(* ================================================================== *)

Definition with_users (db : DB) (us : list User) : DB :=
  mkDB us (projects db) (members db) (tasks db) (comments db) (attachments db).

(** The [select] of the account routes: a user row without its password. *)
Record Profile : Type := mkProfile {
  pr_id : string;
  pr_email : string;
  pr_username : string;
  pr_displayName : option string;
  pr_avatarUrl : option string
}.

Definition profile_of (u : User) : Profile :=
  mkProfile (u_id u) (u_email u) (u_username u) (u_displayName u)
            (u_avatarUrl u).

(** [prisma.user.findUnique({ where: { username } })] *)
Definition user_findUnique_username (db : DB) (username : jsval)
    : option (option User) :=
  n <- as_String username ;;
  Some (find (fun u => u_username u =? n) (users db)).

(** [prisma.user.findUnique({ where: { id } })] *)
Definition user_findUnique_id (db : DB) (id : string) : option User :=
  find (fun u => u_id u =? id) (users db).

(** Modelled from the spec: the schema of [User] ([id], [email] and
    [username] unique, as the [findUnique] calls on them require;
    [displayName] and [avatarUrl] nullable strings).
    [prisma.user.create] *)
Definition user_create (db : DB) (newId : string) (email username : jsval)
    (password : string) (displayName : jsval) : option (User * DB) :=
  e <- as_String email ;;
  n <- as_String username ;;
  d <- as_String_opt displayName ;;
  _ <- guard (negb (user_exists db newId)) ;;
  _ <- guard (negb (existsb (fun u => u_email u =? e) (users db))) ;;
  _ <- guard (negb (existsb (fun u => u_username u =? n) (users db))) ;;
  let u := mkUser newId e n password d None in
  Some (u, with_users db (users db ++ [u])).

(** Modelled from the spec: the schema of [User], as for [user_create].
    [prisma.user.update({ where: { id }, data: { displayName, avatarUrl } })];
    throws when no row has the id. *)
Definition user_update (db : DB) (id : string) (displayName avatarUrl : jsval)
    : option (User * DB) :=
  _ <- guard (ok_set_String_opt displayName) ;;
  _ <- guard (ok_set_String_opt avatarUrl) ;;
  let upd u := mkUser (u_id u) (u_email u) (u_username u) (u_password u)
                 (set_String_opt displayName (u_displayName u))
                 (set_String_opt avatarUrl (u_avatarUrl u)) in
  match find (fun u => u_id u =? id) (users db) with
  | None => None
  | Some u =>
      Some (upd u,
            with_users db
              (map (fun x => if u_id x =? id then upd x else x) (users db)))
  end.

(** What the account routes send. *)
Inductive AuthJson : Type :=
| AuthError (error : string)
| AuthSession (user : Profile) (token : string)
| AuthUser (user : Profile).

Definition AuthResponse : Type := (nat * AuthJson)%type.

Record RegisterBody : Type := mkRegisterBody {
  rb_email : jsval;
  rb_username : jsval;
  rb_password : jsval;
  rb_displayName : jsval
}.

Record LoginBody : Type := mkLoginBody {
  lb_email : jsval;
  lb_password : jsval
}.

Record ProfileBody : Type := mkProfileBody {
  fb_displayName : jsval;
  fb_avatarUrl : jsval
}.

Section Accounts.

Variable SESSION_SECRET : option string.
Variable jws_header : string.
Variable encode_payload : Claims -> string.
Variable hmac : string -> string -> string -> string.

(** The [bcryptjs] library, which is not part of the repository:
    [bcrypt.hash(s, rounds)] with the salt it draws, and
    [bcrypt.compare(s, hash)]; [None] when the call rejects (an argument
    that is not a string). *)
Variable bcrypt_hash : jsval -> nat -> string -> option string.
Variable bcrypt_compare : jsval -> string -> option bool.

(** The [message] of an error thrown by the Prisma client or by bcrypt. *)
Variable library_message : string.

Definition hashPassword (salt : string) (password : jsval) : option string :=
  bcrypt_hash password 10 salt.

Definition comparePassword (password : jsval) (hash : string) : option bool :=
  bcrypt_compare password hash.

(** [registerUser]; [inl message] is a thrown [Error].  [now], [salt]
    and [newId] are the clock, the salt bcrypt draws and the id the store
    generates. *)
Definition registerUser (now : Z) (salt newId : string) (db : DB)
    (email username password displayName : jsval)
    : (string + Profile * string) * DB :=
  match user_findUnique_email db email with
  | None => (inl library_message, db)
  | Some (Some existingEmail) => (inl "Email already exists", db)
  | Some None =>
      match user_findUnique_username db username with
      | None => (inl library_message, db)
      | Some (Some existingUsername) => (inl "Username already exists", db)
      | Some None =>
          match hashPassword salt password with
          | None => (inl library_message, db)
          | Some hashedPassword =>
              match user_create db newId email username hashedPassword
                      (js_or displayName username) with
              | None => (inl library_message, db)
              | Some (user, db') =>
                  let token :=
                    generateToken SESSION_SECRET jws_header encode_payload hmac
                      now (mkIdentity (u_id user) (u_email user) (u_username user)) in
                  (inr (profile_of user, token), db')
              end
          end
      end
  end.

(** [loginUser] *)
Definition loginUser (now : Z) (db : DB) (email password : jsval)
    : string + Profile * string :=
  match user_findUnique_email db email with
  | None => inl library_message
  | Some None => inl "Invalid credentials"
  | Some (Some user) =>
      match comparePassword password (u_password user) with
      | None => inl library_message
      | Some isValid =>
          if negb isValid then inl "Invalid credentials"
          else
            let token :=
              generateToken SESSION_SECRET jws_header encode_payload hmac
                now (mkIdentity (u_id user) (u_email user) (u_username user)) in
            inr (profile_of user, token)
      end
  end.

(** POST /api/auth/register *)
Definition post_auth_register (now : Z) (salt newId : string) (db : DB)
    (body : RegisterBody) : AuthResponse * DB :=
  if negb (truthy (rb_email body)) || negb (truthy (rb_username body))
     || negb (truthy (rb_password body))
  then ((400%nat, AuthError "Email, username, and password are required"), db)
  else
    match registerUser now salt newId db (rb_email body) (rb_username body)
            (rb_password body) (rb_displayName body) with
    | (inr (user, token), db') => ((200%nat, AuthSession user token), db')
    | (inl message, db') => ((400%nat, AuthError message), db')
    end.

(** POST /api/auth/login *)
Definition post_auth_login (now : Z) (db : DB) (body : LoginBody)
    : AuthResponse * DB :=
  if negb (truthy (lb_email body)) || negb (truthy (lb_password body))
  then ((400%nat, AuthError "Email and password are required"), db)
  else
    match loginUser now db (lb_email body) (lb_password body) with
    | inr (user, token) => ((200%nat, AuthSession user token), db)
    | inl message => ((401%nat, AuthError message), db)
    end.

End Accounts.

(** GET /api/auth/me *)
Definition get_auth_me (db : DB) (user : Identity) : AuthResponse * DB :=
  match user_findUnique_id db (ident_id user) with
  | None => ((404%nat, AuthError "User not found"), db)
  | Some u => ((200%nat, AuthUser (profile_of u)), db)
  end.

(** PUT /api/auth/profile *)
Definition put_auth_profile (db : DB) (user : Identity) (body : ProfileBody)
    : AuthResponse * DB :=
  match user_update db (ident_id user) (fb_displayName body)
          (fb_avatarUrl body) with
  | Some (u, db') => ((200%nat, AuthUser (profile_of u)), db')
  | None => ((500%nat, AuthError "Failed to update profile"), db)
  end.

(* ================================================================== *)
(** ** Upload storage ([server/routes.ts]) *)
(* ================================================================== *)

(** [String(n)] of a non-negative integer below 1e21: its decimal
    digits. *)
Definition number_to_string (n : N) : string :=
  DecimalString.NilEmpty.string_of_uint (N.to_uint n).

(** The [filename] callback of [multer.diskStorage]; [now] is
    [Date.now()] and [random] is [Math.round(Math.random() * 1e9)]. *)
Definition storage_filename (now random : N) (originalname : string)
    : string :=
  let uniqueSuffix := number_to_string now ++ "-" ++ number_to_string random in
  uniqueSuffix ++ "-" ++ originalname.

(** The string has no occurrence of the character. *)
Fixpoint lacks (c : ascii) (s : string) : bool :=
  match s with
  | EmptyString => true
  | String a r => negb (Ascii.eqb a c) && lacks c r
  end.

(** Every project a membership row names is stored, and no user has two
    membership rows in one project. *)
Definition memberships_wf (db : DB) : Prop :=
  (forall m, In m (members db) -> project_exists db (m_projectId m) = true) /\
  NoDup (map (fun m => (m_projectId m, m_userId m)) (members db)).



(** Stand-ins for the libraries, enough to run the examples: a hash that
    prefixes the password with the salt, the matching comparison, a
    payload codec with a single entry and a constant MAC. *)
Definition hash0 (password : jsval) (rounds : nat) (salt : string)
    : option string :=
  match password with
  | JStr s => Some (salt ++ "$" ++ s)
  | _ => None
  end.

Definition compare0 (password : jsval) (hash : string) : option bool :=
  match password with
  | JStr s => Some (hash =? "salt$" ++ s)
  | _ => None
  end.

Definition enc0 (c : Claims) : string := "payload".
Definition mac0 (alg key input : string) : string := "sig".

(** The small store with a fifth user, erin, registered with password
    "pw123" under [hash0] and the salt "salt". *)
Definition db_erin : DB :=
  with_users db0
    (users db0 ++ [mkUser "u5" "erin@example.com" "erin" "salt$pw123"
                          (Some "erin") None]).

(* ================================================================== *)
(** ** Properties of the token service *)
(* ================================================================== *)

Lemma split_on_no_dot (s : string) :
  no_dot s = true -> split_on dot s = [s].
Proof.
  induction s as [|a r IH]; simpl; [reflexivity|].
  intros H. apply andb_true_iff in H as [Ha Hr].
  apply negb_true_iff in Ha. rewrite Ha, (IH Hr). reflexivity.
Qed.

Lemma split_on_app_dot (a r : string) :
  no_dot a = true -> split_on dot (a ++ String dot r) = a :: split_on dot r.
Proof.
  induction a as [|x a IH]; simpl; intros H.
  - reflexivity.
  - apply andb_true_iff in H as [Hx Ha].
    apply negb_true_iff in Hx. rewrite Hx, (IH Ha). reflexivity.
Qed.

Lemma string_app_assoc (a b c : string) : (a ++ b) ++ c = a ++ (b ++ c).
Proof.
  induction a as [|x a IH]; simpl; [reflexivity|]. rewrite IH. reflexivity.
Qed.

Lemma split_on_three (a b c : string) :
  no_dot a = true -> no_dot b = true -> no_dot c = true ->
  split_on dot ((a ++ "." ++ b) ++ "." ++ c) = [a; b; c].
Proof.
  intros Ha Hb Hc.
  replace ((a ++ "." ++ b) ++ "." ++ c)
    with (a ++ String dot (b ++ String dot c)).
  - rewrite (split_on_app_dot _ _ Ha), (split_on_app_dot _ _ Hb),
      (split_on_no_dot _ Hc). reflexivity.
  - rewrite string_app_assoc. reflexivity.
Qed.

Section TokenProperties.

Variable SESSION_SECRET : option string.
Variable jws_header : string.
Variable decode_header : string -> option string.
Variable encode_payload : Claims -> string.
Variable decode_payload : string -> option Claims.
Variable hmac : string -> string -> string -> string.

Local Abbreviation secret := (JWT_SECRET SESSION_SECRET).
Local Abbreviation issue := (generateToken SESSION_SECRET jws_header encode_payload hmac).
Local Abbreviation verify := (verifyToken SESSION_SECRET decode_header decode_payload hmac).

(** [verifyToken] answers with a payload exactly when the token has three
    segments that decode, a signature that is the MAC of the first two
    under the server's secret for an accepted algorithm, a start time
    that has come and an expiry that lies ahead. *)
Lemma verifyToken_Some (now : Z) (token : string) (p : Claims) :
  verify now token = Some p <->
  exists h b s alg,
    split_on dot token = [h; b; s] /\
    decode_header h = Some alg /\ decode_payload b = Some p /\
    is_blank s = false /\ In alg hs_algorithms /\
    s = hmac alg secret (h ++ "." ++ b) /\
    (forall n, cl_nbf p = Some n -> (n <= now)%Z) /\
    (forall e, cl_exp p = Some e -> (now < e)%Z).
Proof.
  unfold verifyToken, jwt_verify. split.
  - destruct (split_on dot token) as [|h [|b [|s [|? ?]]]]; try discriminate.
    destruct (decode_header h) as [alg|] eqn:Eh; try discriminate.
    destruct (decode_payload b) as [c|] eqn:Eb; try discriminate.
    destruct (is_blank s) eqn:Es; try discriminate.
    destruct (existsb (String.eqb alg) hs_algorithms) eqn:Ealg;
      cbn [negb]; try discriminate.
    destruct (s =? hmac alg secret (h ++ "." ++ b)) eqn:Esig;
      cbn [negb]; try discriminate.
    apply String.eqb_eq in Esig.
    apply existsb_exists in Ealg as [x [Hx Hxe]].
    apply String.eqb_eq in Hxe. subst x.
    destruct (match cl_nbf c with Some n => (now <? n)%Z | None => false end)
      eqn:En; try discriminate.
    destruct (match cl_exp c with Some e => (e <=? now)%Z | None => false end)
      eqn:Ee; try discriminate.
    intros H. injection H as <-. exists h, b, s, alg.
    repeat split; auto.
    + intros n Hn. rewrite Hn in En. apply Z.ltb_ge in En. exact En.
    + intros e He. rewrite He in Ee. apply Z.leb_gt in Ee. exact Ee.
  - intros (h & b & s & alg & -> & -> & -> & Hs & Halg & Hsig & Hnbf & Hexp).
    rewrite Hs.
    assert (Ealg : existsb (String.eqb alg) hs_algorithms = true).
    { apply existsb_exists. exists alg. split; [exact Halg|apply String.eqb_refl]. }
    rewrite Ealg. cbn [negb].
    rewrite <- Hsig, String.eqb_refl. cbn [negb].
    assert (En : match cl_nbf p with Some n => (now <? n)%Z | None => false end
                 = false).
    { destruct (cl_nbf p) as [n|]; [|reflexivity].
      apply Z.ltb_ge. apply Hnbf. reflexivity. }
    assert (Ee : match cl_exp p with Some e => (e <=? now)%Z | None => false end
                 = false).
    { destruct (cl_exp p) as [e|]; [|reflexivity].
      apply Z.leb_gt. apply Hexp. reflexivity. }
    rewrite En, Ee. reflexivity.
Qed.

Lemma split_generateToken (now : Z) (user : Identity) :
  let c := issued_claims now user in
  let input := jws_header ++ "." ++ encode_payload c in
  no_dot jws_header = true ->
  no_dot (encode_payload c) = true ->
  no_dot (hmac "HS256" secret input) = true ->
  split_on dot (issue now user)
  = [jws_header; encode_payload c; hmac "HS256" secret input].
Proof.
  intros c input Hh Hp Hs.
  unfold generateToken, jwt_sign. simpl ident_id. simpl ident_email.
  simpl ident_username. fold (issued_claims now user). fold c. fold input.
  unfold input. apply split_on_three; assumption.
Qed.

Lemma verifyToken_issue (now now' : Z) (user : Identity) :
  let c := issued_claims now user in
  let input := jws_header ++ "." ++ encode_payload c in
  no_dot jws_header = true ->
  no_dot (encode_payload c) = true ->
  no_dot (hmac "HS256" secret input) = true ->
  is_blank (hmac "HS256" secret input) = false ->
  decode_header jws_header = Some "HS256" ->
  decode_payload (encode_payload c) = Some c ->
  (now' < now + seven_days)%Z ->
  verify now' (issue now user) = Some c.
Proof.
  intros c input Hh Hp Hs Hne Hdh Hdp Hlt.
  apply verifyToken_Some.
  exists jws_header, (encode_payload c), (hmac "HS256" secret input), "HS256".
  repeat split; auto.
  - apply split_generateToken; assumption.
  - simpl. auto.
  - intros n Hn. discriminate.
  - intros e He. simpl in He. injection He as <-. exact Hlt.
Qed.

Lemma substring_all (s : string) : substring 0 (String.length s) s = s.
Proof.
  induction s as [|a s IH]; simpl; [reflexivity|]. rewrite IH. reflexivity.
Qed.

(** [authMiddleware] lets a request through exactly with the payload
    [verifyToken] returns for the text after "Bearer ". *)
Lemma authMiddleware_bearer (now : Z) (token : string) :
  authMiddleware SESSION_SECRET decode_header decode_payload hmac now
    (Some ("Bearer " ++ token))
  = match verify now token with
    | Some payload => Next payload
    | None => Unauthorized 401 "Invalid token"
    end.
Proof.
  unfold authMiddleware, startsWith. simpl.
  rewrite Nat.sub_0_r, substring_all.
  destruct token; reflexivity.
Qed.

Lemma authMiddleware_no_bearer (now : Z) (authorization : option string) :
  (forall token, authorization <> Some ("Bearer " ++ token)) ->
  authMiddleware SESSION_SECRET decode_header decode_payload hmac now
    authorization
  = Unauthorized 401 "Unauthorized".
Proof.
  intros H. unfold authMiddleware. destruct authorization as [h|]; [|reflexivity].
  destruct (h =? "") eqn:E0; [reflexivity|]. simpl.
  destruct (startsWith "Bearer " h) eqn:E; [|reflexivity].
  exfalso. unfold startsWith in E.
  do 7 (destruct h as [|? h]; simpl in E; [discriminate E|];
        match type of E with
        | (if ?c then _ else _) = true =>
            destruct c as [<-|]; [|discriminate E]
        end).
  apply (H h). reflexivity.
Qed.

End TokenProperties.

(** C8. A token issued for an identity verifies, before its expiry of
    seven days, to exactly that identity's id, email and username, and no
    longer verifies from the expiry on.  Verification answers [None]
    (invalid) for a token that does not have three segments, whose
    segments do not decode, whose signature is not the MAC under the
    server's secret, or whose expiry has passed; and a payload it does
    return is the one carried by the token itself. *)
Theorem C8_token_round_trip_fail_closed
    (SESSION_SECRET : option string) (jws_header : string)
    (decode_header : string -> option string)
    (encode_payload : Claims -> string)
    (decode_payload : string -> option Claims)
    (hmac : string -> string -> string -> string)
    (now : Z) (user : Identity) :
  let secret := JWT_SECRET SESSION_SECRET in
  let issue := generateToken SESSION_SECRET jws_header encode_payload hmac in
  let verify := verifyToken SESSION_SECRET decode_header decode_payload hmac in
  let c := issued_claims now user in
  let input := jws_header ++ "." ++ encode_payload c in
  no_dot jws_header = true ->
  no_dot (encode_payload c) = true ->
  no_dot (hmac "HS256" secret input) = true ->
  is_blank (hmac "HS256" secret input) = false ->
  decode_header jws_header = Some "HS256" ->
  decode_payload (encode_payload c) = Some c ->
  (forall now', (now' < now + seven_days)%Z ->
     exists p, verify now' (issue now user) = Some p /\
               identity_of p = user /\
               cl_id p = ident_id user /\
               cl_email p = ident_email user /\
               cl_username p = ident_username user) /\
  (forall now', (now + seven_days <= now')%Z ->
     verify now' (issue now user) = None) /\
  (forall t token,
     (length (split_on dot token) <> 3%nat -> verify t token = None) /\
     (forall h b s, split_on dot token = [h; b; s] ->
        (decode_header h = None \/ decode_payload b = None ->
         verify t token = None) /\
        (forall alg, decode_header h = Some alg ->
                     s <> hmac alg secret (h ++ "." ++ b) ->
                     verify t token = None) /\
        (is_blank s = true -> verify t token = None) /\
        (forall p e, decode_payload b = Some p -> cl_exp p = Some e ->
                     (e <= t)%Z -> verify t token = None) /\
        (forall p, verify t token = Some p -> decode_payload b = Some p))).
Proof.
  intros secret issue verify c input Hh Hp Hs Hne Hdh Hdp.
  assert (Hnone : forall t token,
            (forall p, verify t token <> Some p) -> verify t token = None).
  { intros t token H. destruct (verify t token) as [p|]; [|reflexivity].
    exfalso. apply (H p). reflexivity. }
  split; [|split].
  - intros now' Hlt. exists c. split.
    + apply verifyToken_issue; assumption.
    + repeat split; try reflexivity. destruct user; reflexivity.
  - intros now' Hge. apply Hnone. intros p Hv.
    apply verifyToken_Some in Hv as (h & b & s & alg & Hsp & _ & Hb & _ & _ & _ & _ & Hexp).
    unfold issue in Hsp.
    rewrite split_generateToken in Hsp by assumption.
    injection Hsp as <- <- <-. fold c in Hb. rewrite Hdp in Hb.
    injection Hb as <-. specialize (Hexp _ eq_refl). lia.
  - intros t token. split.
    + intros Hlen. apply Hnone. intros p Hv.
      apply verifyToken_Some in Hv as (h & b & s & alg & Hsp & _).
      rewrite Hsp in Hlen. apply Hlen. reflexivity.
    + intros h b s Hsp. repeat split.
      * intros Hdec. apply Hnone. intros p Hv.
        apply verifyToken_Some in Hv as (h' & b' & s' & alg & Hsp' & Hdh' & Hdb' & _).
        rewrite Hsp in Hsp'. injection Hsp' as <- <- <-.
        destruct Hdec as [Hd|Hd]; congruence.
      * intros alg Halg Hbad. apply Hnone. intros p Hv.
        apply verifyToken_Some in Hv
          as (h' & b' & s' & alg' & Hsp' & Hdh' & _ & _ & _ & Hsig & _).
        rewrite Hsp in Hsp'. injection Hsp' as <- <- <-.
        rewrite Halg in Hdh'. injection Hdh' as <-. contradiction.
      * intros Hbl. apply Hnone. intros p Hv.
        apply verifyToken_Some in Hv
          as (h' & b' & s' & alg' & Hsp' & _ & _ & Hnb & _).
        rewrite Hsp in Hsp'. injection Hsp' as <- <- <-. congruence.
      * intros p e Hdb He Hle. apply Hnone. intros p' Hv.
        apply verifyToken_Some in Hv
          as (h' & b' & s' & alg' & Hsp' & _ & Hdb' & _ & _ & _ & _ & Hexp).
        rewrite Hsp in Hsp'. injection Hsp' as <- <- <-.
        rewrite Hdb in Hdb'. injection Hdb' as <-.
        specialize (Hexp e He). lia.
      * intros p Hv.
        apply verifyToken_Some in Hv as (h' & b' & s' & alg' & Hsp' & _ & Hdb' & _).
        rewrite Hsp in Hsp'. injection Hsp' as <- <- <-. exact Hdb'.
Qed.

(** A run of C8: a token issued to alice at time 0 and checked at time
    100 with a one-entry codec and a constant MAC. *)
Lemma C8_token_round_trip_witness :
  let alice := mkIdentity "u1" "alice@example.com" "alice" in
  let dh := fun h => if h =? "hdr" then Some "HS256" else None in
  let enc := fun _ : Claims => "payload" in
  let dp := fun b => if b =? "payload" then Some (issued_claims 0 alice) else None in
  let mac := fun _ _ _ : string => "sig" in
  exists p,
    verifyToken None dh dp mac 100 (generateToken None "hdr" enc mac 0 alice) = Some p /\
    identity_of p = alice /\
    cl_id p = "u1" /\ cl_email p = "alice@example.com" /\ cl_username p = "alice".
Proof.
  intros alice dh enc dp mac.
  refine (proj1 (C8_token_round_trip_fail_closed None "hdr" dh enc dp mac 0 alice
                   _ _ _ _ _ _) 100%Z _).
  - reflexivity.
  - reflexivity.
  - reflexivity.
  - reflexivity.
  - reflexivity.
  - reflexivity.
  - reflexivity.
Defined.

(* ================================================================== *)
(** ** Lemmas on the store *)
(* ================================================================== *)

Lemma find_all_false {A : Type} (f : A -> bool) (l : list A) :
  (forall x, In x l -> f x = false) -> find f l = None.
Proof.
  intros H. destruct (find f l) as [x|] eqn:E; [|reflexivity].
  apply find_some in E as [Hin Hf]. rewrite (H x Hin) in Hf. discriminate.
Qed.

Lemma existsb_all_false {A : Type} (f : A -> bool) (l : list A) :
  (forall x, In x l -> f x = false) -> existsb f l = false.
Proof.
  intros H. destruct (existsb f l) eqn:E; [|reflexivity].
  apply existsb_exists in E as [x [Hin Hf]].
  rewrite (H x Hin) in Hf. discriminate.
Qed.

Lemma filter_all_false {A : Type} (f : A -> bool) (l : list A) :
  (forall x, In x l -> f x = false) -> filter f l = [].
Proof.
  induction l as [|a l IH]; simpl; intros H; [reflexivity|].
  rewrite (H a (or_introl eq_refl)). apply IH.
  intros x Hx. apply H. right. exact Hx.
Qed.

Lemma map_if_all_false {A : Type} (hit : A -> bool) (f : A -> A) (l : list A) :
  (forall x, In x l -> hit x = false) ->
  map (fun x => if hit x then f x else x) l = l.
Proof.
  induction l as [|a l IH]; simpl; intros H; [reflexivity|].
  rewrite (H a (or_introl eq_refl)). f_equal. apply IH.
  intros x Hx. apply H. right. exact Hx.
Qed.

Lemma with_projects_same (db : DB) : with_projects db (projects db) = db.
Proof. destruct db; reflexivity. Qed.

Lemma with_tasks_same (db : DB) : with_tasks db (tasks db) = db.
Proof. destruct db; reflexivity. Qed.

Lemma members_some_true (db : DB) (projectId userId : string) :
  members_some db projectId userId = true <->
  exists m, In m (members db) /\ m_projectId m = projectId /\ m_userId m = userId.
Proof.
  unfold members_some. rewrite existsb_exists. split.
  - intros [m [Hin H]]. apply andb_true_iff in H as [H1 H2].
    apply String.eqb_eq in H1, H2. exists m. auto.
  - intros [m [Hin [H1 H2]]]. exists m. split; [exact Hin|].
    apply andb_true_iff. split; apply String.eqb_eq; assumption.
Qed.

Lemma project_exists_true (db : DB) (id : string) :
  project_exists db id = true <-> exists p, In p (projects db) /\ p_id p = id.
Proof.
  unfold project_exists. rewrite existsb_exists. split.
  - intros [p [Hin H]]. apply String.eqb_eq in H. exists p. auto.
  - intros [p [Hin H]]. exists p. split; [exact Hin|].
    apply String.eqb_eq. exact H.
Qed.

(** A task of a project the user is not a member of is outside every
    membership-scoped query. *)
Lemma task_visible_non_member (db : DB) (userId : string) (t : Task) :
  members_some db (t_projectId t) userId = false ->
  task_visible db userId t = false.
Proof.
  intros Hnm. unfold task_visible. apply existsb_all_false. intros p _.
  destruct (p_id p =? t_projectId t) eqn:E; [|reflexivity].
  apply String.eqb_eq in E. rewrite E, Hnm. reflexivity.
Qed.

Lemma project_findFirst_non_member (db : DB) (id userId : string) :
  members_some db id userId = false ->
  project_findFirst db id userId = None.
Proof.
  intros Hnm. unfold project_findFirst. apply find_all_false. intros p _.
  destruct (p_id p =? id) eqn:E; [|reflexivity].
  apply String.eqb_eq in E. rewrite E, Hnm. reflexivity.
Qed.

Lemma project_findFirst_absent (db : DB) (id userId : string) :
  project_exists db id = false ->
  project_findFirst db id userId = None.
Proof.
  intros Hne. unfold project_findFirst.
  destruct (find _ (projects db)) as [p|] eqn:E; [|reflexivity].
  apply find_some in E as [Hin H]. apply andb_true_iff in H as [H _].
  apply String.eqb_eq in H.
  assert (project_exists db id = true)
    by (apply project_exists_true; exists p; auto).
  congruence.
Qed.

Lemma task_findFirst_non_member (db : DB) (id userId projectId : string) :
  (forall t, In t (tasks db) -> t_id t = id -> t_projectId t = projectId) ->
  members_some db projectId userId = false ->
  task_findFirst db id userId = None.
Proof.
  intros Hin Hnm. unfold task_findFirst. apply find_all_false. intros t Ht.
  destruct (t_id t =? id) eqn:E; [|reflexivity].
  apply String.eqb_eq in E. simpl. apply task_visible_non_member.
  rewrite (Hin t Ht E). exact Hnm.
Qed.

(* ================================================================== *)
(** ** Project deletion *)
(* ================================================================== *)

Lemma delete_projects_id_no_owner_row (db : DB) (user : Identity) (id : string) :
  (forall m, In m (members db) -> m_projectId m = id ->
             m_userId m = ident_id user -> m_role m <> "owner") ->
  delete_projects_id db user id
    = (res_error 403 "Only owner can delete project", db).
Proof.
  intros Hrole. unfold delete_projects_id, projectMember_findFirst.
  rewrite find_all_false; [reflexivity|].
  intros m Hin.
  destruct (m_projectId m =? id) eqn:E1; [|reflexivity].
  destruct (m_userId m =? ident_id user) eqn:E2; [|reflexivity].
  apply String.eqb_eq in E1, E2. simpl.
  apply String.eqb_neq. apply Hrole; assumption.
Qed.

(** C3. When none of the requester's membership rows in project [id] has
    role "owner", DELETE /api/projects/:id answers 403 Forbidden and the
    store is left as it was: every project row is still there. *)
Theorem C3_delete_by_non_owner_forbidden (db : DB) (user : Identity) (id : string) :
  (forall m, In m (members db) -> m_projectId m = id ->
             m_userId m = ident_id user -> m_role m <> "owner") ->
  delete_projects_id db user id
    = (res_error 403 "Only owner can delete project", db) /\
  (forall p, In p (projects db) ->
             In p (projects (snd (delete_projects_id db user id)))).
Proof.
  intros Hrole.
  pose proof (delete_projects_id_no_owner_row db user id Hrole) as E.
  split; [exact E|]. rewrite E. intros p Hp. exact Hp.
Qed.

(** Bob is a plain member of "p1": his delete request is refused and the
    project stays. *)
Lemma C3_delete_by_non_owner_witness :
  delete_projects_id db0 bob "p1"
    = (res_error 403 "Only owner can delete project", db0) /\
  (forall p, In p (projects db0) ->
             In p (projects (snd (delete_projects_id db0 bob "p1")))).
Proof.
  apply (C3_delete_by_non_owner_forbidden db0 bob "p1").
  intros m Hin Hp Hu. simpl in Hin.
  destruct Hin as [<-|[<-|[]]]; simpl in *; discriminate.
Defined.

Lemma project_delete_Some (db db' : DB) (id : string) :
  project_delete db id = Some db' ->
  users db' = users db /\
  projects db' = filter (fun p => negb (p_id p =? id)) (projects db) /\
  members db' = filter (fun m => negb (m_projectId m =? id)) (members db) /\
  tasks db' = filter (fun t => negb (t_projectId t =? id)) (tasks db).
Proof.
  unfold project_delete, bind, guard.
  destruct (project_exists db id); [|discriminate].
  intros H. injection H as <-. simpl. auto.
Qed.

(** C4. When the requester holds an "owner" membership in the stored
    project [id], DELETE /api/projects/:id succeeds and removes the
    project row, every membership row of the project and every task row
    of the project; the rows of other projects stay, and if every task
    referenced a stored project before, every task does afterwards. *)
Theorem C4_delete_by_owner_cascades (db : DB) (user : Identity) (id : string) :
  (exists m, In m (members db) /\ m_projectId m = id /\
             m_userId m = ident_id user /\ m_role m = "owner") ->
  project_exists db id = true ->
  let db' := snd (delete_projects_id db user id) in
  fst (delete_projects_id db user id) = res_json JsonSuccess /\
  (forall p, In p (projects db') <-> In p (projects db) /\ p_id p <> id) /\
  (forall m, In m (members db') <-> In m (members db) /\ m_projectId m <> id) /\
  (forall t, In t (tasks db') <-> In t (tasks db) /\ t_projectId t <> id) /\
  ((forall t, In t (tasks db) -> project_exists db (t_projectId t) = true) ->
   forall t, In t (tasks db') -> project_exists db' (t_projectId t) = true).
Proof.
  intros (m & Hin & Hp & Hu & Hr) Hex db'.
  assert (Hfind : exists m', projectMember_findFirst db
            (fun m => (m_projectId m =? id) && (m_userId m =? ident_id user)
                      && (m_role m =? "owner")) = Some m').
  { unfold projectMember_findFirst.
    destruct (find _ (members db)) as [m'|] eqn:E; [eauto|].
    exfalso. apply (find_none _ _ E) in Hin. simpl in Hin.
    rewrite Hp, Hu, Hr, !String.eqb_refl in Hin. discriminate. }
  destruct Hfind as [m' Hfind].
  destruct (project_delete db id) as [d|] eqn:Hdel.
  2:{ unfold project_delete, bind, guard in Hdel. rewrite Hex in Hdel.
      discriminate. }
  assert (E : delete_projects_id db user id = (res_json JsonSuccess, d)).
  { unfold delete_projects_id. rewrite Hfind, Hdel. reflexivity. }
  unfold db'. rewrite E. simpl fst. simpl snd.
  apply project_delete_Some in Hdel as (_ & Hps & Hms & Hts).
  assert (Hneq : forall a b : string, negb (a =? b) = true <-> a <> b).
  { intros a b. rewrite negb_true_iff. apply String.eqb_neq. }
  split; [reflexivity|].
  split; [|split; [|split]].
  - intros p. rewrite Hps, filter_In, Hneq. reflexivity.
  - intros x. rewrite Hms, filter_In, Hneq. reflexivity.
  - intros t. rewrite Hts, filter_In, Hneq. reflexivity.
  - intros Href t Ht. rewrite Hts in Ht. apply filter_In in Ht as [Ht Hne].
    apply Hneq in Hne. specialize (Href t Ht).
    apply project_exists_true in Href as [p [Hpin Hpid]].
    apply project_exists_true. exists p. split; [|exact Hpid].
    rewrite Hps. apply filter_In. split; [exact Hpin|].
    apply Hneq. congruence.
Qed.

(** Alice owns "p1": her delete request empties the project, membership
    and task tables of the small store. *)
Lemma C4_delete_by_owner_witness :
  fst (delete_projects_id db0 alice "p1") = res_json JsonSuccess /\
  projects (snd (delete_projects_id db0 alice "p1")) = [] /\
  members (snd (delete_projects_id db0 alice "p1")) = [] /\
  tasks (snd (delete_projects_id db0 alice "p1")) = [].
Proof.
  assert (H := C4_delete_by_owner_cascades db0 alice "p1").
  simpl in H. split; [|repeat split; reflexivity].
  apply H; [|reflexivity].
  exists (mkProjectMember "m1" "p1" "u1" "owner"). simpl. auto.
Defined.

(* ================================================================== *)
(** ** What a non-member is answered *)
(* ================================================================== *)

Lemma project_updateMany_non_member (db : DB) (id userId : string)
    (data : ProjectInput) :
  members_some db id userId = false ->
  project_updateMany db id userId data
  = if ok_set_String (pi_name data) && ok_set_String_opt (pi_description data)
       && ok_set_String (pi_color data)
    then Some (0%nat, db) else None.
Proof.
  intros Hnm. unfold project_updateMany, bind, guard.
  destruct (ok_set_String (pi_name data)); [|reflexivity].
  destruct (ok_set_String_opt (pi_description data)); [|reflexivity].
  destruct (ok_set_String (pi_color data)); [|reflexivity].
  assert (Hhit : forall p, In p (projects db) ->
            (p_id p =? id) && members_some db (p_id p) userId = false).
  { intros p _. destruct (p_id p =? id) eqn:E; [|reflexivity].
    apply String.eqb_eq in E. rewrite E, Hnm. reflexivity. }
  simpl. rewrite (filter_all_false _ _ Hhit), (map_if_all_false _ _ _ Hhit),
    with_projects_same. reflexivity.
Qed.

Lemma task_updateMany_non_member (db : DB) (id userId projectId : string)
    (data : TaskInput) :
  (forall t, In t (tasks db) -> t_id t = id -> t_projectId t = projectId) ->
  members_some db projectId userId = false ->
  task_updateMany db id userId data
  = if task_set_ok data then Some (0%nat, db) else None.
Proof.
  intros Hin Hnm. unfold task_updateMany, bind, guard.
  destruct (task_set_ok data); [|reflexivity].
  assert (Hhit : forall t, In t (tasks db) ->
            (t_id t =? id) && task_visible db userId t = false).
  { intros t Ht. destruct (t_id t =? id) eqn:E; [|reflexivity].
    apply String.eqb_eq in E. simpl. apply task_visible_non_member.
    rewrite (Hin t Ht E). exact Hnm. }
  rewrite (filter_all_false _ _ Hhit), (map_if_all_false _ _ _ Hhit),
    with_tasks_same. reflexivity.
Qed.

(** With a string as [projectId], the project lookup of POST /api/tasks is
    the lookup by id. *)
Lemma post_tasks_string_project (newDate : jsval -> option Z)
    (StringFilter : FilterOf string) (newId : string) (db : DB)
    (user : Identity) (body : TaskBody) (pid : string) :
  b_projectId body = JStr pid ->
  post_tasks newDate StringFilter newId db user body
  = if negb (truthy (b_title body)) || negb (truthy (JStr pid))
    then (res_error 400 "Title and project are required", db)
    else match project_findFirst db pid (ident_id user) with
         | None => (res_error 404 "Project not found", db)
         | Some project =>
             match task_create db newId
                     (mkTaskInput (b_title body) (b_description body)
                        (JStr pid)
                        (js_or (b_status body) (JStr "todo"))
                        (js_or (b_priority body) (JStr "medium"))
                        (date_or_null newDate (b_dueDate body))
                        (b_assigneeId body)
                        (JStr (ident_id user))) with
             | Some (task, db') => (res_json (JsonTask task), db')
             | None => (res_error 500 "Failed to create task", db)
             end
         end.
Proof. intros Hb. unfold post_tasks. rewrite Hb. reflexivity. Qed.

(** C1, as the routes implement it.  Let no membership row link [user] to
    project [pid], and let [tid] name tasks of [pid] only.  Then reading
    or updating the project, creating a task in it, and reading, updating,
    deleting, commenting on or attaching to the task are answered 404, or
    400 or 500 when the request fails the required-field or type check
    that comes first; the listings return no row of the project; and
    DELETE /api/projects/:id is answered 403.  The equations also give the
    database after each handler, which is the one before it; the file of
    a refused attachment request is by then in [uploads/], outside the
    database. *)
Theorem C1_non_member_answers (newDate : jsval -> option Z)
    (StringFilter : FilterOf string)
    (StringNullableFilter : FilterOf (option string)) (db : DB)
    (user : Identity) (pid tid : string) :
  members_some db pid (ident_id user) = false ->
  (forall t, In t (tasks db) -> t_id t = tid -> t_projectId t = pid) ->
  get_projects_id db user pid = (res_error 404 "Project not found", db) /\
  (forall body,
     put_projects_id db user pid body
     = (if ok_set_String (pb_name body) && ok_set_String_opt (pb_description body)
           && ok_set_String (pb_color body)
        then res_error 404 "Project not found"
        else res_error 500 "Failed to update project", db)) /\
  delete_projects_id db user pid
    = (res_error 403 "Only owner can delete project", db) /\
  (forall newId body, b_projectId body = JStr pid ->
     post_tasks newDate StringFilter newId db user body
     = (if truthy (b_title body) && truthy (b_projectId body)
        then res_error 404 "Project not found"
        else res_error 400 "Title and project are required", db)) /\
  get_tasks_id db user tid = (res_error 404 "Task not found", db) /\
  (forall body,
     put_tasks_id newDate db user tid body
     = (if task_set_ok (put_tasks_data newDate body)
        then res_error 404 "Task not found"
        else res_error 500 "Failed to update task", db)) /\
  delete_tasks_id db user tid = (res_error 404 "Task not found", db) /\
  (forall newId content,
     post_tasks_id_comments newId db user tid content
     = (if truthy content then res_error 404 "Task not found"
        else res_error 400 "Content is required", db)) /\
  (forall newId file,
     post_tasks_id_attachments newId db user tid file
     = (match file with
        | Some _ => res_error 404 "Task not found"
        | None => res_error 400 "File is required"
        end, db)) /\
  (forall ps, get_projects db user = (res_json (JsonProjects ps), db) ->
              forall p, In p ps -> p_id p <> pid) /\
  (forall query ts,
     get_tasks StringFilter StringNullableFilter db user query
     = (res_json (JsonTasks ts), db) ->
     forall t, In t ts -> t_projectId t <> pid).
Proof.
  intros Hnm Htid.
  pose proof (project_findFirst_non_member db pid _ Hnm) as Hpf.
  pose proof (task_findFirst_non_member db tid _ pid Htid Hnm) as Htf.
  repeat apply conj.
  - unfold get_projects_id. rewrite Hpf. reflexivity.
  - intros body. unfold put_projects_id.
    rewrite (project_updateMany_non_member _ _ _ _ Hnm). simpl.
    destruct (ok_set_String (pb_name body) && _ && _); reflexivity.
  - apply delete_projects_id_no_owner_row. intros m Hin Hp Hu.
    exfalso. assert (members_some db pid (ident_id user) = true)
      by (apply members_some_true; exists m; auto).
    congruence.
  - intros newId body Hb. rewrite (post_tasks_string_project _ _ _ _ _ _ pid Hb).
    rewrite Hb, Hpf.
    destruct (truthy (b_title body)); destruct (truthy (JStr pid)); reflexivity.
  - unfold get_tasks_id. rewrite Htf. reflexivity.
  - intros body. unfold put_tasks_id.
    rewrite (task_updateMany_non_member _ _ _ pid _ Htid Hnm).
    destruct (task_set_ok _); reflexivity.
  - unfold delete_tasks_id. rewrite Htf. reflexivity.
  - intros newId content. unfold post_tasks_id_comments. rewrite Htf.
    destruct (truthy content); reflexivity.
  - intros newId [f|]; unfold post_tasks_id_attachments; [rewrite Htf|];
      reflexivity.
  - intros ps H. unfold get_projects, res_json in H. injection H as <-.
    intros p Hp. apply filter_In in Hp as [_ Hm]. intros E.
    rewrite E in Hm. congruence.
  - intros query ts H. unfold get_tasks in H.
    destruct (spread_where _ (q_projectId query)); [|discriminate].
    destruct (spread_where _ (q_status query)); [|discriminate].
    destruct (spread_where _ (q_priority query)); [|discriminate].
    destruct (spread_where _ (q_assigneeId query)); [|discriminate].
    unfold res_json in H. injection H as <-.
    intros t Ht. apply filter_In in Ht as [_ Hv].
    repeat (apply andb_true_iff in Hv as [Hv _]).
    intros E. rewrite (task_visible_non_member db _ t) in Hv; [discriminate|].
    rewrite E. exact Hnm.
Qed.

(** Carol, who is in no project, asks for task "t1" of project "p1" and
    asks to delete "p1". *)
Lemma C1_non_member_witness :
  get_tasks_id db0 carol "t1" = (res_error 404 "Task not found", db0) /\
  delete_projects_id db0 carol "p1"
    = (res_error 403 "Only owner can delete project", db0).
Proof.
  destruct (C1_non_member_answers newDate0 filter0 filter0_opt db0 carol "p1" "t1")
    as (_ & _ & Hdel & _ & Hget & _).
  - reflexivity.
  - intros t Hin _. simpl in Hin. destruct Hin as [<-|[]]. reflexivity.
  - split; assumption.
Defined.

(** C1 as stated fails: carol holds no membership at all, and her request
    to delete project "p1" is answered 403 Forbidden, not 404; her empty
    comment on task "t1" of that project is answered 400, before the task
    is looked up. *)
Lemma C1_counterexample :
  (forall m, In m (members db0) -> m_userId m <> ident_id carol) /\
  delete_projects_id db0 carol "p1"
    = (res_error 403 "Only owner can delete project", db0) /\
  fst (fst (delete_projects_id db0 carol "p1")) <> 404%nat /\
  post_tasks_id_comments "c1" db0 carol "t1" (JStr "")
    = (res_error 400 "Content is required", db0).
Proof.
  split; [|split; [|split]].
  - intros m Hin. simpl in Hin.
    destruct Hin as [<-|[<-|[]]]; simpl; discriminate.
  - reflexivity.
  - simpl. discriminate.
  - reflexivity.
Qed.

(* ================================================================== *)
(** ** Adding a member *)
(* ================================================================== *)

(** What a successful POST /api/projects/:id/members has checked: the
    target is the registered user with the given email and had no
    membership in the project; the new row joins the two, with role
    "member" when none is given.  The requester does not occur. *)
Lemma post_projects_id_members_created (newId : string) (db db' : DB)
    (user : Identity) (id : string) (body : MemberBody) (m : ProjectMember) :
  post_projects_id_members newId db user id body = (res_json (JsonMember m), db') ->
  (exists target email,
     mb_email body = JStr email /\ In target (users db) /\
     u_email target = email /\ m_userId m = u_id target /\
     members_some db id (u_id target) = false) /\
  m_projectId m = id /\
  (truthy (mb_role body) = false -> m_role m = "member") /\
  members db' = (members db ++ [m])%list.
Proof.
  unfold post_projects_id_members, user_findUnique_email, bind.
  destruct (mb_email body) as [| | | |email| | |] eqn:Ee; simpl; try discriminate.
  destruct (find (fun u => u_email u =? email) (users db)) as [target|] eqn:Ef;
    [|discriminate].
  apply find_some in Ef as [Hin Hem]. apply String.eqb_eq in Hem.
  destruct (projectMember_findFirst db _) as [x|] eqn:Ex; [discriminate|].
  unfold projectMember_create, bind, guard.
  destruct (as_String (js_or (mb_role body) (JStr "member"))) as [r|] eqn:Er;
    [|discriminate].
  destruct (negb (existsb _ (members db))); [|discriminate].
  destruct (project_exists db id); [|discriminate].
  destruct (user_exists db (u_id target)); [|discriminate].
  intros H. injection H as <- <-. simpl. repeat split.
  - exists target, email. repeat split; auto.
    unfold members_some. apply existsb_all_false. intros y Hy.
    exact (find_none _ _ Ex y Hy).
  - intros Hr. unfold js_or in Er. rewrite Hr in Er. simpl in Er.
    injection Er as <-. reflexivity.
Qed.

(** A request for a target who already has a membership row in the
    project is answered 400 "User is already a member". *)
Lemma post_projects_id_members_existing (newId : string) (db : DB)
    (user : Identity) (id email : string) (role : jsval) (target : User)
    (m : ProjectMember) :
  find (fun u => u_email u =? email) (users db) = Some target ->
  In m (members db) -> m_projectId m = id -> m_userId m = u_id target ->
  post_projects_id_members newId db user id (mkMemberBody (JStr email) role)
  = (res_error 400 "User is already a member", db).
Proof.
  intros Hf Hin Hp Hu. unfold post_projects_id_members, user_findUnique_email.
  simpl. rewrite Hf.
  destruct (projectMember_findFirst db _) as [x|] eqn:Ex; [reflexivity|].
  exfalso. apply (find_none _ _ Ex) in Hin. simpl in Hin.
  rewrite Hp, Hu, !String.eqb_refl in Hin. discriminate.
Qed.

(** C2, where the route departs from it: carol, who holds no membership
    in "p1", adds dave to "p1" and is answered with the new membership
    row. *)
Theorem C2_non_member_adds_member :
  members_some db0 "p1" (ident_id carol) = false /\
  post_projects_id_members "m3" db0 carol "p1"
    (mkMemberBody (JStr "dave@example.com") JUndefined)
  = (res_json (JsonMember (mkProjectMember "m3" "p1" "u4" "member")),
     with_members db0
       (members db0 ++ [mkProjectMember "m3" "p1" "u4" "member"])).
Proof. split; reflexivity. Qed.

(** The same route lets carol add herself to "p1" as an owner, after
    which her request to delete the project is carried out. *)
Example non_member_takes_over_project :
  let db1 := snd (post_projects_id_members "m3" db0 carol "p1"
                    (mkMemberBody (JStr "carol@example.com") (JStr "owner"))) in
  members_some db1 "p1" (ident_id carol) = true /\
  fst (delete_projects_id db1 carol "p1") = res_json JsonSuccess /\
  projects (snd (delete_projects_id db1 carol "p1")) = [].
Proof. repeat split; reflexivity. Qed.

(* ================================================================== *)
(** ** Creating a task *)
(* ================================================================== *)

(** C7. A request to create a task in a project that is not stored and
    one for a stored project the requester is not a member of get the
    same answer and change nothing; with a title given, that answer is
    404 "Project not found". *)
Theorem C7_create_task_hides_project_existence
    (newDate : jsval -> option Z)
    (StringFilter : FilterOf string) (newId1 newId2 : string) (db1 db2 : DB)
    (user : Identity) (body : TaskBody) (pid : string) :
  b_projectId body = JStr pid ->
  project_exists db1 pid = false ->
  project_exists db2 pid = true ->
  members_some db2 pid (ident_id user) = false ->
  fst (post_tasks newDate StringFilter newId1 db1 user body)
    = fst (post_tasks newDate StringFilter newId2 db2 user body) /\
  snd (post_tasks newDate StringFilter newId1 db1 user body) = db1 /\
  snd (post_tasks newDate StringFilter newId2 db2 user body) = db2 /\
  (truthy (b_title body) = true -> pid <> "" ->
   fst (post_tasks newDate StringFilter newId1 db1 user body)
     = res_error 404 "Project not found").
Proof.
  intros Hb H1 H2 Hnm.
  rewrite !(post_tasks_string_project _ _ _ _ _ _ pid Hb).
  rewrite (project_findFirst_absent db1 pid _ H1),
    (project_findFirst_non_member db2 pid _ Hnm).
  destruct (truthy (b_title body)) eqn:Et; simpl.
  - destruct (pid =? "") eqn:Ep; simpl; repeat split; auto.
    intros _ Hne. apply String.eqb_neq in Hne. congruence.
  - repeat split; auto. discriminate.
Qed.

(** Carol names a project that is not stored, then "p1", of which she is
    not a member. *)
Lemma C7_create_task_witness :
  fst (post_tasks newDate0 filter0 "t2" db0 carol
         (mkTaskBody (JStr "x") JUndefined (JStr "p9") JUndefined JUndefined
                     JUndefined JUndefined JUndefined))
  = res_error 404 "Project not found" /\
  fst (post_tasks newDate0 filter0 "t2" db0 carol
         (mkTaskBody (JStr "x") JUndefined (JStr "p1") JUndefined JUndefined
                     JUndefined JUndefined JUndefined))
  = res_error 404 "Project not found".
Proof.
  pose (db9 := with_projects db0 (projects db0 ++ [mkProject "p9" "Other" None "#000000"])).
  pose (body := mkTaskBody (JStr "x") JUndefined (JStr "p9") JUndefined
                  JUndefined JUndefined JUndefined JUndefined).
  destruct (C7_create_task_hides_project_existence newDate0 filter0 "t2" "t2" db0 db9
              carol body "p9") as (Heq & _ & _ & H404); try reflexivity.
  split; [|reflexivity].
  apply H404; [reflexivity|discriminate].
Defined.

Lemma project_findFirst_member (db : DB) (id userId : string) :
  project_exists db id = true ->
  members_some db id userId = true ->
  exists p, project_findFirst db id userId = Some p /\ p_id p = id.
Proof.
  intros Hex Hm. unfold project_findFirst.
  destruct (find _ (projects db)) as [p|] eqn:E.
  - exists p. split; [reflexivity|].
    apply find_some in E as [_ H]. apply andb_true_iff in H as [H _].
    apply String.eqb_eq. exact H.
  - exfalso. apply project_exists_true in Hex as [p [Hin Hid]].
    apply (find_none _ _ E) in Hin. simpl in Hin.
    rewrite Hid, String.eqb_refl, Hm in Hin. discriminate.
Qed.

Lemma project_findFirst_Some (db : DB) (id userId : string) (p : Project) :
  project_findFirst db id userId = Some p ->
  p_id p = id /\ members_some db id userId = true.
Proof.
  unfold project_findFirst. intros E.
  apply find_some in E as [_ H]. apply andb_true_iff in H as [H1 H2].
  apply String.eqb_eq in H1. rewrite H1 in H2. auto.
Qed.

(** The row [prisma.task.create] writes carries the strings it was
    given. *)
Lemma task_create_Some (db db' : DB) (newId : string) (data : TaskInput)
    (t : Task) :
  task_create db newId data = Some (t, db') ->
  ti_title data = JStr (t_title t) /\
  ti_projectId data = JStr (t_projectId t) /\
  ti_status data = JStr (t_status t) /\
  ti_priority data = JStr (t_priority t) /\
  ti_creatorId data = JStr (t_creatorId t) /\
  t_id t = newId /\
  db' = with_tasks db (tasks db ++ [t]).
Proof.
  unfold task_create, bind, guard.
  destruct (ti_title data); simpl; try discriminate.
  destruct (as_String_opt (ti_description data)); try discriminate.
  destruct (ti_projectId data); simpl; try discriminate.
  destruct (ti_status data); simpl; try discriminate.
  destruct (ti_priority data); simpl; try discriminate.
  destruct (as_DateTime_opt (ti_dueDate data)); try discriminate.
  destruct (as_String_opt (ti_assigneeId data)) as [a|]; try discriminate.
  destruct (ti_creatorId data); simpl; try discriminate.
  destruct (negb (task_exists db newId)); try discriminate.
  destruct (project_exists db _); try discriminate.
  destruct (user_exists db _); try discriminate.
  destruct (match a with Some _ => _ | None => _ end); try discriminate.
  intros H. injection H as <- <-. simpl. repeat split; reflexivity.
Qed.

(** C5. Whenever POST /api/tasks answers with a created task: an omitted
    status is stored as "todo", an omitted priority as "medium", the
    creator is the authenticated identity whatever author field the body
    carries, the requester is a member of the task's project, and the task
    is the one row added to the store.  And a member's request that gives
    only a title and the project is answered with such a task. *)
Theorem C5_task_create_defaults (newDate : jsval -> option Z)
    (StringFilter : FilterOf string) (newId : string)
    (db : DB) (user : Identity) :
  (forall body t db',
     post_tasks newDate StringFilter newId db user body = (res_json (JsonTask t), db') ->
     (b_status body = JUndefined -> t_status t = "todo") /\
     (b_priority body = JUndefined -> t_priority t = "medium") /\
     t_creatorId t = ident_id user /\
     b_projectId body = JStr (t_projectId t) /\
     members_some db (t_projectId t) (ident_id user) = true /\
     db' = with_tasks db (tasks db ++ [t])) /\
  (forall title pid author,
     title <> "" -> pid <> "" ->
     project_exists db pid = true ->
     members_some db pid (ident_id user) = true ->
     user_exists db (ident_id user) = true ->
     task_exists db newId = false ->
     let t := mkTask newId title None "todo" "medium" None pid
                     (ident_id user) None in
     post_tasks newDate StringFilter newId db user
       (mkTaskBody (JStr title) JUndefined (JStr pid) JUndefined JUndefined
                   JUndefined JUndefined author)
     = (res_json (JsonTask t), with_tasks db (tasks db ++ [t]))).
Proof.
  split.
  - intros body t db' H.
    assert (Hpid : exists pid, b_projectId body = JStr pid).
    { unfold post_tasks in H.
      destruct (negb (truthy (b_title body)) || negb (truthy (b_projectId body)));
        [discriminate|].
      destruct (where_String _ (b_projectId body)); [|discriminate].
      destruct (project_findFirst_where db _ _); [|discriminate].
      destruct (task_create db newId _) as [[t' d]|] eqn:Ec; [|discriminate].
      apply task_create_Some in Ec as (_ & Hp & _). simpl in Hp. eauto. }
    destruct Hpid as [pid Ep].
    rewrite (post_tasks_string_project _ _ _ _ _ _ pid Ep) in H.
    destruct (negb (truthy (b_title body)) || negb (truthy (JStr pid)));
      [discriminate|].
    destruct (project_findFirst db pid (ident_id user)) as [p|] eqn:Ef;
      [|discriminate].
    destruct (task_create db newId _) as [[t' d]|] eqn:Ec; [|discriminate].
    injection H as -> ->.
    apply task_create_Some in Ec as (_ & Hp & Hs & Hpr & Hc & _ & Hdb).
    simpl in Hp, Hs, Hpr, Hc.
    apply project_findFirst_Some in Ef as [_ Hm].
    injection Hp as ->.
    repeat split; auto.
    + intros Hu. rewrite Hu in Hs. unfold js_or in Hs. simpl in Hs. congruence.
    + intros Hu. rewrite Hu in Hpr. unfold js_or in Hpr. simpl in Hpr.
      congruence.
    + congruence.
  - intros title pid author Ht Hp Hex Hm Hu Hfresh t.
    erewrite post_tasks_string_project by reflexivity. simpl.
    apply String.eqb_neq in Ht, Hp. rewrite Ht, Hp. simpl.
    destruct (project_findFirst_member db pid _ Hex Hm) as [p [-> _]].
    unfold task_create, bind, guard. simpl.
    rewrite Hfresh, Hex, Hu. reflexivity.
Qed.

(** Alice creates "Write tests" in her project "p1" and sends along an
    author field naming bob. *)
Lemma C5_task_create_witness :
  exists t db',
    post_tasks newDate0 filter0 "t2" db0 alice
      (mkTaskBody (JStr "Write tests") JUndefined (JStr "p1") JUndefined
                  JUndefined JUndefined JUndefined (JStr "u2"))
    = (res_json (JsonTask t), db') /\
    t_status t = "todo" /\ t_priority t = "medium" /\ t_creatorId t = "u1".
Proof.
  destruct (C5_task_create_defaults newDate0 filter0 "t2" db0 alice) as [Hany Hrun].
  eexists. eexists. split.
  - apply (Hrun "Write tests" "p1" (JStr "u2"));
      first [discriminate | reflexivity].
  - specialize (Hany _ _ _
      (Hrun "Write tests" "p1" (JStr "u2")
         ltac:(discriminate) ltac:(discriminate) eq_refl eq_refl eq_refl eq_refl)).
    destruct Hany as (Hs & Hp & Hc & _). simpl in *. auto.
Defined.

(* ================================================================== *)
(** ** Updating a task *)
(* ================================================================== *)

Lemma truthy_defined (v : jsval) : truthy v = true -> defined v = true.
Proof. destruct v; simpl; auto. Qed.

Lemma assigned_String_spread (v : jsval) (s : string) :
  assigned_String v = Some s -> spread_if (defined v) v = v.
Proof. destruct v; simpl; try discriminate; reflexivity. Qed.

Lemma assigned_String_opt_spread (v : jsval) (x : option string) :
  assigned_String_opt v = Some x -> spread_if (defined v) v = v.
Proof. destruct v; simpl; try discriminate; reflexivity. Qed.

Lemma task_set_as_requested (newDate : jsval -> option Z) (body : TaskBody)
    (old : Task) :
  task_set_ok (put_tasks_data newDate body) = true ->
  updated_as_requested newDate body old
    (task_set (put_tasks_data newDate body) old).
Proof.
  intros Hok. unfold task_set_ok, put_tasks_data in Hok. simpl in Hok.
  repeat (apply andb_true_iff in Hok as [Hok ?]).
  unfold updated_as_requested, task_set, put_tasks_data. simpl.
  repeat apply conj; try reflexivity;
    try (intros E; rewrite E; reflexivity);
    try (intros s E; rewrite E; reflexivity);
    try (intros s E; rewrite (assigned_String_spread _ _ E);
         unfold set_String; rewrite E; reflexivity);
    try (intros x E; rewrite (assigned_String_opt_spread _ _ E);
         unfold set_String_opt; rewrite E; reflexivity).
  intros Ht. rewrite (truthy_defined _ Ht) in *. simpl in *.
  unfold date_or_null in *. rewrite Ht in *.
  destruct (newDate (b_dueDate body)); [reflexivity|discriminate].
Qed.

Lemma Forall2_map_same {A : Type} (R : A -> A -> Prop) (f : A -> A) (l : list A) :
  (forall x, In x l -> R x (f x)) -> Forall2 R l (map f l).
Proof.
  induction l as [|a l IH]; simpl; intros H; constructor.
  - apply H. left. reflexivity.
  - apply IH. intros x Hx. apply H. right. exact Hx.
Qed.

Lemma task_updateMany_Some (db db' : DB) (id userId : string)
    (data : TaskInput) (count : nat) :
  task_updateMany db id userId data = Some (count, db') ->
  task_set_ok data = true /\
  count = length (filter (fun t => (t_id t =? id) && task_visible db userId t)
                         (tasks db)) /\
  db' = with_tasks db
          (map (fun t => if (t_id t =? id) && task_visible db userId t
                         then task_set data t else t) (tasks db)).
Proof.
  unfold task_updateMany, bind, guard.
  destruct (task_set_ok data); [|discriminate].
  destruct (_ || _); [|discriminate].
  intros H. injection H as <- <-. auto.
Qed.

(** C6. Whenever PUT /api/tasks/:id answers 200, the tasks named by the
    id in projects of the requester have each updatable field set to the
    value the body gives and left as it was where the body omits it (a
    null [dueDate] clears the date), every other task and every other
    table is as before.  And the request of a member of the task's
    project, with values of the right types (given as they are or as
    [{ set: v }]), is answered 200 with the stored task. *)
Theorem C6_task_update_is_partial (newDate : jsval -> option Z) (db : DB)
    (user : Identity) (id : string) (body : TaskBody) :
  (forall j db',
     put_tasks_id newDate db user id body = ((200%nat, j), db') ->
     Forall2 (fun old new =>
                if (t_id old =? id) && task_visible db (ident_id user) old
                then updated_as_requested newDate body old new
                else new = old)
             (tasks db) (tasks db') /\
     users db' = users db /\ projects db' = projects db /\
     members db' = members db /\ comments db' = comments db /\
     attachments db' = attachments db) /\
  (forall t,
     In t (tasks db) -> t_id t = id ->
     task_visible db (ident_id user) t = true ->
     task_set_ok (put_tasks_data newDate body) = true ->
     (forall a, assigned_String (b_assigneeId body) = Some a ->
                user_exists db a = true) ->
     exists t' db',
       put_tasks_id newDate db user id body = (res_json (JsonTask t'), db') /\
       In t' (tasks db') /\ t_id t' = id).
Proof.
  split.
  - intros j db'. unfold put_tasks_id.
    destruct (task_updateMany db id (ident_id user) _) as [[count d]|] eqn:E.
    2:{ unfold res_error. intros H. discriminate. }
    apply task_updateMany_Some in E as (Hok & _ & ->).
    destruct (count =? 0)%nat; [unfold res_error; intros H; discriminate|].
    intros H.
    assert (Hd : db' = with_tasks db
              (map (fun t => if (t_id t =? id) && task_visible db (ident_id user) t
                             then task_set (put_tasks_data newDate body) t else t)
                   (tasks db))).
    { destruct (task_findUnique _ id); injection H as _ <-; reflexivity. }
    subst db'. simpl. repeat split.
    apply Forall2_map_same. intros x _.
    destruct ((t_id x =? id) && task_visible db (ident_id user) x);
      [|reflexivity].
    apply task_set_as_requested. exact Hok.
  - intros t Hin Hid Hv Hok Hfk. unfold put_tasks_id, task_updateMany, bind, guard.
    rewrite Hok.
    set (hit := fun t => (t_id t =? id) && task_visible db (ident_id user) t).
    assert (Hhit : hit t = true).
    { unfold hit. rewrite Hid, String.eqb_refl, Hv. reflexivity. }
    assert (Hfkb : ((length (filter hit (tasks db)) =? 0)%nat
                    || match assigned_String
                               (ti_assigneeId (put_tasks_data newDate body)) with
                       | Some a => user_exists db a
                       | None => true
                       end) = true).
    { apply orb_true_iff. right. unfold put_tasks_data. simpl.
      destruct (assigned_String (spread_if _ _)) as [a|] eqn:Ea; [|reflexivity].
      apply Hfk. destruct (b_assigneeId body); simpl in Ea;
        try discriminate; exact Ea. }
    rewrite Hfkb.
    assert (Hlen : (length (filter hit (tasks db)) =? 0)%nat = false).
    { apply Nat.eqb_neq. intros Hz. apply length_zero_iff_nil in Hz.
      assert (Hf : In t (filter hit (tasks db)))
        by (apply filter_In; auto).
      rewrite Hz in Hf. exact Hf. }
    rewrite Hlen.
    set (db' := with_tasks db _).
    assert (Hin' : In (task_set (put_tasks_data newDate body) t) (tasks db')).
    { unfold db'. simpl. apply in_map_iff. exists t.
      split; [|exact Hin]. cbv beta. unfold hit in Hhit. rewrite Hhit.
      reflexivity. }
    destruct (task_findUnique db' id) as [u|] eqn:Eu.
    + exists u, db'. split; [reflexivity|].
      unfold task_findUnique in Eu. apply find_some in Eu as [Hu He].
      apply String.eqb_eq in He. auto.
    + exfalso. unfold task_findUnique in Eu.
      apply (find_none _ _ Eu) in Hin'. simpl in Hin'.
      rewrite Hid, String.eqb_refl in Hin'. discriminate.
Qed.

(** Bob, a member of "p1", sets the status of "t1" and clears its due
    date; the title stays. *)
Lemma C6_task_update_witness :
  exists t' db',
    put_tasks_id newDate0 db0 bob "t1"
      (mkTaskBody JUndefined JUndefined JUndefined (JStr "in_progress")
                  JUndefined JNull JUndefined JUndefined)
    = (res_json (JsonTask t'), db') /\
    In t' (tasks db') /\ t_id t' = "t1".
Proof.
  refine (proj2 (C6_task_update_is_partial newDate0 db0 bob "t1" _)
            (mkTask "t1" "Write docs" None "todo" "medium" None "p1" "u1" (Some "u2"))
            _ _ _ _ _).
  - simpl. left. reflexivity.
  - reflexivity.
  - reflexivity.
  - reflexivity.
  - intros a H. discriminate.
Defined.

(* ================================================================== *)
(** ** Status and priority of stored tasks *)
(* ================================================================== *)

Ltac break_write :=
  unfold bind, guard;
  repeat match goal with
         | |- context [match ?x with _ => _ end] => destruct x; try discriminate
         end;
  let H := fresh in intros H; injection H as <- <-; reflexivity.

Lemma project_create_tasks db newId newMemberId data userId role p db' :
  project_create db newId newMemberId data userId role = Some (p, db') ->
  tasks db' = tasks db.
Proof. unfold project_create. break_write. Qed.

Lemma project_updateMany_tasks db id userId data count db' :
  project_updateMany db id userId data = Some (count, db') ->
  tasks db' = tasks db.
Proof. unfold project_updateMany. break_write. Qed.

Lemma projectMember_create_tasks db newId projectId userId role m db' :
  projectMember_create db newId projectId userId role = Some (m, db') ->
  tasks db' = tasks db.
Proof. unfold projectMember_create. break_write. Qed.

Lemma comment_create_tasks db newId content taskId userId c db' :
  comment_create db newId content taskId userId = Some (c, db') ->
  tasks db' = tasks db.
Proof. unfold comment_create. break_write. Qed.

Lemma attachment_create_tasks db a a' db' :
  attachment_create db a = Some (a', db') -> tasks db' = tasks db.
Proof. unfold attachment_create. break_write. Qed.

Lemma task_delete_tasks db id db' :
  task_delete db id = Some db' ->
  tasks db' = filter (fun t => negb (t_id t =? id)) (tasks db).
Proof.
  unfold task_delete, bind, guard. destruct (task_exists db id); [|discriminate].
  intros H. injection H as <-. reflexivity.
Qed.

Lemma tasks_enums_ok_filter (db db' : DB) (f : Task -> bool) :
  tasks db' = filter f (tasks db) -> tasks_enums_ok db -> tasks_enums_ok db'.
Proof.
  intros E H t Ht. rewrite E in Ht. apply filter_In in Ht as [Ht _].
  apply H. exact Ht.
Qed.

Lemma tasks_enums_ok_same (db db' : DB) :
  tasks db' = tasks db -> tasks_enums_ok db -> tasks_enums_ok db'.
Proof. intros E H t Ht. rewrite E in Ht. apply H. exact Ht. Qed.

Lemma create_value_stored (valid : string -> bool) (v : jsval) (d s : string) :
  create_value_ok valid v = true -> valid d = true ->
  js_or v (JStr d) = JStr s -> valid s = true.
Proof.
  unfold js_or. destruct v as [| | | |x| | |]; simpl;
    try (intros _ Hd H; try destruct b; try destruct (negb _);
         congruence).
  intros Hv Hd. destruct (x =? "") eqn:Ex; simpl in *.
  - intros H. congruence.
  - intros H. injection H as <-. exact Hv.
Qed.

Lemma update_value_stored (valid : string -> bool) (v : jsval) (old : string) :
  update_value_ok valid v = true -> valid old = true ->
  valid (set_String (spread_if (defined v) v) old) = true.
Proof.
  unfold update_value_ok, set_String. intros Hv Hold.
  destruct (assigned_String v) as [s|] eqn:E.
  - rewrite (assigned_String_spread _ _ E), E. exact Hv.
  - destruct v; simpl in *; try exact Hold; try discriminate.
    rewrite E. exact Hold.
Qed.

Lemma post_tasks_enums_ok newDate StringFilter newId db user body :
  create_value_ok status_ok (b_status body) = true ->
  create_value_ok priority_ok (b_priority body) = true ->
  tasks_enums_ok db ->
  tasks_enums_ok (snd (post_tasks newDate StringFilter newId db user body)).
Proof.
  intros Hs Hp Hdb. unfold post_tasks.
  destruct (_ || _); [exact Hdb|].
  destruct (where_String _ (b_projectId body)); [|exact Hdb].
  destruct (project_findFirst_where db _ _); [|exact Hdb].
  destruct (task_create db newId _) as [[t d]|] eqn:Ec; [|exact Hdb].
  apply task_create_Some in Ec as (_ & _ & Hst & Hpr & _ & _ & ->).
  simpl in Hst, Hpr. simpl. intros x Hx. apply in_app_or in Hx as [Hx|[<-|[]]].
  - apply Hdb. exact Hx.
  - unfold task_enums_ok. apply andb_true_iff. split.
    + exact (create_value_stored status_ok _ "todo" _ Hs eq_refl Hst).
    + exact (create_value_stored priority_ok _ "medium" _ Hp eq_refl Hpr).
Qed.

Lemma put_tasks_id_enums_ok newDate db user id body :
  update_value_ok status_ok (b_status body) = true ->
  update_value_ok priority_ok (b_priority body) = true ->
  tasks_enums_ok db ->
  tasks_enums_ok (snd (put_tasks_id newDate db user id body)).
Proof.
  intros Hs Hp Hdb. unfold put_tasks_id.
  destruct (task_updateMany db id _ _) as [[count d]|] eqn:E; [|exact Hdb].
  apply task_updateMany_Some in E as (_ & _ & ->).
  assert (H : tasks_enums_ok
            (with_tasks db
               (map (fun t => if (t_id t =? id) && task_visible db (ident_id user) t
                              then task_set (put_tasks_data newDate body) t else t)
                    (tasks db)))).
  { intros x Hx. simpl in Hx. apply in_map_iff in Hx as [t [<- Ht]].
    specialize (Hdb t Ht).
    destruct (_ && _); [|exact Hdb].
    unfold task_enums_ok in *. apply andb_true_iff in Hdb as [H1 H2].
    apply andb_true_iff. split; simpl.
    - apply update_value_stored; assumption.
    - apply update_value_stored; assumption. }
  destruct (count =? 0)%nat; [exact H|].
  destruct (task_findUnique _ id); exact H.
Qed.

Lemma run_op_enums_ok newDate StringFilter db op :
  op_enums_ok op = true -> tasks_enums_ok db ->
  tasks_enums_ok (snd (run_op newDate StringFilter db op)).
Proof.
  intros Hop Hdb. destruct op; simpl in *.
  - unfold post_projects. destruct (negb _); [exact Hdb|].
    destruct (project_create _ _ _ _ _ _) as [[p d]|] eqn:E; [|exact Hdb].
    exact (tasks_enums_ok_same _ _ (project_create_tasks _ _ _ _ _ _ _ _ E) Hdb).
  - unfold put_projects_id.
    destruct (project_updateMany _ _ _ _) as [[c d]|] eqn:E; [|exact Hdb].
    pose proof (tasks_enums_ok_same _ _ (project_updateMany_tasks _ _ _ _ _ _ E) Hdb).
    destruct (c =? 0)%nat; [assumption|].
    destruct (project_findUnique d id); assumption.
  - unfold delete_projects_id.
    destruct (projectMember_findFirst _ _); [|exact Hdb].
    destruct (project_delete db id) as [d|] eqn:E; [|exact Hdb].
    apply project_delete_Some in E as (_ & _ & _ & E).
    exact (tasks_enums_ok_filter _ _ _ E Hdb).
  - unfold post_projects_id_members.
    destruct (user_findUnique_email _ _) as [[target|]|]; try exact Hdb.
    destruct (projectMember_findFirst _ _); [exact Hdb|].
    destruct (projectMember_create _ _ _ _ _) as [[m d]|] eqn:E; [|exact Hdb].
    exact (tasks_enums_ok_same _ _ (projectMember_create_tasks _ _ _ _ _ _ _ E) Hdb).
  - apply andb_true_iff in Hop as [Hs Hp].
    apply post_tasks_enums_ok; assumption.
  - apply andb_true_iff in Hop as [Hs Hp].
    apply put_tasks_id_enums_ok; assumption.
  - unfold delete_tasks_id.
    destruct (task_findFirst _ _ _); [|exact Hdb].
    destruct (task_delete db id) as [d|] eqn:E; [|exact Hdb].
    exact (tasks_enums_ok_filter _ _ _ (task_delete_tasks _ _ _ E) Hdb).
  - unfold post_tasks_id_comments. destruct (negb _); [exact Hdb|].
    destruct (task_findFirst _ _ _); [|exact Hdb].
    destruct (comment_create _ _ _ _ _) as [[c d]|] eqn:E; [|exact Hdb].
    exact (tasks_enums_ok_same _ _ (comment_create_tasks _ _ _ _ _ _ _ E) Hdb).
  - unfold post_tasks_id_attachments. destruct file as [f|]; [|exact Hdb].
    destruct (task_findFirst _ _ _); [|exact Hdb].
    destruct (attachment_create _ _) as [[a d]|] eqn:E; [|exact Hdb].
    exact (tasks_enums_ok_same _ _ (attachment_create_tasks _ _ _ _ E) Hdb).
Qed.

(** C9, as the routes implement it.  The routes store the status and
    priority strings they are given.  From a store whose tasks all have a
    listed status and priority, any sequence of requests in which every
    status and priority supplied to task creation or update is a listed
    value (or, on creation, falsy and so replaced by the default; on
    update the value may come as it is or as [{ set: v }]) leads to a
    store whose tasks all have a listed status and priority. *)
Theorem C9_enums_kept_when_supplied_values_listed
    (newDate : jsval -> option Z)
    (StringFilter : FilterOf string) (ops : list Op) (db : DB) :
  forallb op_enums_ok ops = true ->
  tasks_enums_ok db ->
  tasks_enums_ok (run_ops newDate StringFilter db ops).
Proof.
  revert db. unfold run_ops.
  induction ops as [|op ops IH]; simpl; intros db Hops Hdb; [exact Hdb|].
  apply andb_true_iff in Hops as [Hop Hops].
  apply IH; [exact Hops|]. apply run_op_enums_ok; assumption.
Qed.

(** A run of C9: alice creates a task "in_review"/"high", bob marks "t1"
    completed and then sets its priority with an operation object. *)
Lemma C9_enums_kept_witness :
  tasks_enums_ok
    (run_ops newDate0 filter0 db0
       [ PostTasks "t2" alice
           (mkTaskBody (JStr "Review") JUndefined (JStr "p1") (JStr "in_review")
                       (JStr "high") JUndefined JUndefined JUndefined);
         PutTasksId bob "t1"
           (mkTaskBody JUndefined JUndefined JUndefined (JStr "completed")
                       JUndefined JUndefined JUndefined JUndefined);
         PutTasksId bob "t1"
           (mkTaskBody JUndefined JUndefined JUndefined JUndefined
                       (JObj [("set", JStr "low")]) JUndefined JUndefined
                       JUndefined) ]).
Proof.
  apply C9_enums_kept_when_supplied_values_listed.
  - reflexivity.
  - intros t Hin. simpl in Hin. destruct Hin as [<-|[]]. reflexivity.
Defined.

(** C9 as stated fails: alice creates a task in her project with status
    "blocked" and priority "urgent", and the task is stored as given. *)
Lemma C9_counterexample :
  let body := mkTaskBody (JStr "Ship") JUndefined (JStr "p1") (JStr "blocked")
                         (JStr "urgent") JUndefined JUndefined JUndefined in
  let t := mkTask "t2" "Ship" None "blocked" "urgent" None "p1" "u1" None in
  tasks_enums_ok db0 /\
  post_tasks newDate0 filter0 "t2" db0 alice body
    = (res_json (JsonTask t), with_tasks db0 (tasks db0 ++ [t])) /\
  In t (tasks (run_ops newDate0 filter0 db0 [PostTasks "t2" alice body])) /\
  status_ok (t_status t) = false /\ priority_ok (t_priority t) = false.
Proof.
  simpl. repeat split.
  - intros t Hin. simpl in Hin. destruct Hin as [<-|[]]. reflexivity.
  - right. left. reflexivity.
Qed.

(** The same through an update: bob hands PUT /api/tasks/:id the status
    as an operation object, [{ status: { set: "blocked" } }]; the value is
    stored, and the request is not among those C9 is stated for. *)
Lemma put_tasks_id_set_operation :
  let body := mkTaskBody JUndefined JUndefined JUndefined
                         (JObj [("set", JStr "blocked")])
                         JUndefined JUndefined JUndefined JUndefined in
  let t := mkTask "t1" "Write docs" None "blocked" "medium" None "p1" "u1"
                  (Some "u2") in
  put_tasks_id newDate0 db0 bob "t1" body
    = (res_json (JsonTask t), with_tasks db0 [t]) /\
  op_enums_ok (PutTasksId bob "t1" body) = false.
Proof. split; reflexivity. Qed.

(* ================================================================== *)
(** ** Team listing *)
(* ================================================================== *)

Lemma shares_project_existsb (db : DB) (a b : string) :
  existsb (fun m => (m_userId m =? b)
                    && existsb (String.eqb (m_projectId m))
                         (map m_projectId
                            (filter (fun m => m_userId m =? a) (members db))))
          (members db) = true
  <-> shares_project db a b.
Proof.
  unfold shares_project. rewrite existsb_exists. split.
  - intros (m2 & Hin2 & H). apply andb_true_iff in H as [Hb Hex].
    apply String.eqb_eq in Hb.
    apply existsb_exists in Hex as (pid & Hpid & Heq).
    apply String.eqb_eq in Heq.
    apply in_map_iff in Hpid as (m1 & Hm1 & Hin1).
    apply filter_In in Hin1 as [Hin1 Ha]. apply String.eqb_eq in Ha.
    exists m1, m2. repeat split; auto. congruence.
  - intros (m1 & m2 & Hin1 & Hin2 & Ha & Hb & Hp).
    exists m2. split; [exact Hin2|]. apply andb_true_iff. split.
    + apply String.eqb_eq. exact Hb.
    + apply existsb_exists. exists (m_projectId m1). split.
      * apply in_map_iff. exists m1. split; [reflexivity|].
        apply filter_In. split; [exact Hin1|]. apply String.eqb_eq. exact Ha.
      * apply String.eqb_eq. symmetry. exact Hp.
Qed.

Lemma NoDup_map_filter {A B : Type} (g : A -> B) (f : A -> bool) (l : list A) :
  NoDup (map g l) -> NoDup (map g (filter f l)).
Proof.
  induction l as [|a l IH]; simpl; intros H; [constructor|].
  inversion H as [|x xs Hnotin Hnd]; subst.
  destruct (f a); simpl; [|apply IH; exact Hnd].
  constructor; [|apply IH; exact Hnd].
  intros Hin. apply Hnotin. apply in_map_iff in Hin as (y & Hy & Hyin).
  apply filter_In in Hyin as [Hyin _]. apply in_map_iff. exists y. auto.
Qed.

(** C10. GET /api/team answers with an entry for each registered user
    who holds a membership in a project in which the requester holds one
    too, and for no one else; the entry gives the user's profile fields
    and the number of tasks assigned to that user in the whole task
    table; and no user is listed twice. *)
Theorem C10_team_listing (db : DB) (user : Identity) :
  exists team,
    get_team db user = (res_json (JsonTeam team), db) /\
    (forall e, In e team <->
       exists u, In u (users db) /\
                 shares_project db (ident_id user) (u_id u) /\
                 e = mkTeamMember (u_id u) (u_username u) (u_displayName u)
                       (u_avatarUrl u) (u_email u)
                       (assigned_count db (u_id u))) /\
    (NoDup (map u_id (users db)) -> NoDup (map tm_id team)).
Proof.
  eexists. split; [reflexivity|]. split.
  - intros e. rewrite in_map_iff. split.
    + intros (u & <- & Hu). apply filter_In in Hu as [Hin Hsh].
      apply shares_project_existsb in Hsh.
      exists u. repeat split; auto.
    + intros (u & Hin & Hsh & ->). exists u. split; [reflexivity|].
      apply filter_In. split; [exact Hin|].
      apply shares_project_existsb. exact Hsh.
  - intros Hnd. rewrite map_map. simpl. apply NoDup_map_filter. exact Hnd.
Qed.

(** In the small store alice's team is alice and bob; bob has the one
    assigned task. *)
Lemma C10_team_listing_witness :
  exists team,
    get_team db0 alice = (res_json (JsonTeam team), db0) /\
    In (mkTeamMember "u2" "bob" (Some "bob") None "bob@example.com" 1) team /\
    NoDup (map tm_id team).
Proof.
  destruct (C10_team_listing db0 alice) as (team & Heq & Hin & Hnd).
  exists team. split; [exact Heq|]. split.
  - apply Hin.
    exists (mkUser "u2" "bob@example.com" "bob" "hash2" (Some "bob") None).
    split; [simpl; auto|]. split; [|reflexivity].
    exists (mkProjectMember "m1" "p1" "u1" "owner"),
           (mkProjectMember "m2" "p1" "u2" "member").
    simpl. repeat split; auto.
  - apply Hnd. simpl.
    repeat (constructor; [simpl; intuition discriminate|]). constructor.
Defined.

(* ================================================================== *)
(** ** The scenario of the specification, run on the routes *)
(* ================================================================== *)

(** Alice creates project "Launch" and the task "Write docs" in it and
    invites bob; bob moves the task to "in_progress"; carol, who was not
    invited, asks for the task. *)
Example launch_scenario :
  let registered := mkDB (users db0) [] [] [] [] [] in
  let db1 := run_ops newDate0 filter0 registered
       [ PostProjects "p1" "m1" alice
           (mkProjectBody (JStr "Launch") JUndefined JUndefined);
         PostTasks "t1" alice
           (mkTaskBody (JStr "Write docs") JUndefined (JStr "p1") JUndefined
                       JUndefined JUndefined JUndefined JUndefined);
         PostProjectsIdMembers "m2" alice "p1"
           (mkMemberBody (JStr "bob@example.com") JUndefined) ] in
  let db2 := run_ops newDate0 filter0 db1
       [ PutTasksId bob "t1"
           (mkTaskBody JUndefined JUndefined JUndefined (JStr "in_progress")
                       JUndefined JUndefined JUndefined JUndefined) ] in
  projects db1 = [mkProject "p1" "Launch" None "#2563EB"] /\
  members db1 = [ mkProjectMember "m1" "p1" "u1" "owner";
                  mkProjectMember "m2" "p1" "u2" "member" ] /\
  tasks db1 = [mkTask "t1" "Write docs" None "todo" "medium" None "p1" "u1" None] /\
  fst (get_team db1 alice) = fst (get_team db1 bob) /\
  fst (get_tasks_id db2 alice "t1")
    = res_json (JsonTaskDetail
        (mkTask "t1" "Write docs" None "in_progress" "medium" None "p1" "u1" None)
        [] []) /\
  fst (get_tasks_id db2 carol "t1") = res_error 404 "Task not found".
Proof. repeat split; reflexivity. Qed.

(* ================================================================== *)
(** ** The bearer check *)
(* ================================================================== *)

(** [authMiddleware] calls [next()] only for a header that reads
    "Bearer " followed by a token that [verifyToken] accepts, and then
    [req.user] is the payload of that token; every other request is
    answered 401. *)
Theorem authMiddleware_next_iff
    (SESSION_SECRET : option string)
    (decode_header : string -> option string)
    (decode_payload : string -> option Claims)
    (hmac : string -> string -> string -> string)
    (now : Z) (authorization : option string) (p : Claims) :
  authMiddleware SESSION_SECRET decode_header decode_payload hmac now
    authorization = Next p
  <-> exists token,
        authorization = Some ("Bearer " ++ token) /\
        verifyToken SESSION_SECRET decode_header decode_payload hmac now token
        = Some p.
Proof.
  split.
  - intros H.
    destruct authorization as [h|]; [|discriminate].
    destruct (prefix "Bearer " h) eqn:Ep.
    + assert (Hh : exists token, h = "Bearer " ++ token).
      { do 7 (destruct h as [|? h]; simpl in Ep; [discriminate Ep|];
              match type of Ep with
              | (if ?c then _ else _) = true =>
                  destruct c as [<-|]; [|discriminate Ep]
              end).
        exists h. reflexivity. }
      destruct Hh as [token ->]. exists token. split; [reflexivity|].
      rewrite authMiddleware_bearer in H.
      destruct (verifyToken _ _ _ _ now token) as [q|]; [|discriminate].
      injection H as ->. reflexivity.
    + rewrite authMiddleware_no_bearer in H; [discriminate|].
      intros token E. injection E as ->. simpl in Ep.
      destruct token; discriminate.
  - intros (token & -> & Hv). rewrite authMiddleware_bearer, Hv. reflexivity.
Qed.

(** The header "Bearer hdr.payload.sig" passes with the payload of its
    token. *)
Lemma authMiddleware_next_witness :
  let dh := fun h => if h =? "hdr" then Some "HS256" else None in
  let dp := fun b => if b =? "payload" then Some (issued_claims 0 alice) else None in
  let mac := fun _ _ _ : string => "sig" in
  authMiddleware None dh dp mac 100 (Some "Bearer hdr.payload.sig")
  = Next (issued_claims 0 alice).
Proof.
  intros dh dp mac.
  apply (proj2 (authMiddleware_next_iff None dh dp mac 100
                  (Some "Bearer hdr.payload.sig") (issued_claims 0 alice))).
  exists "hdr.payload.sig". split; reflexivity.
Defined.

Lemma verifyToken_issue_expired
    (SESSION_SECRET : option string) (jws_header : string)
    (decode_header : string -> option string)
    (encode_payload : Claims -> string)
    (decode_payload : string -> option Claims)
    (hmac : string -> string -> string -> string)
    (now now' : Z) (user : Identity) :
  let c := issued_claims now user in
  let input := jws_header ++ "." ++ encode_payload c in
  no_dot jws_header = true ->
  no_dot (encode_payload c) = true ->
  no_dot (hmac "HS256" (JWT_SECRET SESSION_SECRET) input) = true ->
  decode_payload (encode_payload c) = Some c ->
  (now + seven_days <= now')%Z ->
  verifyToken SESSION_SECRET decode_header decode_payload hmac now'
    (generateToken SESSION_SECRET jws_header encode_payload hmac now user)
  = None.
Proof.
  intros c input Hh Hp Hs Hdp Hge.
  destruct (verifyToken _ _ _ _ now' _) as [p|] eqn:Hv; [|reflexivity].
  exfalso.
  apply verifyToken_Some in Hv
    as (h & b & s & alg & Hsp & _ & Hb & _ & _ & _ & _ & Hexp).
  rewrite split_generateToken in Hsp by assumption.
  injection Hsp as <- <- <-. fold c in Hb. rewrite Hdp in Hb.
  injection Hb as <-. specialize (Hexp _ eq_refl). lia.
Qed.

(** A request that carries, as its bearer token, the token issued to a
    user at time [now] passes the middleware with that user's identity
    until seven days later, and is answered 401 "Invalid token" from then
    on. *)
Theorem authMiddleware_issued_token
    (SESSION_SECRET : option string) (jws_header : string)
    (decode_header : string -> option string)
    (encode_payload : Claims -> string)
    (decode_payload : string -> option Claims)
    (hmac : string -> string -> string -> string)
    (now : Z) (user : Identity) :
  let c := issued_claims now user in
  let input := jws_header ++ "." ++ encode_payload c in
  let token := generateToken SESSION_SECRET jws_header encode_payload hmac
                 now user in
  let check := authMiddleware SESSION_SECRET decode_header decode_payload hmac in
  no_dot jws_header = true ->
  no_dot (encode_payload c) = true ->
  no_dot (hmac "HS256" (JWT_SECRET SESSION_SECRET) input) = true ->
  is_blank (hmac "HS256" (JWT_SECRET SESSION_SECRET) input) = false ->
  decode_header jws_header = Some "HS256" ->
  decode_payload (encode_payload c) = Some c ->
  (forall now', (now' < now + seven_days)%Z ->
     check now' (Some ("Bearer " ++ token)) = Next c /\ identity_of c = user) /\
  (forall now', (now + seven_days <= now')%Z ->
     check now' (Some ("Bearer " ++ token)) = Unauthorized 401 "Invalid token").
Proof.
  intros c input token check Hh Hp Hs Hnb Hdh Hdp. split.
  - intros now' Hlt. unfold check. rewrite authMiddleware_bearer.
    unfold token. rewrite verifyToken_issue by assumption.
    split; [reflexivity|]. destruct user; reflexivity.
  - intros now' Hge. unfold check. rewrite authMiddleware_bearer.
    unfold token. rewrite verifyToken_issue_expired by assumption.
    reflexivity.
Qed.

(** Alice's token, issued at time 0, one hundred seconds later and eight
    days later. *)
Lemma authMiddleware_issued_token_witness :
  let dh := fun h => if h =? "hdr" then Some "HS256" else None in
  let enc := fun _ : Claims => "payload" in
  let dp := fun b => if b =? "payload" then Some (issued_claims 0 alice) else None in
  let mac := fun _ _ _ : string => "sig" in
  let token := generateToken None "hdr" enc mac 0 alice in
  authMiddleware None dh dp mac 100 (Some ("Bearer " ++ token))
    = Next (issued_claims 0 alice) /\
  authMiddleware None dh dp mac 691200 (Some ("Bearer " ++ token))
    = Unauthorized 401 "Invalid token".
Proof.
  intros dh enc dp mac token.
  destruct (authMiddleware_issued_token None "hdr" dh enc dp mac 0 alice)
    as [Hok Hexp]; try reflexivity.
  split.
  - apply (Hok 100%Z). reflexivity.
  - apply (Hexp 691200%Z). discriminate.
Defined.

(* ================================================================== *)
(** ** Accounts *)
(* ================================================================== *)

Lemma existsb_false_all {A : Type} (f : A -> bool) (l : list A) :
  existsb f l = false -> forall x, In x l -> f x = false.
Proof.
  intros H x Hx. destruct (f x) eqn:E; [|reflexivity].
  assert (existsb f l = true) by (apply existsb_exists; eauto). congruence.
Qed.

Lemma find_none_existsb {A : Type} (f : A -> bool) (l : list A) :
  find f l = None <-> existsb f l = false.
Proof.
  split; intros H.
  - apply existsb_all_false. intros x Hx. exact (find_none _ _ H x Hx).
  - apply find_all_false. apply existsb_false_all. exact H.
Qed.

Lemma find_app_last {A : Type} (f : A -> bool) (l : list A) (x : A) :
  find f l = None -> f x = true -> find f (l ++ [x]) = Some x.
Proof.
  induction l as [|a l IH]; simpl; intros Hn Hx.
  - rewrite Hx. reflexivity.
  - destruct (f a); [discriminate|]. apply IH; assumption.
Qed.

Lemma NoDup_map_snoc {A B : Type} (g : A -> B) (l : list A) (x : A) :
  NoDup (map g l) -> ~ In (g x) (map g l) -> NoDup (map g (l ++ [x])).
Proof.
  intros Hnd Hnotin. rewrite map_app. simpl.
  apply NoDup_app.
  - exact Hnd.
  - constructor; [intros []|constructor].
  - intros y Hy [<-|[]]. contradiction.
Qed.

Lemma not_in_map_eqb (g : User -> string) (l : list User) (v : string) :
  existsb (fun u => g u =? v) l = false -> ~ In v (map g l).
Proof.
  intros H Hin. apply in_map_iff in Hin as (u & <- & Hu).
  apply (existsb_false_all _ _ H) in Hu. rewrite String.eqb_refl in Hu.
  discriminate.
Qed.

Lemma user_create_Some (db db' : DB) (newId : string) (email username : jsval)
    (password : string) (displayName : jsval) (u : User) :
  user_create db newId email username password displayName = Some (u, db') ->
  email = JStr (u_email u) /\ username = JStr (u_username u) /\
  u_id u = newId /\ u_password u = password /\
  user_exists db newId = false /\
  existsb (fun x => u_email x =? u_email u) (users db) = false /\
  existsb (fun x => u_username x =? u_username u) (users db) = false /\
  db' = with_users db (users db ++ [u]).
Proof.
  unfold user_create, bind, guard.
  destruct email; simpl; try discriminate.
  destruct username; simpl; try discriminate.
  destruct (as_String_opt displayName); try discriminate.
  destruct (user_exists db newId) eqn:E1; simpl; try discriminate.
  destruct (existsb _ (users db)) eqn:E2; simpl; try discriminate.
  destruct (existsb _ (users db)) eqn:E3 in |- *; simpl; try discriminate.
  intros H. injection H as <- <-. simpl. repeat split; auto.
Qed.

Section AccountProperties.

Variable SESSION_SECRET : option string.
Variable jws_header : string.
Variable encode_payload : Claims -> string.
Variable hmac : string -> string -> string -> string.
Variable bcrypt_hash : jsval -> nat -> string -> option string.
Variable bcrypt_compare : jsval -> string -> option bool.
Variable library_message : string.

Local Abbreviation register :=
  (post_auth_register SESSION_SECRET jws_header encode_payload hmac
     bcrypt_hash library_message).
Local Abbreviation login :=
  (post_auth_login SESSION_SECRET jws_header encode_payload hmac
     bcrypt_compare library_message).
Local Abbreviation issue :=
  (generateToken SESSION_SECRET jws_header encode_payload hmac).

(** Registration with an email that a stored user has is answered 400
    "Email already exists"; with a free email and a username that a stored
    user has, 400 "Username already exists"; in both cases nothing is
    stored and no password is hashed. *)
Theorem register_conflict (now : Z) (salt newId : string) (db : DB)
    (email username : string) (password displayName : jsval) :
  email <> "" -> username <> "" -> truthy password = true ->
  let body := mkRegisterBody (JStr email) (JStr username) password displayName in
  (existsb (fun u => u_email u =? email) (users db) = true ->
   register now salt newId db body
   = ((400%nat, AuthError "Email already exists"), db)) /\
  (existsb (fun u => u_email u =? email) (users db) = false ->
   existsb (fun u => u_username u =? username) (users db) = true ->
   register now salt newId db body
   = ((400%nat, AuthError "Username already exists"), db)).
Proof.
  intros He Hn Hp body.
  apply String.eqb_neq in He, Hn.
  unfold post_auth_register, registerUser, user_findUnique_email,
    user_findUnique_username. simpl. rewrite He, Hn, Hp. simpl.
  split.
  - intros Hex.
    destruct (find (fun u => u_email u =? email) (users db)) eqn:E;
      [reflexivity|].
    apply find_none_existsb in E. congruence.
  - intros Hfree Hex. apply find_none_existsb in Hfree. rewrite Hfree.
    destruct (find (fun u => u_username u =? username) (users db)) eqn:E;
      [reflexivity|].
    apply find_none_existsb in E. congruence.
Qed.

(** Registration with a free email, a free username and a fresh id stores
    one new user whose password column holds the bcrypt hash and whose
    display name is the username when none is given, and answers with that
    user's profile and a token issued to the new identity. *)
Theorem register_creates_user (now : Z) (salt newId : string) (db : DB)
    (email username password hashed : string) :
  email <> "" -> username <> "" -> password <> "" ->
  existsb (fun u => u_email u =? email) (users db) = false ->
  existsb (fun u => u_username u =? username) (users db) = false ->
  user_exists db newId = false ->
  bcrypt_hash (JStr password) 10 salt = Some hashed ->
  let u := mkUser newId email username hashed (Some username) None in
  register now salt newId db
    (mkRegisterBody (JStr email) (JStr username) (JStr password) JUndefined)
  = ((200%nat,
      AuthSession (mkProfile newId email username (Some username) None)
        (issue now (mkIdentity newId email username))),
     with_users db (users db ++ [u])).
Proof.
  intros He Hn Hp Hfe Hfn Hid Hh u.
  apply String.eqb_neq in He, Hn, Hp.
  unfold post_auth_register, registerUser, user_findUnique_email,
    user_findUnique_username, hashPassword. simpl. rewrite He, Hn, Hp. simpl.
  apply find_none_existsb in Hfe as Hfe'. apply find_none_existsb in Hfn as Hfn'.
  rewrite Hfe', Hfn', Hh.
  unfold user_create, bind, guard, js_or. simpl.
  rewrite Hid, Hfe, Hfn. reflexivity.
Qed.

(** Whatever is sent to the registration route, ids, emails and usernames
    stay unique in the user table. *)
Theorem register_keeps_users_unique (now : Z) (salt newId : string) (db : DB)
    (body : RegisterBody) :
  NoDup (map u_id (users db)) ->
  NoDup (map u_email (users db)) ->
  NoDup (map u_username (users db)) ->
  let db' := snd (register now salt newId db body) in
  NoDup (map u_id (users db')) /\
  NoDup (map u_email (users db')) /\
  NoDup (map u_username (users db')).
Proof.
  intros H1 H2 H3. unfold post_auth_register.
  destruct (_ || _); [simpl; auto|].
  unfold registerUser.
  destruct (user_findUnique_email db _) as [[x|]|]; simpl; auto.
  destruct (user_findUnique_username db _) as [[x|]|]; simpl; auto.
  destruct (hashPassword _ _ _) as [h|]; simpl; auto.
  destruct (user_create db newId _ _ h _) as [[u d]|] eqn:E; simpl; auto.
  apply user_create_Some in E as (_ & _ & Hid & _ & Hfid & Hfe & Hfn & ->).
  simpl. repeat split; apply NoDup_map_snoc; auto.
  - rewrite Hid. apply not_in_map_eqb. exact Hfid.
  - apply not_in_map_eqb. exact Hfe.
  - apply not_in_map_eqb. exact Hfn.
Qed.

(** The login route answers 200 only for the email of a stored user and a
    password that bcrypt matches against that user's stored hash; the
    answer is then that user's profile with a token issued to that user,
    and the store is never changed. *)
Theorem login_success_iff (now : Z) (db db' : DB) (body : LoginBody)
    (p : Profile) (token : string) :
  login now db body = ((200%nat, AuthSession p token), db') <->
  exists email u,
    lb_email body = JStr email /\ email <> "" /\
    truthy (lb_password body) = true /\
    find (fun x => u_email x =? email) (users db) = Some u /\
    bcrypt_compare (lb_password body) (u_password u) = Some true /\
    p = profile_of u /\
    token = issue now (mkIdentity (u_id u) (u_email u) (u_username u)) /\
    db' = db.
Proof.
  unfold post_auth_login, loginUser, user_findUnique_email, comparePassword,
    bind.
  split.
  - destruct (truthy (lb_email body)) eqn:Te; simpl; [|discriminate].
    destruct (truthy (lb_password body)) eqn:Tp; simpl; [|discriminate].
    destruct (lb_email body) as [| | | |email| | |] eqn:Ee; simpl;
      try discriminate.
    destruct (find _ (users db)) as [u|] eqn:Ef; [|discriminate].
    destruct (bcrypt_compare _ _) as [[|]|] eqn:Ec; simpl; try discriminate.
    intros H. injection H as <- <- <-.
    exists email, u. repeat split; auto.
    simpl in Te. intros ->. discriminate.
  - intros (email & u & Ee & Hne & Tp & Ef & Ec & -> & -> & ->).
    rewrite Ee. simpl. apply String.eqb_neq in Hne. rewrite Hne, Tp. simpl.
    rewrite Ef, Ec. reflexivity.
Qed.

(** An email that no stored user has and a wrong password for a stored
    user get the same answer, 401 "Invalid credentials". *)
Theorem login_failures_alike (now : Z) (db : DB) (email1 email2 : string)
    (password : jsval) (u : User) :
  email1 <> "" -> email2 <> "" -> truthy password = true ->
  find (fun x => u_email x =? email1) (users db) = None ->
  find (fun x => u_email x =? email2) (users db) = Some u ->
  bcrypt_compare password (u_password u) = Some false ->
  login now db (mkLoginBody (JStr email1) password)
    = ((401%nat, AuthError "Invalid credentials"), db) /\
  login now db (mkLoginBody (JStr email2) password)
    = ((401%nat, AuthError "Invalid credentials"), db).
Proof.
  intros H1 H2 Hp Hf1 Hf2 Hc. apply String.eqb_neq in H1, H2.
  unfold post_auth_login, loginUser, user_findUnique_email, comparePassword.
  simpl. rewrite H1, H2, Hp, Hf1, Hf2, Hc. split; reflexivity.
Qed.

(** After a registration that succeeded, logging in with the same email
    and password succeeds for the same profile, provided bcrypt matches
    the password against the hash it produced. *)
Theorem register_then_login (now now' : Z) (salt newId : string) (db db' : DB)
    (email username password : string) (displayName : jsval)
    (p : Profile) (token hashed : string) :
  register now salt newId db
    (mkRegisterBody (JStr email) (JStr username) (JStr password) displayName)
  = ((200%nat, AuthSession p token), db') ->
  bcrypt_hash (JStr password) 10 salt = Some hashed ->
  bcrypt_compare (JStr password) hashed = Some true ->
  pr_email p = email /\ pr_username p = username /\ pr_id p = newId /\
  login now' db' (mkLoginBody (JStr email) (JStr password))
  = ((200%nat,
      AuthSession p (issue now' (mkIdentity newId email username))), db').
Proof.
  unfold post_auth_register. simpl.
  destruct (email =? "") eqn:He; simpl; [discriminate|].
  destruct (username =? "") eqn:Hn; simpl; [discriminate|].
  destruct (password =? "") eqn:Hp; simpl; [discriminate|].
  unfold registerUser, user_findUnique_email, user_findUnique_username,
    hashPassword. simpl.
  destruct (find (fun u => u_email u =? email) (users db)) eqn:Ef;
    [discriminate|].
  destruct (find (fun u => u_username u =? username) (users db));
    [discriminate|].
  destruct (bcrypt_hash (JStr password) 10 salt) as [h|] eqn:Eh; [|discriminate].
  destruct (user_create db newId _ _ h _) as [[u d]|] eqn:Ec; [|discriminate].
  intros H Hh Hc. injection H as <- _ <-. injection Hh as ->.
  apply user_create_Some in Ec as (Hue & Hun & Hid & Hpw & _ & _ & _ & ->).
  injection Hue as Hue. injection Hun as Hun.
  repeat split; simpl; auto.
  unfold post_auth_login, loginUser, user_findUnique_email, comparePassword.
  simpl. rewrite He, Hp. simpl.
  rewrite (find_app_last _ _ u Ef) by (rewrite <- Hue; apply String.eqb_refl).
  rewrite Hpw, Hc. simpl. rewrite Hid, <- Hue, <- Hun. reflexivity.
Qed.

End AccountProperties.

(** Registering with alice's email, and with a new email but alice's
    username. *)
Lemma register_conflict_witness :
  post_auth_register None "hdr" enc0 mac0 hash0 "library error" 0 "salt" "u5" db0
    (mkRegisterBody (JStr "alice@example.com") (JStr "erin") (JStr "pw123")
                    JUndefined)
  = ((400%nat, AuthError "Email already exists"), db0) /\
  post_auth_register None "hdr" enc0 mac0 hash0 "library error" 0 "salt" "u5" db0
    (mkRegisterBody (JStr "erin@example.com") (JStr "alice") (JStr "pw123")
                    JUndefined)
  = ((400%nat, AuthError "Username already exists"), db0).
Proof.
  split.
  - apply (register_conflict None "hdr" enc0 mac0 hash0 "library error"
             0 "salt" "u5" db0 "alice@example.com" "erin" (JStr "pw123")
             JUndefined); first [discriminate | reflexivity].
  - apply (register_conflict None "hdr" enc0 mac0 hash0 "library error"
             0 "salt" "u5" db0 "erin@example.com" "alice" (JStr "pw123")
             JUndefined); first [discriminate | reflexivity].
Defined.

(** Erin registers in the small store. *)
Lemma register_creates_user_witness :
  post_auth_register None "hdr" enc0 mac0 hash0 "library error" 0 "salt" "u5" db0
    (mkRegisterBody (JStr "erin@example.com") (JStr "erin") (JStr "pw123")
                    JUndefined)
  = ((200%nat,
      AuthSession (mkProfile "u5" "erin@example.com" "erin" (Some "erin") None)
        (generateToken None "hdr" enc0 mac0 0
           (mkIdentity "u5" "erin@example.com" "erin"))),
     db_erin).
Proof.
  apply (register_creates_user None "hdr" enc0 mac0 hash0 "library error"
           0 "salt" "u5" db0 "erin@example.com" "erin" "pw123" "salt$pw123");
    first [discriminate | reflexivity].
Defined.

(** The user table of the small store after erin's registration. *)
Lemma register_keeps_users_unique_witness :
  NoDup (map u_email
           (users (snd (post_auth_register None "hdr" enc0 mac0 hash0
                          "library error" 0 "salt" "u5" db0
                          (mkRegisterBody (JStr "erin@example.com") (JStr "erin")
                             (JStr "pw123") JUndefined))))).
Proof.
  apply (register_keeps_users_unique None "hdr" enc0 mac0 hash0 "library error"
           0 "salt" "u5" db0);
    simpl; repeat (constructor; [simpl; intuition discriminate|]); constructor.
Defined.

(** Erin logs in with her password. *)
Lemma login_success_witness :
  post_auth_login None "hdr" enc0 mac0 compare0 "library error" 50 db_erin
    (mkLoginBody (JStr "erin@example.com") (JStr "pw123"))
  = ((200%nat,
      AuthSession (mkProfile "u5" "erin@example.com" "erin" (Some "erin") None)
        (generateToken None "hdr" enc0 mac0 50
           (mkIdentity "u5" "erin@example.com" "erin"))),
     db_erin).
Proof.
  apply (proj2 (login_success_iff None "hdr" enc0 mac0 compare0 "library error"
                  50 db_erin db_erin _ _ _)).
  exists "erin@example.com",
         (mkUser "u5" "erin@example.com" "erin" "salt$pw123" (Some "erin") None).
  repeat split; first [discriminate | reflexivity].
Defined.

(** An unknown email, and erin's email with a wrong password. *)
Lemma login_failures_alike_witness :
  post_auth_login None "hdr" enc0 mac0 compare0 "library error" 50 db_erin
    (mkLoginBody (JStr "nobody@example.com") (JStr "guess"))
  = post_auth_login None "hdr" enc0 mac0 compare0 "library error" 50 db_erin
      (mkLoginBody (JStr "erin@example.com") (JStr "guess")).
Proof.
  etransitivity.
  - apply (proj1 (login_failures_alike None "hdr" enc0 mac0 compare0
             "library error" 50 db_erin "nobody@example.com" "erin@example.com"
             (JStr "guess")
             (mkUser "u5" "erin@example.com" "erin" "salt$pw123" (Some "erin") None)
             ltac:(discriminate) ltac:(discriminate) eq_refl eq_refl eq_refl
             eq_refl)).
  - symmetry.
    apply (proj2 (login_failures_alike None "hdr" enc0 mac0 compare0
             "library error" 50 db_erin "nobody@example.com" "erin@example.com"
             (JStr "guess")
             (mkUser "u5" "erin@example.com" "erin" "salt$pw123" (Some "erin") None)
             ltac:(discriminate) ltac:(discriminate) eq_refl eq_refl eq_refl
             eq_refl)).
Defined.

(** Erin registers and then logs in. *)
Lemma register_then_login_witness :
  post_auth_login None "hdr" enc0 mac0 compare0 "library error" 50 db_erin
    (mkLoginBody (JStr "erin@example.com") (JStr "pw123"))
  = ((200%nat,
      AuthSession (mkProfile "u5" "erin@example.com" "erin" (Some "erin") None)
        (generateToken None "hdr" enc0 mac0 50
           (mkIdentity "u5" "erin@example.com" "erin"))),
     db_erin).
Proof.
  apply (register_then_login None "hdr" enc0 mac0 hash0 compare0 "library error"
           0 50 "salt" "u5" db0 db_erin "erin@example.com" "erin" "pw123"
           JUndefined
           (mkProfile "u5" "erin@example.com" "erin" (Some "erin") None)
           (generateToken None "hdr" enc0 mac0 0
              (mkIdentity "u5" "erin@example.com" "erin"))
           "salt$pw123"); reflexivity.
Defined.

Lemma user_update_Some (db db' : DB) (id : string) (displayName avatarUrl : jsval)
    (u' : User) :
  user_update db id displayName avatarUrl = Some (u', db') ->
  let upd u := mkUser (u_id u) (u_email u) (u_username u) (u_password u)
                 (set_String_opt displayName (u_displayName u))
                 (set_String_opt avatarUrl (u_avatarUrl u)) in
  exists u, find (fun x => u_id x =? id) (users db) = Some u /\ u' = upd u /\
            db' = with_users db
                    (map (fun x => if u_id x =? id then upd x else x) (users db)).
Proof.
  unfold user_update, bind, guard.
  destruct (ok_set_String_opt displayName); [|discriminate].
  destruct (ok_set_String_opt avatarUrl); [|discriminate].
  destruct (find _ (users db)) as [u|]; [|discriminate].
  intros H. injection H as <- <-. exists u. auto.
Qed.

Lemma find_map_update (id : string) (upd : User -> User) (l : list User) :
  (forall x, u_id (upd x) = u_id x) ->
  find (fun x => u_id x =? id) (map (fun x => if u_id x =? id then upd x else x) l)
  = option_map upd (find (fun x => u_id x =? id) l).
Proof.
  intros Hid. induction l as [|a l IH]; simpl; [reflexivity|].
  destruct (u_id a =? id) eqn:E.
  - rewrite Hid, E. reflexivity.
  - rewrite E. exact IH.
Qed.

(** A profile update that is answered 200 rewrites the display name and
    avatar of the rows with the requester's id and nothing else: every
    row keeps its id, email, username and password, the rows of other
    users and the other tables are as before, and a following
    GET /api/auth/me returns the profile the update returned.  When no
    row has the requester's id the update is answered 500 and nothing
    changes. *)
Theorem profile_update_own_row (db : DB) (user : Identity) (body : ProfileBody) :
  (forall p db',
     put_auth_profile db user body = ((200%nat, AuthUser p), db') ->
     Forall2 (fun old new =>
                u_id new = u_id old /\ u_email new = u_email old /\
                u_username new = u_username old /\
                u_password new = u_password old /\
                (u_id old <> ident_id user -> new = old))
             (users db) (users db') /\
     projects db' = projects db /\ members db' = members db /\
     tasks db' = tasks db /\ comments db' = comments db /\
     attachments db' = attachments db /\
     get_auth_me db' user = ((200%nat, AuthUser p), db')) /\
  (user_exists db (ident_id user) = false ->
   put_auth_profile db user body
   = ((500%nat, AuthError "Failed to update profile"), db)).
Proof.
  split.
  - intros p db'. unfold put_auth_profile.
    destruct (user_update db _ _ _) as [[u' d]|] eqn:E; [|discriminate].
    intros H. injection H as <- <-.
    apply user_update_Some in E as (u & Hf & -> & ->). simpl.
    repeat split.
    + apply Forall2_map_same. intros x _.
      destruct (u_id x =? ident_id user) eqn:Ex; simpl.
      * repeat split; auto. intros Hne. apply String.eqb_eq in Ex. contradiction.
      * repeat split; auto.
    + unfold get_auth_me, user_findUnique_id. simpl.
      rewrite find_map_update by reflexivity. rewrite Hf. reflexivity.
  - intros Hne. unfold put_auth_profile, user_update, bind, guard.
    destruct (ok_set_String_opt _); [|reflexivity].
    destruct (ok_set_String_opt _); [|reflexivity].
    unfold user_exists in Hne. apply find_none_existsb in Hne.
    rewrite Hne. reflexivity.
Qed.

(** Bob sets his display name; alice's row keeps hers. *)
Lemma profile_update_own_row_witness :
  exists p db',
    put_auth_profile db0 bob (mkProfileBody (JStr "Bobby") JUndefined)
    = ((200%nat, AuthUser p), db') /\
    get_auth_me db' bob = ((200%nat, AuthUser p), db') /\
    tasks db' = tasks db0.
Proof.
  eexists. eexists. split; [reflexivity|].
  destruct (proj1 (profile_update_own_row db0 bob
                     (mkProfileBody (JStr "Bobby") JUndefined)) _ _ eq_refl)
    as (_ & _ & _ & Ht & _ & _ & Hme).
  split; [exact Hme|exact Ht].
Defined.

(* ================================================================== *)
(** ** Projects: create, read, update *)
(* ================================================================== *)

Lemma project_create_Some (db db' : DB) (newId newMemberId : string)
    (data : ProjectInput) (userId role : string) (p : Project) :
  project_create db newId newMemberId data userId role = Some (p, db') ->
  pi_name data = JStr (p_name p) /\ pi_color data = JStr (p_color p) /\
  p_id p = newId /\
  project_exists db newId = false /\
  db' = with_members (with_projects db (projects db ++ [p]))
          (members db ++ [mkProjectMember newMemberId newId userId role]).
Proof.
  unfold project_create, bind, guard.
  destruct (pi_name data); simpl; try discriminate.
  destruct (as_String_opt (pi_description data)); try discriminate.
  destruct (pi_color data); simpl; try discriminate.
  destruct (project_exists db newId); simpl; try discriminate.
  destruct (existsb _ (members db)); simpl; try discriminate.
  destruct (user_exists db userId); simpl; try discriminate.
  intros H. injection H as <- <-. simpl. auto.
Qed.

(** A project creation that is answered with the project has stored it
    under the generated id with the name given, with colour "#2563EB"
    when the body gives none, and has stored exactly one membership with
    it: the requester's, with role "owner".  Without a name the answer is
    400 and nothing is stored. *)
Theorem post_projects_creator_is_owner (newId newMemberId : string) (db : DB)
    (user : Identity) (body : ProjectBody) :
  (forall p db',
     post_projects newId newMemberId db user body = (res_json (JsonProject p), db') ->
     p_id p = newId /\ pb_name body = JStr (p_name p) /\
     (truthy (pb_color body) = false -> p_color p = "#2563EB") /\
     projects db' = (projects db ++ [p])%list /\
     members db'
     = (members db ++ [mkProjectMember newMemberId newId (ident_id user) "owner"])%list /\
     users db' = users db /\ tasks db' = tasks db) /\
  (truthy (pb_name body) = false ->
   post_projects newId newMemberId db user body
   = (res_error 400 "Project name is required", db)).
Proof.
  unfold post_projects. split.
  - intros p db'. destruct (negb (truthy (pb_name body))); [discriminate|].
    destruct (project_create _ _ _ _ _ _) as [[q d]|] eqn:E; [|discriminate].
    intros H. injection H as -> ->.
    apply project_create_Some in E as (Hn & Hc & Hid & _ & ->).
    simpl in Hn, Hc. simpl. repeat split; auto.
    intros Hf. unfold js_or in Hc. rewrite Hf in Hc. congruence.
  - intros ->. reflexivity.
Qed.

(** Carol, registered and in no project, creates "Ops". *)
Lemma post_projects_creator_is_owner_witness :
  exists p db',
    post_projects "p2" "m3" db0 carol
      (mkProjectBody (JStr "Ops") JUndefined JUndefined)
    = (res_json (JsonProject p), db') /\
    p_color p = "#2563EB" /\
    members db' = (members db0 ++ [mkProjectMember "m3" "p2" "u3" "owner"])%list.
Proof.
  eexists. eexists. split; [reflexivity|].
  destruct (proj1 (post_projects_creator_is_owner "p2" "m3" db0 carol
                     (mkProjectBody (JStr "Ops") JUndefined JUndefined))
              _ _ eq_refl) as (_ & _ & Hc & _ & Hm & _).
  split; [apply Hc; reflexivity|exact Hm].
Defined.

Lemma filter_all_true {A : Type} (f : A -> bool) (l : list A) :
  (forall x, In x l -> f x = true) -> filter f l = l.
Proof.
  induction l as [|a l IH]; simpl; intros H; [reflexivity|].
  rewrite (H a (or_introl eq_refl)). f_equal. apply IH.
  intros x Hx. apply H. right. exact Hx.
Qed.

Lemma filter_app_last_out {A : Type} (f : A -> bool) (l : list A) (x : A) :
  (forall y, In y l -> f y = true) -> f x = false -> filter f (l ++ [x]) = l.
Proof.
  intros Hl Hx. rewrite filter_app. simpl. rewrite Hx, app_nil_r.
  apply filter_all_true. exact Hl.
Qed.

(** The creator of a project can delete it, and creating a project and
    deleting it again leaves the store as it was, provided no membership
    or task row named the generated id beforehand. *)
Theorem post_projects_then_delete (newId newMemberId : string) (db db' : DB)
    (user : Identity) (body : ProjectBody) (p : Project) :
  post_projects newId newMemberId db user body = (res_json (JsonProject p), db') ->
  (forall m, In m (members db) -> m_projectId m <> newId) ->
  (forall t, In t (tasks db) -> t_projectId t <> newId) ->
  delete_projects_id db' user newId = (res_json JsonSuccess, db).
Proof.
  unfold post_projects.
  destruct (negb (truthy (pb_name body))); [discriminate|].
  destruct (project_create _ _ _ _ _ _) as [[q d]|] eqn:E; [|discriminate].
  intros H Hm Ht. injection H as -> ->.
  apply project_create_Some in E as (_ & _ & Hid & Hfresh & ->).
  assert (Hneq : forall a b : string, a <> b -> negb (a =? b) = true).
  { intros a b Hab. apply negb_true_iff. apply String.eqb_neq. exact Hab. }
  unfold delete_projects_id, projectMember_findFirst. simpl.
  assert (Hfind : exists m,
            find (fun m => (m_projectId m =? newId) && (m_userId m =? ident_id user)
                           && (m_role m =? "owner"))
                 (members db ++ [mkProjectMember newMemberId newId (ident_id user) "owner"])
            = Some m).
  { destruct (find _ (members db ++ _)) as [m|] eqn:Ef; [eauto|].
    exfalso.
    assert (Hin : In (mkProjectMember newMemberId newId (ident_id user) "owner")
                     (members db ++ [mkProjectMember newMemberId newId (ident_id user) "owner"]))
      by (apply in_or_app; right; left; reflexivity).
    apply (find_none _ _ Ef) in Hin. simpl in Hin.
    rewrite !String.eqb_refl in Hin. discriminate. }
  destruct Hfind as [m ->].
  unfold project_delete, bind, guard, project_exists. simpl.
  rewrite existsb_app. simpl. rewrite Hid, String.eqb_refl, orb_true_r. simpl.
  assert (Htasks : filter (fun t => t_projectId t =? newId) (tasks db) = []).
  { apply filter_all_false. intros t Hin. apply String.eqb_neq. apply Ht, Hin. }
  rewrite Htasks. simpl.
  rewrite (filter_app_last_out _ (projects db) p).
  2:{ intros y Hy. apply Hneq. intros Hy'.
      unfold project_exists in Hfresh.
      apply (existsb_false_all _ _ Hfresh) in Hy.
      apply String.eqb_neq in Hy. contradiction. }
  2:{ rewrite Hid, String.eqb_refl. reflexivity. }
  rewrite (filter_app_last_out _ (members db)).
  2:{ intros y Hy. apply Hneq. apply Hm, Hy. }
  2:{ simpl. rewrite String.eqb_refl. reflexivity. }
  rewrite (filter_all_true _ (tasks db))
    by (intros t Hin; apply Hneq; apply Ht, Hin).
  rewrite !filter_all_true by reflexivity.
  destruct db; reflexivity.
Qed.

(** Carol creates "Ops" in the small store and deletes it again. *)
Lemma post_projects_then_delete_witness :
  delete_projects_id
    (snd (post_projects "p2" "m3" db0 carol
            (mkProjectBody (JStr "Ops") JUndefined JUndefined)))
    carol "p2"
  = (res_json JsonSuccess, db0).
Proof.
  apply (post_projects_then_delete "p2" "m3" db0 _ carol
           (mkProjectBody (JStr "Ops") JUndefined JUndefined)
           (mkProject "p2" "Ops" None "#2563EB")).
  - reflexivity.
  - intros m Hin. simpl in Hin.
    destruct Hin as [<-|[<-|[]]]; simpl; discriminate.
  - intros t Hin. simpl in Hin. destruct Hin as [<-|[]]. simpl. discriminate.
Defined.

Lemma project_updateMany_Some (db db' : DB) (id userId : string)
    (data : ProjectInput) (count : nat) :
  project_updateMany db id userId data = Some (count, db') ->
  let hit p := (p_id p =? id) && members_some db (p_id p) userId in
  ok_set_String (pi_name data) = true /\
  ok_set_String_opt (pi_description data) = true /\
  ok_set_String (pi_color data) = true /\
  count = length (filter hit (projects db)) /\
  db' = with_projects db
          (map (fun p => if hit p
                         then mkProject (p_id p)
                                (set_String (pi_name data) (p_name p))
                                (set_String_opt (pi_description data) (p_description p))
                                (set_String (pi_color data) (p_color p))
                         else p) (projects db)).
Proof.
  unfold project_updateMany, bind, guard.
  destruct (ok_set_String (pi_name data)); [|discriminate].
  destruct (ok_set_String_opt (pi_description data)); [|discriminate].
  destruct (ok_set_String (pi_color data)); [|discriminate].
  intros H. injection H as <- <-. auto.
Qed.

(** A project update that is answered 200 sets, on the project with the
    id (of which the requester is then a member), the name, description
    and colour the body gives and keeps the ones it omits; other projects
    and the other tables are as before.  Any member may do it: the request
    of a member of a stored project, whatever the role, with values of the
    right types is answered 200. *)
Theorem put_projects_id_is_partial (db : DB) (user : Identity) (id : string)
    (body : ProjectBody) :
  (forall j db',
     put_projects_id db user id body = ((200%nat, j), db') ->
     members_some db id (ident_id user) = true /\
     Forall2 (fun old new =>
                if p_id old =? id
                then p_id new = id /\
                     (pb_name body = JUndefined -> p_name new = p_name old) /\
                     (forall s, pb_name body = JStr s -> p_name new = s) /\
                     (pb_description body = JUndefined ->
                      p_description new = p_description old) /\
                     (pb_description body = JNull -> p_description new = None) /\
                     (forall s, pb_description body = JStr s ->
                                p_description new = Some s) /\
                     (pb_color body = JUndefined -> p_color new = p_color old) /\
                     (forall s, pb_color body = JStr s -> p_color new = s)
                else new = old)
             (projects db) (projects db') /\
     users db' = users db /\ members db' = members db /\ tasks db' = tasks db /\
     comments db' = comments db /\ attachments db' = attachments db) /\
  (project_exists db id = true ->
   members_some db id (ident_id user) = true ->
   ok_set_String (pb_name body) = true ->
   ok_set_String_opt (pb_description body) = true ->
   ok_set_String (pb_color body) = true ->
   exists p db',
     put_projects_id db user id body = (res_json (JsonProject p), db') /\
     p_id p = id /\ In p (projects db')).
Proof.
  split.
  - intros j db'. unfold put_projects_id.
    destruct (project_updateMany db id _ _) as [[count d]|] eqn:E.
    2:{ unfold res_error. discriminate. }
    apply project_updateMany_Some in E as (_ & _ & _ & Hc & ->). simpl in Hc.
    destruct (count =? 0)%nat eqn:Ez; [unfold res_error; discriminate|].
    intros H.
    assert (Hd : db' = with_projects db
              (map (fun p => if (p_id p =? id) && members_some db (p_id p) (ident_id user)
                             then mkProject (p_id p)
                                    (set_String (pb_name body) (p_name p))
                                    (set_String_opt (pb_description body) (p_description p))
                                    (set_String (pb_color body) (p_color p))
                             else p) (projects db))).
    { destruct (project_findUnique _ id); injection H as _ <-; reflexivity. }
    clear H. subst db'. simpl.
    assert (Hmem : members_some db id (ident_id user) = true).
    { apply Nat.eqb_neq in Ez. rewrite Hc in Ez.
      destruct (filter _ (projects db)) as [|p l] eqn:Ef; [contradiction Ez; reflexivity|].
      assert (Hp : In p (filter (fun p => (p_id p =? id)
                            && members_some db (p_id p) (ident_id user)) (projects db)))
        by (rewrite Ef; left; reflexivity).
      apply filter_In in Hp as [_ Hp]. apply andb_true_iff in Hp as [H1 H2].
      apply String.eqb_eq in H1. rewrite H1 in H2. exact H2. }
    repeat split; auto.
    apply Forall2_map_same. intros x _.
    destruct (p_id x =? id) eqn:Ex; simpl; [|reflexivity].
    apply String.eqb_eq in Ex. rewrite Ex, Hmem. simpl.
    repeat split; auto;
      try (intros E; rewrite E; reflexivity);
      try (intros s E; rewrite E; reflexivity).
  - intros Hex Hm H1 H2 H3.
    unfold put_projects_id, project_updateMany, bind, guard. simpl.
    rewrite H1, H2, H3.
    set (hit := fun p => (p_id p =? id) && members_some db (p_id p) (ident_id user)).
    apply project_exists_true in Hex as [p [Hin Hid]].
    assert (Hhit : hit p = true)
      by (unfold hit; rewrite Hid, String.eqb_refl, Hm; reflexivity).
    assert (Hlen : (length (filter hit (projects db)) =? 0)%nat = false).
    { apply Nat.eqb_neq. intros Hz. apply length_zero_iff_nil in Hz.
      assert (Hf : In p (filter hit (projects db))) by (apply filter_In; auto).
      rewrite Hz in Hf. exact Hf. }
    rewrite Hlen.
    set (db' := with_projects db (map _ (projects db))).
    set (p' := mkProject (p_id p)
                 (set_String (pb_name body) (p_name p))
                 (set_String_opt (pb_description body) (p_description p))
                 (set_String (pb_color body) (p_color p))).
    assert (Hin' : In p' (projects db')).
    { unfold db'. simpl. apply in_map_iff. exists p. split; [|exact Hin].
      unfold hit in Hhit. rewrite Hhit. reflexivity. }
    assert (Hidp : p_id p' = id) by exact Hid.
    destruct (project_findUnique db' id) as [q|] eqn:Eq.
    + exists q, db'. split; [reflexivity|].
      unfold project_findUnique in Eq. apply find_some in Eq as [Hq He].
      apply String.eqb_eq in He. auto.
    + exfalso. unfold project_findUnique in Eq.
      apply (find_none _ _ Eq) in Hin'. cbv beta in Hin'.
      rewrite Hidp, String.eqb_refl in Hin'. discriminate.
Qed.

(** Bob, a plain member of "p1", renames it. *)
Lemma put_projects_id_is_partial_witness :
  exists p db',
    put_projects_id db0 bob "p1" (mkProjectBody (JStr "Lift-off") JUndefined JUndefined)
    = (res_json (JsonProject p), db') /\ p_id p = "p1" /\ In p (projects db').
Proof.
  apply (proj2 (put_projects_id_is_partial db0 bob "p1"
                  (mkProjectBody (JStr "Lift-off") JUndefined JUndefined)));
    reflexivity.
Defined.

(** GET /api/projects/:id answers with a project exactly when a project
    with the id is stored and the requester has a membership row in it;
    the answer then carries a project with that id, the membership rows of
    the project and the tasks of the project, and nothing of another
    project. *)
Theorem get_projects_id_iff_member (db : DB) (user : Identity) (id : string) :
  (project_exists db id = true /\ members_some db id (ident_id user) = true)
  <-> exists p ms ts,
        get_projects_id db user id = (res_json (JsonProjectDetail p ms ts), db) /\
        In p (projects db) /\ p_id p = id /\
        (forall m, In m ms <-> In m (members db) /\ m_projectId m = id) /\
        (forall t, In t ts <-> In t (tasks db) /\ t_projectId t = id).
Proof.
  unfold get_projects_id. split.
  - intros [Hex Hm].
    destruct (project_findFirst_member db id _ Hex Hm) as [p [Hf Hid]].
    rewrite Hf. exists p. eexists. eexists. split; [reflexivity|].
    unfold project_findFirst in Hf. apply find_some in Hf as [Hin _].
    repeat split; auto.
    + apply filter_In in H as [H _]. exact H.
    + apply filter_In in H as [_ H]. apply String.eqb_eq in H. congruence.
    + intros [H1 H2]. apply filter_In. split; [exact H1|].
      apply String.eqb_eq. congruence.
    + apply filter_In in H as [H _]. exact H.
    + apply filter_In in H as [_ H]. apply String.eqb_eq in H. congruence.
    + intros [H1 H2]. apply filter_In. split; [exact H1|].
      apply String.eqb_eq. congruence.
  - intros (p & ms & ts & H & Hin & Hid & _).
    destruct (project_findFirst db id (ident_id user)) as [q|] eqn:Ef;
      [|unfold res_error in H; discriminate].
    apply project_findFirst_Some in Ef as [_ Hm]. split; [|exact Hm].
    apply project_exists_true. exists p. auto.
Qed.

(** Bob reads "p1": its two memberships and its task. *)
Lemma get_projects_id_iff_member_witness :
  exists p ms ts,
    get_projects_id db0 bob "p1" = (res_json (JsonProjectDetail p ms ts), db0) /\
    length ms = 2%nat /\ length ts = 1%nat.
Proof.
  destruct (proj1 (get_projects_id_iff_member db0 bob "p1") (conj eq_refl eq_refl))
    as (p & ms & ts & H & _).
  exists p, ms, ts. split; [exact H|].
  simpl in H. injection H as <- <- <-. split; reflexivity.
Defined.

(* ================================================================== *)
(** ** Tasks: list, read, delete; comments and attachments *)
(* ================================================================== *)

Lemma task_visible_true (db : DB) (userId : string) (t : Task) :
  task_visible db userId t = true <->
  project_exists db (t_projectId t) = true /\
  members_some db (t_projectId t) userId = true.
Proof.
  unfold task_visible. split.
  - intros H. apply existsb_exists in H as [p [Hin H]].
    apply andb_true_iff in H as [H1 H2]. apply String.eqb_eq in H1.
    rewrite H1 in H2. split; [|exact H2].
    apply project_exists_true. exists p. auto.
  - intros [Hex Hm]. apply project_exists_true in Hex as [p [Hin Hid]].
    apply existsb_exists. exists p. split; [exact Hin|].
    rewrite Hid, String.eqb_refl, Hm. reflexivity.
Qed.

Lemma spread_where_String_sound (StringFilter : FilterOf string)
    (v : jsval) (f : string -> bool) (column : string) :
  spread_where (where_String StringFilter) v = Some f ->
  f column = true ->
  forall s, v = JStr s -> s <> "" -> column = s.
Proof.
  intros Hf Hc s -> Hne. unfold spread_where in Hf. simpl in Hf.
  apply String.eqb_neq in Hne. rewrite Hne in Hf. simpl in Hf.
  injection Hf as <-. apply String.eqb_eq. exact Hc.
Qed.

Lemma spread_where_String_opt_sound (StringNullableFilter : FilterOf (option string))
    (v : jsval) (f : option string -> bool) (column : option string) :
  spread_where (where_String_opt StringNullableFilter) v = Some f ->
  f column = true ->
  forall s, v = JStr s -> s <> "" -> column = Some s.
Proof.
  intros Hf Hc s -> Hne. unfold spread_where in Hf. simpl in Hf.
  apply String.eqb_neq in Hne. rewrite Hne in Hf. simpl in Hf.
  injection Hf as <-. destruct column as [c|]; [|discriminate].
  apply String.eqb_eq in Hc. congruence.
Qed.

Lemma spread_where_String_plain (StringFilter : FilterOf string) (v : jsval) :
  plain_param v = true ->
  exists f, spread_where (where_String StringFilter) v = Some f /\
            forall column, f column = true <->
                           (forall s, v = JStr s -> s <> "" -> column = s).
Proof.
  destruct v as [| | | |x| | |]; try discriminate; intros _.
  - eexists. split; [reflexivity|]. intros column.
    split; [intros _ s H; discriminate|reflexivity].
  - unfold spread_where. simpl. destruct (x =? "") eqn:E; simpl.
    + apply String.eqb_eq in E. eexists. split; [reflexivity|].
      intros column. split; [|reflexivity].
      intros _ s H Hne. injection H as <-. contradiction.
    + apply String.eqb_neq in E. eexists. split; [reflexivity|].
      intros column. rewrite String.eqb_eq. split.
      * intros -> s H _. injection H as <-. reflexivity.
      * intros H. apply H; auto.
Qed.

Lemma spread_where_String_opt_plain
    (StringNullableFilter : FilterOf (option string)) (v : jsval) :
  plain_param v = true ->
  exists f, spread_where (where_String_opt StringNullableFilter) v = Some f /\
            forall column, f column = true <->
                           (forall s, v = JStr s -> s <> "" -> column = Some s).
Proof.
  destruct v as [| | | |x| | |]; try discriminate; intros _.
  - eexists. split; [reflexivity|]. intros column.
    split; [intros _ s H; discriminate|reflexivity].
  - unfold spread_where. simpl. destruct (x =? "") eqn:E; simpl.
    + apply String.eqb_eq in E. eexists. split; [reflexivity|].
      intros column. split; [|reflexivity].
      intros _ s H Hne. injection H as <-. contradiction.
    + apply String.eqb_neq in E. eexists. split; [reflexivity|].
      intros [c|].
      * rewrite String.eqb_eq. split.
        -- intros -> s H _. injection H as <-. reflexivity.
        -- intros H. specialize (H x eq_refl E). injection H as ->. reflexivity.
      * split; [discriminate|]. intros H. specialize (H x eq_refl E).
        discriminate.
Qed.

Lemma spread_where_array {A : Type} (read : jsval -> option (A -> bool))
    (items : list jsval) :
  read (JArr items) = None -> spread_where read (JArr items) = None.
Proof. intros H. unfold spread_where. simpl. exact H. Qed.

(** GET /api/tasks, with the query parameters as the query-string parser
    leaves them and for any reading of filter objects by the client.
    Every listing it answers holds only stored tasks that lie in a
    project of the requester and agree with every parameter given as a
    non-empty string, and the store is as before.  When every parameter
    is absent or a string, it answers the listing of exactly those tasks;
    a parameter given as the empty string filters nothing.  When a
    parameter is an array (a repeated key), it answers 500. *)
Theorem get_tasks_lists_visible_matching
    (StringFilter : FilterOf string)
    (StringNullableFilter : FilterOf (option string))
    (db : DB) (user : Identity) (query : TaskQuery) :
  (forall ts db',
     get_tasks StringFilter StringNullableFilter db user query
     = (res_json (JsonTasks ts), db') ->
     db' = db /\
     forall t,
       In t ts ->
       In t (tasks db) /\
       project_exists db (t_projectId t) = true /\
       members_some db (t_projectId t) (ident_id user) = true /\
       (forall s, q_projectId query = JStr s -> s <> "" -> t_projectId t = s) /\
       (forall s, q_status query = JStr s -> s <> "" -> t_status t = s) /\
       (forall s, q_priority query = JStr s -> s <> "" -> t_priority t = s) /\
       (forall s, q_assigneeId query = JStr s -> s <> "" ->
                  t_assigneeId t = Some s)) /\
  (plain_param (q_projectId query) = true ->
   plain_param (q_status query) = true ->
   plain_param (q_priority query) = true ->
   plain_param (q_assigneeId query) = true ->
   exists ts,
     get_tasks StringFilter StringNullableFilter db user query
     = (res_json (JsonTasks ts), db) /\
     forall t,
       In t ts <->
       In t (tasks db) /\
       project_exists db (t_projectId t) = true /\
       members_some db (t_projectId t) (ident_id user) = true /\
       (forall s, q_projectId query = JStr s -> s <> "" -> t_projectId t = s) /\
       (forall s, q_status query = JStr s -> s <> "" -> t_status t = s) /\
       (forall s, q_priority query = JStr s -> s <> "" -> t_priority t = s) /\
       (forall s, q_assigneeId query = JStr s -> s <> "" ->
                  t_assigneeId t = Some s)) /\
  ((exists items, q_projectId query = JArr items \/ q_status query = JArr items \/
                  q_priority query = JArr items \/ q_assigneeId query = JArr items) ->
   get_tasks StringFilter StringNullableFilter db user query
   = (res_error 500 "Failed to fetch tasks", db)).
Proof.
  split; [|split].
  - intros ts db'. unfold get_tasks.
    destruct (spread_where _ (q_projectId query)) as [f1|] eqn:E1;
      [|unfold res_error, res_json; intros H; discriminate].
    destruct (spread_where _ (q_status query)) as [f2|] eqn:E2;
      [|unfold res_error, res_json; intros H; discriminate].
    destruct (spread_where _ (q_priority query)) as [f3|] eqn:E3;
      [|unfold res_error, res_json; intros H; discriminate].
    destruct (spread_where _ (q_assigneeId query)) as [f4|] eqn:E4;
      [|unfold res_error, res_json; intros H; discriminate].
    intros H. injection H as <- <-. split; [reflexivity|].
    intros t Ht. apply filter_In in Ht as [Hin Hc].
    rewrite !andb_true_iff in Hc. destruct Hc as [[[[Hv H1] H2] H3] H4].
    apply task_visible_true in Hv as [Hex Hm].
    split; [exact Hin|]. split; [exact Hex|]. split; [exact Hm|].
    split; [exact (spread_where_String_sound _ _ _ _ E1 H1)|].
    split; [exact (spread_where_String_sound _ _ _ _ E2 H2)|].
    split; [exact (spread_where_String_sound _ _ _ _ E3 H3)|].
    exact (spread_where_String_opt_sound _ _ _ _ E4 H4).
  - intros P1 P2 P3 P4. unfold get_tasks.
    destruct (spread_where_String_plain StringFilter _ P1) as (f1 & -> & F1).
    destruct (spread_where_String_plain StringFilter _ P2) as (f2 & -> & F2).
    destruct (spread_where_String_plain StringFilter _ P3) as (f3 & -> & F3).
    destruct (spread_where_String_opt_plain StringNullableFilter _ P4)
      as (f4 & -> & F4).
    eexists. split; [reflexivity|]. intros t.
    rewrite filter_In, !andb_true_iff, task_visible_true, F1, F2, F3, F4.
    tauto.
  - intros [items H]. unfold get_tasks.
    destruct H as [H|[H|[H|H]]]; rewrite H;
      rewrite (spread_where_array _ items eq_refl);
      repeat match goal with
             | |- context [match ?x with _ => _ end] => destruct x
             end; reflexivity.
Qed.

(** Bob lists the tasks with status "todo" and an empty priority
    parameter: "t1" is listed. *)
Lemma get_tasks_lists_visible_matching_witness :
  exists ts,
    get_tasks filter0 filter0_opt db0 bob
      (mkTaskQuery JUndefined (JStr "todo") (JStr "") JUndefined)
    = (res_json (JsonTasks ts), db0) /\
    In (mkTask "t1" "Write docs" None "todo" "medium" None "p1" "u1" (Some "u2")) ts.
Proof.
  destruct (proj1 (proj2 (get_tasks_lists_visible_matching filter0 filter0_opt
              db0 bob (mkTaskQuery JUndefined (JStr "todo") (JStr "") JUndefined)))
              eq_refl eq_refl eq_refl eq_refl) as (ts & H & Hin).
  exists ts. split; [exact H|]. apply Hin. simpl.
  repeat split; auto; intros s E; inversion E; subst; auto;
    intros Hne; contradiction Hne; reflexivity.
Defined.

(** A repeated key ([?status=todo&status=done]) reaches the handler as an
    array and is answered 500; a bracketed key ([?status[not]=done])
    reaches it as an object and is read as a filter, here by the stand-in
    reader. *)
Lemma get_tasks_repeated_and_bracketed_key :
  get_tasks filter0 filter0_opt db0 bob
    (mkTaskQuery JUndefined (JArr [JStr "todo"; JStr "done"]) JUndefined JUndefined)
  = (res_error 500 "Failed to fetch tasks", db0) /\
  get_tasks filter0 filter0_opt db0 bob
    (mkTaskQuery JUndefined (JObj [("not", JStr "done")]) JUndefined JUndefined)
  = (res_json (JsonTasks (tasks db0)), db0) /\
  get_tasks filter0 filter0_opt db0 bob
    (mkTaskQuery JUndefined (JObj [("not", JStr "todo")]) JUndefined JUndefined)
  = (res_json (JsonTasks []), db0).
Proof. repeat split. Qed.

(** GET /api/tasks/:id answers with a task exactly when a stored task
    with the id lies in a project of the requester; the answer then
    carries such a task with exactly the comments and attachments of that
    task id. *)
Theorem get_tasks_id_iff_member (db : DB) (user : Identity) (id : string) :
  (exists t, In t (tasks db) /\ t_id t = id /\
             task_visible db (ident_id user) t = true)
  <-> exists t cs xs,
        get_tasks_id db user id = (res_json (JsonTaskDetail t cs xs), db) /\
        In t (tasks db) /\ t_id t = id /\
        members_some db (t_projectId t) (ident_id user) = true /\
        (forall c, In c cs <-> In c (comments db) /\ c_taskId c = id) /\
        (forall a, In a xs <-> In a (attachments db) /\ a_taskId a = id).
Proof.
  unfold get_tasks_id, task_findFirst. split.
  - intros (t & Hin & Hid & Hv).
    destruct (find _ (tasks db)) as [t'|] eqn:Ef.
    + apply find_some in Ef as [Hin' H]. apply andb_true_iff in H as [H1 H2].
      apply String.eqb_eq in H1. apply task_visible_true in H2 as [_ H2].
      exists t'. eexists. eexists. split; [reflexivity|].
      repeat split; auto.
      * apply filter_In in H as [H _]. exact H.
      * apply filter_In in H as [_ H]. apply String.eqb_eq in H. congruence.
      * intros [Ha Hb]. apply filter_In. split; [exact Ha|].
        apply String.eqb_eq. congruence.
      * apply filter_In in H as [H _]. exact H.
      * apply filter_In in H as [_ H]. apply String.eqb_eq in H. congruence.
      * intros [Ha Hb]. apply filter_In. split; [exact Ha|].
        apply String.eqb_eq. congruence.
    + exfalso. apply (find_none _ _ Ef) in Hin. simpl in Hin.
      rewrite Hid, String.eqb_refl, Hv in Hin. discriminate.
  - intros (t & cs & xs & H & Hin & Hid & Hm & _).
    destruct (find _ (tasks db)) as [t'|] eqn:Ef;
      [|unfold res_error in H; discriminate].
    apply find_some in Ef as [Hin' Hf]. apply andb_true_iff in Hf as [H1 H2].
    apply String.eqb_eq in H1. exists t'. auto.
Qed.

(** Bob reads "t1". *)
Lemma get_tasks_id_iff_member_witness :
  exists t cs xs,
    get_tasks_id db0 bob "t1" = (res_json (JsonTaskDetail t cs xs), db0) /\
    t_id t = "t1".
Proof.
  destruct (proj1 (get_tasks_id_iff_member db0 bob "t1")) as (t & cs & xs & H & _ & Hid & _).
  - exists (mkTask "t1" "Write docs" None "todo" "medium" None "p1" "u1" (Some "u2")).
    simpl. auto.
  - exists t, cs, xs. auto.
Defined.

Lemma task_findFirst_Some (db : DB) (id userId : string) (t : Task) :
  task_findFirst db id userId = Some t ->
  In t (tasks db) /\ t_id t = id /\ task_visible db userId t = true.
Proof.
  unfold task_findFirst. intros H. apply find_some in H as [Hin H].
  apply andb_true_iff in H as [H1 H2]. apply String.eqb_eq in H1. auto.
Qed.

Lemma task_findFirst_visible (db : DB) (id userId : string) (t : Task) :
  In t (tasks db) -> t_id t = id -> task_visible db userId t = true ->
  exists t', task_findFirst db id userId = Some t'.
Proof.
  intros Hin Hid Hv. unfold task_findFirst.
  destruct (find _ (tasks db)) as [t'|] eqn:Ef; [eauto|].
  exfalso. apply (find_none _ _ Ef) in Hin. simpl in Hin.
  rewrite Hid, String.eqb_refl, Hv in Hin. discriminate.
Qed.

(** Any member of a task's project can delete the task, creator or not,
    owner or not.  A deletion that is answered with success has removed
    the task rows with the id together with their comments and
    attachments and has kept every other row; afterwards the id is
    answered 404 to everyone. *)
Theorem delete_tasks_id_by_member (db : DB) (user : Identity) (id : string) :
  (forall t, In t (tasks db) -> t_id t = id ->
             task_visible db (ident_id user) t = true ->
             exists db', delete_tasks_id db user id = (res_json JsonSuccess, db')) /\
  (forall db',
     delete_tasks_id db user id = (res_json JsonSuccess, db') ->
     (forall t, In t (tasks db') <-> In t (tasks db) /\ t_id t <> id) /\
     (forall c, In c (comments db') <-> In c (comments db) /\ c_taskId c <> id) /\
     (forall a, In a (attachments db') <->
                In a (attachments db) /\ a_taskId a <> id) /\
     users db' = users db /\ projects db' = projects db /\
     members db' = members db /\
     (forall other, get_tasks_id db' other id
                    = (res_error 404 "Task not found", db'))).
Proof.
  unfold delete_tasks_id. split.
  - intros t Hin Hid Hv.
    destruct (task_findFirst_visible db id _ t Hin Hid Hv) as [t' ->].
    unfold task_delete, bind, guard.
    assert (Hex : task_exists db id = true).
    { unfold task_exists. apply existsb_exists. exists t. split; [exact Hin|].
      apply String.eqb_eq. exact Hid. }
    rewrite Hex. eauto.
  - intros db'. destruct (task_findFirst db id _) as [t|]; [|discriminate].
    destruct (task_delete db id) as [d|] eqn:E; [|discriminate].
    intros H. injection H as <-.
    unfold task_delete, bind, guard in E.
    destruct (task_exists db id); [|discriminate]. injection E as <-. simpl.
    assert (Hneq : forall a b : string, negb (a =? b) = true <-> a <> b).
    { intros a b. rewrite negb_true_iff. apply String.eqb_neq. }
    split; [intros x; rewrite filter_In, Hneq; tauto|].
    split; [intros x; rewrite filter_In, Hneq; tauto|].
    split; [intros x; rewrite filter_In, Hneq; tauto|].
    do 3 (split; [reflexivity|]).
    intros other. unfold get_tasks_id, task_findFirst. simpl.
    rewrite find_all_false; [reflexivity|].
    intros x Hx. apply filter_In in Hx as [_ Hx]. apply Hneq in Hx.
    apply String.eqb_neq in Hx. rewrite Hx. reflexivity.
Qed.

(** Bob, who did not create "t1" and does not own "p1", deletes it. *)
Lemma delete_tasks_id_by_member_witness :
  exists db', delete_tasks_id db0 bob "t1" = (res_json JsonSuccess, db') /\
              tasks db' = [].
Proof.
  destruct (proj1 (delete_tasks_id_by_member db0 bob "t1")
              (mkTask "t1" "Write docs" None "todo" "medium" None "p1" "u1" (Some "u2")))
    as [db' H]; [simpl; auto|reflexivity|reflexivity|].
  exists db'. split; [exact H|]. simpl in H. injection H as <-. reflexivity.
Defined.

(** A comment that is stored carries the text sent, the task id of the
    path and the authenticated identity as its author; it is the one row
    added, and the requester is a member of the task's project.  A
    member's comment with a non-empty text is stored; an empty text is
    answered 400. *)
Theorem post_comment_stamps_author (newId : string) (db : DB) (user : Identity)
    (id : string) (content : jsval) :
  (forall c db',
     post_tasks_id_comments newId db user id content
     = (res_json (JsonComment c), db') ->
     c_userId c = ident_id user /\ c_taskId c = id /\ c_id c = newId /\
     content = JStr (c_content c) /\ c_content c <> "" /\
     comments db' = (comments db ++ [c])%list /\
     tasks db' = tasks db /\ attachments db' = attachments db /\
     exists t, In t (tasks db) /\ t_id t = id /\
               members_some db (t_projectId t) (ident_id user) = true) /\
  (forall t text,
     content = JStr text -> text <> "" ->
     In t (tasks db) -> t_id t = id ->
     task_visible db (ident_id user) t = true ->
     user_exists db (ident_id user) = true ->
     existsb (fun c => c_id c =? newId) (comments db) = false ->
     post_tasks_id_comments newId db user id content
     = (res_json (JsonComment (mkComment newId text id (ident_id user))),
        with_comments db
          (comments db ++ [mkComment newId text id (ident_id user)]))) /\
  (truthy content = false ->
   post_tasks_id_comments newId db user id content
   = (res_error 400 "Content is required", db)).
Proof.
  unfold post_tasks_id_comments. split; [|split].
  - intros c db'. destruct (truthy content) eqn:Tc; simpl; [|discriminate].
    destruct (task_findFirst db id _) as [t|] eqn:Ef; [|discriminate].
    destruct (comment_create db newId content id _) as [[c' d]|] eqn:Ec;
      [|discriminate].
    intros H. injection H as -> ->.
    unfold comment_create, bind, guard in Ec.
    destruct content as [| | | |text| | |]; simpl in Ec; try discriminate.
    destruct (negb (existsb _ (comments db))); [|discriminate].
    destruct (task_exists db id); [|discriminate].
    destruct (user_exists db _); [|discriminate].
    injection Ec as <- <-. simpl.
    apply task_findFirst_Some in Ef as (Hin & Hid & Hv).
    apply task_visible_true in Hv as [_ Hm].
    repeat split; auto.
    + intros ->. discriminate.
    + exists t. auto.
  - intros t text -> Hne Hin Hid Hv Hu Hfresh.
    apply String.eqb_neq in Hne. simpl. rewrite Hne. simpl.
    destruct (task_findFirst_visible db id _ t Hin Hid Hv) as [t' ->].
    unfold comment_create, bind, guard. simpl. rewrite Hfresh. simpl.
    assert (Hex : task_exists db id = true).
    { unfold task_exists. apply existsb_exists. exists t. split; [exact Hin|].
      apply String.eqb_eq. exact Hid. }
    rewrite Hex, Hu. reflexivity.
  - intros ->. reflexivity.
Qed.

(** Bob comments on "t1". *)
Lemma post_comment_stamps_author_witness :
  post_tasks_id_comments "c1" db0 bob "t1" (JStr "On it")
  = (res_json (JsonComment (mkComment "c1" "On it" "t1" "u2")),
     with_comments db0 [mkComment "c1" "On it" "t1" "u2"]).
Proof.
  apply (proj1 (proj2 (post_comment_stamps_author "c1" db0 bob "t1" (JStr "On it")))
           (mkTask "t1" "Write docs" None "todo" "medium" None "p1" "u1" (Some "u2"))
           "On it");
    first [reflexivity | discriminate | (simpl; auto)].
Defined.

(** An attachment record that is stored names the requester as uploader
    and the task of the path, keeps the original file name, the MIME type
    and the size of the upload, and points at "/uploads/" followed by the
    stored file name; it is the one row added, and the requester is a
    member of the task's project.  Without a file the answer is 400. *)
Theorem post_attachment_records_upload (newId : string) (db : DB)
    (user : Identity) (id : string) (file : option UploadedFile) :
  (forall a db',
     post_tasks_id_attachments newId db user id file
     = (res_json (JsonAttachment a), db') ->
     exists f,
       file = Some f /\
       a = mkAttachment newId (f_originalname f) ("/uploads/" ++ f_filename f)
             (f_mimetype f) (f_size f) id (ident_id user) /\
       attachments db' = (attachments db ++ [a])%list /\
       tasks db' = tasks db /\ comments db' = comments db /\
       exists t, In t (tasks db) /\ t_id t = id /\
                 members_some db (t_projectId t) (ident_id user) = true) /\
  (file = None ->
   post_tasks_id_attachments newId db user id file
   = (res_error 400 "File is required", db)).
Proof.
  unfold post_tasks_id_attachments. split.
  - intros a db'. destruct file as [f|]; [|discriminate].
    destruct (task_findFirst db id _) as [t|] eqn:Ef; [|discriminate].
    destruct (attachment_create db _) as [[a' d]|] eqn:Ea; [|discriminate].
    intros H. injection H as -> ->.
    unfold attachment_create, bind, guard in Ea.
    destruct (negb (existsb _ (attachments db))); [|discriminate].
    destruct (task_exists db _); [|discriminate].
    destruct (user_exists db _); [|discriminate].
    injection Ea as <- <-. simpl.
    apply task_findFirst_Some in Ef as (Hin & Hid & Hv).
    apply task_visible_true in Hv as [_ Hm].
    exists f. repeat split; auto. exists t. auto.
  - intros ->. reflexivity.
Qed.

(** Bob attaches a file to "t1". *)
Lemma post_attachment_records_upload_witness :
  exists a db',
    post_tasks_id_attachments "a1" db0 bob "t1"
      (Some (mkUploadedFile "plan.pdf" "1700000000000-42-plan.pdf"
                            "application/pdf" 1024))
    = (res_json (JsonAttachment a), db') /\
    a_uploaderId a = "u2" /\ a_url a = "/uploads/1700000000000-42-plan.pdf".
Proof.
  pose (f := mkUploadedFile "plan.pdf" "1700000000000-42-plan.pdf"
               "application/pdf" 1024).
  pose (a := mkAttachment "a1" "plan.pdf" "/uploads/1700000000000-42-plan.pdf"
               "application/pdf" 1024 "t1" "u2").
  exists a, (with_attachments db0 [a]). split; [reflexivity|].
  destruct (proj1 (post_attachment_records_upload "a1" db0 bob "t1" (Some f))
              a (with_attachments db0 [a]) eq_refl)
    as (f' & Hf & Ha & _).
  rewrite Ha. injection Hf as <-. split; reflexivity.
Defined.

(* ================================================================== *)
(** ** What the project and task routes leave alone *)
(* ================================================================== *)

Lemma writes_keep_users :
  (forall db a b c d e p db', project_create db a b c d e = Some (p, db') ->
                              users db' = users db) /\
  (forall db a b c n db', project_updateMany db a b c = Some (n, db') ->
                          users db' = users db) /\
  (forall db a db', project_delete db a = Some db' -> users db' = users db) /\
  (forall db a b c d m db', projectMember_create db a b c d = Some (m, db') ->
                            users db' = users db) /\
  (forall db a b t db', task_create db a b = Some (t, db') ->
                        users db' = users db) /\
  (forall db a b c n db', task_updateMany db a b c = Some (n, db') ->
                          users db' = users db) /\
  (forall db a db', task_delete db a = Some db' -> users db' = users db) /\
  (forall db a b c d x db', comment_create db a b c d = Some (x, db') ->
                            users db' = users db) /\
  (forall db a x db', attachment_create db a = Some (x, db') ->
                      users db' = users db).
Proof.
  repeat apply conj; intros until db';
    [ unfold project_create | unfold project_updateMany | unfold project_delete
    | unfold projectMember_create | unfold task_create | unfold task_updateMany
    | unfold task_delete | unfold comment_create | unfold attachment_create ];
    unfold bind, guard;
    repeat match goal with
           | |- context [match ?x with _ => _ end] => destruct x; try discriminate
           end;
    intros H; injection H; intros; subst; reflexivity.
Qed.

(** No project, task, comment or attachment request changes the user
    table: emails, usernames and password hashes stay as they are through
    any sequence of such requests. *)
Theorem run_ops_keep_users (newDate : jsval -> option Z)
    (StringFilter : FilterOf string) (ops : list Op) (db : DB) :
  users (run_ops newDate StringFilter db ops) = users db.
Proof.
  destruct writes_keep_users as (W1 & W2 & W3 & W4 & W5 & W6 & W7 & W8 & W9).
  revert db. unfold run_ops. induction ops as [|op ops IH]; intros db; simpl;
    [reflexivity|].
  rewrite IH. clear IH. destruct op; simpl.
  - unfold post_projects. destruct (negb _); [reflexivity|].
    destruct (project_create _ _ _ _ _ _) as [[p d]|] eqn:E; [|reflexivity].
    exact (W1 _ _ _ _ _ _ _ _ E).
  - unfold put_projects_id.
    destruct (project_updateMany _ _ _ _) as [[c d]|] eqn:E; [|reflexivity].
    pose proof (W2 _ _ _ _ _ _ E).
    destruct (c =? 0)%nat; [assumption|].
    destruct (project_findUnique d id); assumption.
  - unfold delete_projects_id.
    destruct (projectMember_findFirst _ _); [|reflexivity].
    destruct (project_delete db id) as [d|] eqn:E; [|reflexivity].
    exact (W3 _ _ _ E).
  - unfold post_projects_id_members.
    destruct (user_findUnique_email _ _) as [[target|]|]; try reflexivity.
    destruct (projectMember_findFirst _ _); [reflexivity|].
    destruct (projectMember_create _ _ _ _ _) as [[m d]|] eqn:E; [|reflexivity].
    exact (W4 _ _ _ _ _ _ _ E).
  - unfold post_tasks. destruct (_ || _); [reflexivity|].
    destruct (where_String _ _); [|reflexivity].
    destruct (project_findFirst_where _ _ _); [|reflexivity].
    destruct (task_create _ _ _) as [[t d]|] eqn:E; [|reflexivity].
    exact (W5 _ _ _ _ _ E).
  - unfold put_tasks_id.
    destruct (task_updateMany _ _ _ _) as [[c d]|] eqn:E; [|reflexivity].
    pose proof (W6 _ _ _ _ _ _ E).
    destruct (c =? 0)%nat; [assumption|].
    destruct (task_findUnique d id); assumption.
  - unfold delete_tasks_id.
    destruct (task_findFirst _ _ _); [|reflexivity].
    destruct (task_delete db id) as [d|] eqn:E; [|reflexivity].
    exact (W7 _ _ _ E).
  - unfold post_tasks_id_comments. destruct (negb _); [reflexivity|].
    destruct (task_findFirst _ _ _); [|reflexivity].
    destruct (comment_create _ _ _ _ _) as [[c d]|] eqn:E; [|reflexivity].
    exact (W8 _ _ _ _ _ _ _ E).
  - unfold post_tasks_id_attachments. destruct file as [f|]; [|reflexivity].
    destruct (task_findFirst _ _ _); [|reflexivity].
    destruct (attachment_create _ _) as [[a d]|] eqn:E; [|reflexivity].
    exact (W9 _ _ _ _ E).
Qed.






(* ================================================================== *)
(** ** Memberships *)
(* ================================================================== *)

Lemma writes_keep_memberships :
  (forall db a b t db', task_create db a b = Some (t, db') ->
                        projects db' = projects db /\ members db' = members db) /\
  (forall db a b c n db', task_updateMany db a b c = Some (n, db') ->
                          projects db' = projects db /\ members db' = members db) /\
  (forall db a db', task_delete db a = Some db' ->
                    projects db' = projects db /\ members db' = members db) /\
  (forall db a b c d x db', comment_create db a b c d = Some (x, db') ->
                            projects db' = projects db /\ members db' = members db) /\
  (forall db a x db', attachment_create db a = Some (x, db') ->
                      projects db' = projects db /\ members db' = members db).
Proof.
  repeat apply conj; intros until db';
    [ unfold task_create | unfold task_updateMany | unfold task_delete
    | unfold comment_create | unfold attachment_create ];
    unfold bind, guard;
    repeat match goal with
           | |- context [match ?x with _ => _ end] => destruct x; try discriminate
           end;
    intros H; injection H; intros; subst; split; reflexivity.
Qed.

Lemma memberships_wf_same (db db' : DB) :
  projects db' = projects db -> members db' = members db ->
  memberships_wf db -> memberships_wf db'.
Proof.
  unfold memberships_wf, project_exists. intros -> ->. auto.
Qed.

Lemma projectMember_create_Some (db db' : DB) (newId projectId userId : string)
    (role : jsval) (m : ProjectMember) :
  projectMember_create db newId projectId userId role = Some (m, db') ->
  role = JStr (m_role m) /\ m_projectId m = projectId /\ m_userId m = userId /\
  project_exists db projectId = true /\
  db' = with_members db (members db ++ [m]).
Proof.
  unfold projectMember_create, bind, guard.
  destruct role; simpl; try discriminate.
  destruct (negb (existsb _ (members db))); try discriminate.
  destruct (project_exists db projectId); try discriminate.
  destruct (user_exists db userId); try discriminate.
  intros H. injection H as <- <-. simpl. auto.
Qed.

Lemma existsb_map_same_key {A : Type} (k : A -> string) (g : A -> A)
    (id : string) (l : list A) :
  (forall x, k (g x) = k x) ->
  existsb (fun x => k x =? id) (map g l) = existsb (fun x => k x =? id) l.
Proof.
  intros Hk. induction l as [|a l IH]; simpl; [reflexivity|].
  rewrite Hk, IH. reflexivity.
Qed.

Lemma run_op_memberships_wf (newDate : jsval -> option Z)
    (StringFilter : FilterOf string) (db : DB) (op : Op) :
  memberships_wf db -> memberships_wf (snd (run_op newDate StringFilter db op)).
Proof.
  destruct writes_keep_memberships as (W5 & W6 & W7 & W8 & W9).
  intros Hwf. destruct op; simpl.
  - (* POST /api/projects *)
    unfold post_projects. destruct (negb _); [exact Hwf|].
    destruct (project_create _ _ _ _ _ _) as [[p d]|] eqn:E; [|exact Hwf].
    apply project_create_Some in E as (_ & _ & Hid & Hfresh & ->). simpl.
    destruct Hwf as [Hex Hnd]. split; simpl.
    + intros m Hm. unfold project_exists. simpl. rewrite existsb_app.
      apply in_app_or in Hm as [Hm|[<-|[]]].
      * apply orb_true_iff. left. exact (Hex m Hm).
      * simpl. rewrite Hid, String.eqb_refl. apply orb_true_r.
    + apply NoDup_map_snoc; [exact Hnd|]. simpl. intros Hin.
      apply in_map_iff in Hin as (m & Hk & Hm). injection Hk as Hp _.
      specialize (Hex m Hm). rewrite Hp in Hex. congruence.
  - (* PUT /api/projects/:id *)
    unfold put_projects_id.
    destruct (project_updateMany _ _ _ _) as [[c d]|] eqn:E; [|exact Hwf].
    apply project_updateMany_Some in E as (_ & _ & _ & _ & ->).
    assert (H : memberships_wf
              (with_projects db
                 (map (fun p => if (p_id p =? id) && members_some db (p_id p) (ident_id user)
                                then mkProject (p_id p)
                                       (set_String (pb_name body) (p_name p))
                                       (set_String_opt (pb_description body) (p_description p))
                                       (set_String (pb_color body) (p_color p))
                                else p) (projects db)))).
    { destruct Hwf as [Hex Hnd]. split; simpl; [|exact Hnd].
      intros m Hm. unfold project_exists. simpl.
      rewrite existsb_map_same_key; [exact (Hex m Hm)|].
      intros x. destruct (_ && _); reflexivity. }
    destruct (c =? 0)%nat; [exact H|].
    destruct (project_findUnique _ id); exact H.
  - (* DELETE /api/projects/:id *)
    unfold delete_projects_id.
    destruct (projectMember_findFirst _ _); [|exact Hwf].
    destruct (project_delete db id) as [d|] eqn:E; [|exact Hwf].
    apply project_delete_Some in E as (_ & Hps & Hms & _). simpl.
    destruct Hwf as [Hex Hnd]. split.
    + intros m Hm. rewrite Hms in Hm. apply filter_In in Hm as [Hm Hne].
      apply negb_true_iff in Hne.
      specialize (Hex m Hm). apply project_exists_true in Hex as [q [Hp Hpid]].
      apply project_exists_true. exists q. split; [|exact Hpid].
      rewrite Hps. apply filter_In. split; [exact Hp|].
      rewrite Hpid. rewrite Hne. reflexivity.
    + rewrite Hms. apply NoDup_map_filter. exact Hnd.
  - (* POST /api/projects/:id/members *)
    unfold post_projects_id_members.
    destruct (user_findUnique_email _ _) as [[target|]|]; try exact Hwf.
    destruct (projectMember_findFirst _ _) eqn:Ef; [exact Hwf|].
    destruct (projectMember_create _ _ _ _ _) as [[m d]|] eqn:E; [|exact Hwf].
    apply projectMember_create_Some in E as (_ & Hp & Hu & Hpe & ->). simpl.
    destruct Hwf as [Hex Hnd]. split; simpl.
    + intros x Hx. unfold project_exists. simpl.
      apply in_app_or in Hx as [Hx|[<-|[]]].
      * exact (Hex x Hx).
      * rewrite Hp. exact Hpe.
    + apply NoDup_map_snoc; [exact Hnd|]. intros Hin.
      apply in_map_iff in Hin as (x & Hk & Hx). injection Hk as Hkp Hku.
      unfold projectMember_findFirst in Ef.
      apply (find_none _ _ Ef) in Hx. simpl in Hx.
      rewrite Hkp, Hku, Hp, Hu, !String.eqb_refl in Hx. discriminate.
  - unfold post_tasks. destruct (_ || _); [exact Hwf|].
    destruct (where_String _ _); [|exact Hwf].
    destruct (project_findFirst_where _ _ _); [|exact Hwf].
    destruct (task_create _ _ _) as [[t d]|] eqn:E; [|exact Hwf].
    destruct (W5 _ _ _ _ _ E). simpl. eapply memberships_wf_same; eauto.
  - unfold put_tasks_id.
    destruct (task_updateMany _ _ _ _) as [[c d]|] eqn:E; [|exact Hwf].
    destruct (W6 _ _ _ _ _ _ E).
    assert (memberships_wf d) by (eapply memberships_wf_same; eauto).
    destruct (c =? 0)%nat; [assumption|].
    destruct (task_findUnique d id); assumption.
  - unfold delete_tasks_id.
    destruct (task_findFirst _ _ _); [|exact Hwf].
    destruct (task_delete db id) as [d|] eqn:E; [|exact Hwf].
    destruct (W7 _ _ _ E). simpl. eapply memberships_wf_same; eauto.
  - unfold post_tasks_id_comments. destruct (negb _); [exact Hwf|].
    destruct (task_findFirst _ _ _); [|exact Hwf].
    destruct (comment_create _ _ _ _ _) as [[c d]|] eqn:E; [|exact Hwf].
    destruct (W8 _ _ _ _ _ _ _ E). simpl. eapply memberships_wf_same; eauto.
  - unfold post_tasks_id_attachments. destruct file as [f|]; [|exact Hwf].
    destruct (task_findFirst _ _ _); [|exact Hwf].
    destruct (attachment_create _ _) as [[a d]|] eqn:E; [|exact Hwf].
    destruct (W9 _ _ _ _ E). simpl. eapply memberships_wf_same; eauto.
Qed.

(** Through any sequence of project, task, comment and attachment
    requests, every membership row names a stored project and no user has
    two membership rows in the same project. *)
Theorem memberships_stay_unique (newDate : jsval -> option Z)
    (StringFilter : FilterOf string) (ops : list Op)
    (db : DB) :
  memberships_wf db -> memberships_wf (run_ops newDate StringFilter db ops).
Proof.
  revert db. unfold run_ops.
  induction ops as [|op ops IH]; simpl; intros db Hwf; [exact Hwf|].
  apply IH. apply run_op_memberships_wf. exact Hwf.
Qed.

(** Alice adds bob a second time (refused), then carol; bob creates a
    project of his own. *)
Lemma memberships_stay_unique_witness :
  memberships_wf
    (run_ops newDate0 filter0 db0
       [ PostProjectsIdMembers "m3" alice "p1"
           (mkMemberBody (JStr "bob@example.com") JUndefined);
         PostProjectsIdMembers "m4" alice "p1"
           (mkMemberBody (JStr "carol@example.com") JUndefined);
         PostProjects "p2" "m5" bob
           (mkProjectBody (JStr "Side") JUndefined JUndefined) ]).
Proof.
  apply memberships_stay_unique. split.
  - intros m Hin. simpl in Hin. destruct Hin as [<-|[<-|[]]]; reflexivity.
  - simpl. repeat (constructor; [simpl; intuition discriminate|]). constructor.
Defined.

(** When adding a member is answered with the new row, the added user can
    read the project from then on, and the row has the role the body
    gives, whatever it is, or "member" when it gives none. *)
Theorem added_member_can_read (newId : string) (db db' : DB) (user : Identity)
    (id : string) (body : MemberBody) (m : ProjectMember) :
  post_projects_id_members newId db user id body = (res_json (JsonMember m), db') ->
  (forall r, mb_role body = JStr r -> r <> "" -> m_role m = r) /\
  (truthy (mb_role body) = false -> m_role m = "member") /\
  forall target, ident_id target = m_userId m ->
    exists p ms ts,
      get_projects_id db' target id = (res_json (JsonProjectDetail p ms ts), db') /\
      p_id p = id /\ In m ms.
Proof.
  unfold post_projects_id_members.
  destruct (user_findUnique_email _ _) as [[t|]|]; try discriminate.
  destruct (projectMember_findFirst _ _); [discriminate|].
  destruct (projectMember_create _ _ _ _ _) as [[m' d]|] eqn:E; [|discriminate].
  intros H. injection H as -> ->.
  apply projectMember_create_Some in E as (Hr & Hp & Hu & Hpe & ->).
  split; [|split].
  - intros r Hb Hne. unfold js_or in Hr. rewrite Hb in Hr. simpl in Hr.
    apply String.eqb_neq in Hne. rewrite Hne in Hr. simpl in Hr. congruence.
  - intros Hf. unfold js_or in Hr. rewrite Hf in Hr. congruence.
  - intros target Hid.
    assert (Hex : project_exists (with_members db (members db ++ [m])) id = true)
      by exact Hpe.
    assert (Hm : members_some (with_members db (members db ++ [m])) id
                   (ident_id target) = true).
    { apply members_some_true. exists m. simpl. split.
      - apply in_or_app. right. left. reflexivity.
      - split; [exact Hp|]. symmetry. exact Hid. }
    destruct (project_findFirst_member _ id _ Hex Hm) as [p [Hf Hpid]].
    unfold get_projects_id. rewrite Hf.
    exists p. eexists. eexists. split; [reflexivity|]. split; [exact Hpid|].
    apply filter_In. split.
    + simpl. apply in_or_app. right. left. reflexivity.
    + apply String.eqb_eq. congruence.
Qed.

(** Alice adds carol to "p1": carol, answered 404 before, now reads it. *)
Lemma added_member_can_read_witness :
  fst (get_projects_id db0 carol "p1") = res_error 404 "Project not found" /\
  exists p ms ts,
    get_projects_id
      (snd (post_projects_id_members "m3" db0 alice "p1"
              (mkMemberBody (JStr "carol@example.com") JUndefined)))
      carol "p1"
    = (res_json (JsonProjectDetail p ms ts),
       snd (post_projects_id_members "m3" db0 alice "p1"
              (mkMemberBody (JStr "carol@example.com") JUndefined))) /\
    p_id p = "p1".
Proof.
  split; [reflexivity|].
  destruct (added_member_can_read "m3" db0 _ alice "p1"
              (mkMemberBody (JStr "carol@example.com") JUndefined)
              (mkProjectMember "m3" "p1" "u3" "member") eq_refl)
    as (_ & _ & H).
  destruct (H carol eq_refl) as (p & ms & ts & Hg & Hid & _).
  exists p, ms, ts. split; [exact Hg|exact Hid].
Defined.

(* ================================================================== *)
(** ** Stored file names *)
(* ================================================================== *)

Lemma digits_lack_dash (d : Decimal.uint) :
  lacks "-"%char (DecimalString.NilEmpty.string_of_uint d) = true.
Proof. induction d; simpl; auto. Qed.

Lemma app_separator_inj (c : ascii) (a a' r r' : string) :
  lacks c a = true -> lacks c a' = true ->
  a ++ String c r = a' ++ String c r' -> a = a' /\ r = r'.
Proof.
  revert a'. induction a as [|x a IH]; intros [|x' a']; simpl; intros Ha Ha' E.
  - injection E as <-. auto.
  - injection E as <- _. rewrite Ascii.eqb_refl in Ha'. discriminate.
  - injection E as -> _. rewrite Ascii.eqb_refl in Ha. discriminate.
  - injection E as <- E. apply andb_true_iff in Ha as [_ Ha].
    apply andb_true_iff in Ha' as [_ Ha'].
    destruct (IH a' Ha Ha' E) as [<- <-]. auto.
Qed.

Lemma number_to_string_inj (n m : N) :
  number_to_string n = number_to_string m -> n = m.
Proof.
  unfold number_to_string. intros E.
  assert (H : Some (N.to_uint n) = Some (N.to_uint m)).
  { rewrite <- !DecimalString.NilEmpty.usu, E. reflexivity. }
  injection H as H.
  rewrite <- (DecimalN.Unsigned.of_to n), <- (DecimalN.Unsigned.of_to m), H.
  reflexivity.
Qed.

(** The name under which an upload is stored determines the clock value,
    the random number and the original name it was built from: two
    uploads get the same stored name only if all three agree. *)
Theorem storage_filename_injective (now now' random random' : N)
    (originalname originalname' : string) :
  storage_filename now random originalname
  = storage_filename now' random' originalname' ->
  now = now' /\ random = random' /\ originalname = originalname'.
Proof.
  unfold storage_filename. rewrite !string_app_assoc. intros E.
  apply app_separator_inj in E as [En E];
    try (unfold number_to_string; apply digits_lack_dash).
  apply app_separator_inj in E as [Er E];
    try (unfold number_to_string; apply digits_lack_dash).
  apply number_to_string_inj in En, Er. auto.
Qed.

(** Two uploads of "plan.pdf" in the same millisecond with different
    random numbers are stored under different names. *)
Lemma storage_filename_injective_witness :
  storage_filename 1700000000000 42 "plan.pdf"
  <> storage_filename 1700000000000 43 "plan.pdf".
Proof.
  intros E.
  apply (storage_filename_injective 1700000000000 1700000000000 42 43
           "plan.pdf" "plan.pdf") in E.
  destruct E as (_ & E & _). discriminate E.
Defined.
